(** * lightwood: the Neural mixer (lightwood/mixers/neural.py) and the
    transformer helpers of the time-series encoders

    A shallow embedding of the training control code of the [Neural] mixer:
    loss selection, the learning-rate sweep, the bounded trainer, [fit],
    final tuning and the decode glue of inference; and of the masks, the
    chunking and the mask cache of the transformer helpers.

    What PyTorch, NumPy, scikit-learn and the wall clock compute is left
    opaque (the [Torch] interface below); the control flow around them, the
    comparisons on IEEE binary64 values, the Python container operations,
    the checks scikit-learn makes on its input, and the shapes of the NumPy
    array and of the pandas table that [__call__] builds are translated from
    the source and from the behaviour of these libraries. *)

From Stdlib Require Import ZArith Bool Lia.
From Stdlib Require Import Floats.SpecFloat Floats.PrimFloat Floats.FloatOps.
From stdpp Require Import base option list strings gmap.

Set Warnings "-inexact-float".
Local Open Scope Z_scope.

(** ** IEEE binary64 values

    Python [float] and [np.float64] are binary64.  They are modelled by the
    Standard Library's [spec_float] at precision 53 and exponent bound 1024,
    with round-to-nearest-even arithmetic. *)

Module F64.

Definition prec : Z := 53.
Definition emax : Z := 1024.

Definition add : spec_float -> spec_float -> spec_float := SFadd prec emax.
Definition sub : spec_float -> spec_float -> spec_float := SFsub prec emax.
Definition mul : spec_float -> spec_float -> spec_float := SFmul prec emax.
Definition div : spec_float -> spec_float -> spec_float := SFdiv prec emax.

(** Python's [x < y], [x <= y] and [x > y]; every comparison with NaN is
    [False]. *)
Definition ltb (x y : spec_float) : bool := SFltb x y.
Definition leb (x y : spec_float) : bool := SFleb x y.
Definition gtb (x y : spec_float) : bool := SFltb y x.

(** [np.isnan] and [np.isinf]. *)
Definition isnan (x : spec_float) : bool :=
  match x with S754_nan => true | _ => false end.
Definition isinf (x : spec_float) : bool :=
  match x with S754_infinity _ => true | _ => false end.

Definition nan : spec_float := S754_nan.
Definition inf : spec_float := S754_infinity false.
Definition zero : spec_float := S754_zero false.

(** Conversion of a Python [int] to [float] (exact below 2^53). *)
Definition of_Z (z : Z) : spec_float := binary_normalize prec emax z 0 false.

(** An [int] as the binary64 value it is, not rounded (the mantissa may
    be longer than 53 bits). *)
Definition exact_Z (z : Z) : spec_float :=
  match z with
  | Z0 => S754_zero false
  | Zpos p => S754_finite false p 0
  | Zneg p => S754_finite true p 0
  end.

(** Python's [x > z] for a [float] and an [int]: the two are compared as
    the numbers they are, the [int] is not rounded to a [float] first. *)
Definition gt_Z (x : spec_float) (z : Z) : bool :=
  match x with
  | S754_nan => false
  | S754_infinity s => negb s
  | S754_zero _ => z <? 0
  | S754_finite s m e =>
      let n := if s then Zneg m else Zpos m in
      if 0 <=? e then z <? n * 2 ^ e
      else z * 2 ^ (- e) <? n
  end.

(** Python's [a / b] for two [int]s, [b <> 0]: the quotient of the two
    integers, rounded once (an infinity stands for the [OverflowError] of a
    quotient too large for a [float]). *)
Definition div_Z (a b : Z) : spec_float := SFdiv prec emax (exact_Z a) (exact_Z b).

(** Python's [int(x)] on a float: truncation towards zero; [None] stands
    for the [ValueError] / [OverflowError] raised on NaN and infinities. *)
Definition to_int (x : spec_float) : option Z :=
  match x with
  | S754_zero _ => Some 0
  | S754_finite s m e =>
      let a := match e with
               | Z0 => Zpos m
               | Zpos p => Zpos m * 2 ^ Zpos p
               | Zneg p => Zpos m / 2 ^ Zpos p
               end in
      Some (if s then - a else a)
  | S754_infinity _ | S754_nan => None
  end.

(** The literals of the source. *)
Definition lit_0_9 : spec_float := Eval vm_compute in Prim2SF 0.9%float.
Definition lit_1_4 : spec_float := Eval vm_compute in Prim2SF 1.4%float.
Definition lit_1e_4 : spec_float := Eval vm_compute in Prim2SF 0.0001%float.
Definition lit_2e_2 : spec_float := Eval vm_compute in Prim2SF 0.02%float.
Definition lit_0_5 : spec_float := Eval vm_compute in Prim2SF 0.5%float.
Definition lit_0_8 : spec_float := Eval vm_compute in Prim2SF 0.8%float.
Definition lit_0_75 : spec_float := Eval vm_compute in Prim2SF 0.75%float.
(** [pow(2, 32)], an [int] that Python converts to binary64 when it is
    compared with an [np.float64]. *)
Definition pow_2_32 : spec_float := Eval vm_compute in of_Z (2 ^ 32).

(** [x ** i] for a small positive integer [i], by repeated multiplication
    (exact on the powers of 1/2 the source uses). *)
Fixpoint pow (x : spec_float) (i : nat) : spec_float :=
  match i with
  | O => of_Z 1
  | S j => mul x (pow x j)
  end.

End F64.

Abbreviation float := spec_float.


(** ** Python values and exceptions *)

Inductive exn : Type :=
  | IndexError
  | KeyError
  | ValueError
  | OverflowError
  | AttributeError.

Inductive result (A : Type) : Type :=
  | Ok (a : A)
  | Raise (e : exn).
Arguments Ok {A} a.
Arguments Raise {A} e.

#[global] Instance result_ret : MRet result := fun A a => Ok a.
#[global] Instance result_bind : MBind result := fun A B f r =>
  match r with
  | Ok a => f a
  | Raise e => Raise e
  end.

(** Reading an attribute that has not been assigned yet. *)
Definition attr {A} (o : option A) : result A :=
  match o with
  | Some a => Ok a
  | None => Raise AttributeError
  end.

(** [l[i]] on a Python list, for [i >= 0]. *)
Definition py_index {A} (l : list A) (i : nat) : result A :=
  match l !! i with
  | Some a => Ok a
  | None => Raise IndexError
  end.

(** [l[-k]] on a Python list, for [1 <= k <= len(l)]; outside that range
    Python raises, and the callers below guard the length first. *)
Definition neg_index (l : list float) (k : nat) : float :=
  default F64.nan (l !! (length l - k)%nat).

(** [x in (a, b, ...)]: membership in a tuple, by equality. *)
Definition in_tuple (x : string) (t : list string) : bool := bool_decide (x ∈ t).

(** [x in s] for two [str]: [x] occurs in [s] as a substring. *)
Fixpoint in_str (x s : string) : bool :=
  String.prefix x s ||
  match s with
  | EmptyString => false
  | String _ s' => in_str x s'
  end.

(** A decoded value, a cell of a dataframe. *)
Inductive Cell : Type :=
  | CNum (x : float)
  | CStr (s : string).

(** A tensor of one or two dimensions. *)
Inductive Tensor : Type :=
  | T1 (v : list float)
  | T2 (rows : list (list float)).

Definition shape_len (t : Tensor) : Z :=
  match t with T1 _ => 1 | T2 _ => 2 end.

(** [torch.unsqueeze(t, 0) if len(t.shape) < 2 else t] *)
Definition unsqueeze_if_flat (t : Tensor) : Tensor :=
  if shape_len t <? 2 then
    match t with T1 v => T2 [v] | T2 _ => t end
  else t.

Definition tensor_len (t : Tensor) : Z :=
  match t with
  | T1 v => Z.of_nat (length v)
  | T2 rows => Z.of_nat (length rows)
  end.

(** ** lightwood.api.dtype *)

Module dtype.
(** Modelled from the spec: the type names of [lightwood.api.dtype], a
    module that is not among the sources.  The spec names the categorical,
    binary, "tags", integer, float and array target types; each constant
    is the string of its own name. *)
Definition integer : string := "integer".
Definition float : string := "float".
Definition binary : string := "binary".
Definition categorical : string := "categorical".
Definition tags : string := "tags".
Definition array : string := "array".
End dtype.

(** ** Collaborators: encoder, settings, datasets *)

(** The target encoder, as far as the mixer reads and writes it. *)
Record Encoder : Type := {
  decode_log : bool;
  index_weights : list float;
  dependencies : list string
}.

Definition set_decode_log (b : bool) (e : Encoder) : Encoder :=
  {| decode_log := b; index_weights := index_weights e;
     dependencies := dependencies e |}.

Record TimeseriesSettings : Type := {
  is_timeseries : bool;
  nr_predictions : Z
}.

(** One row of an encoded dataset: the pair (X, Y) of encoded vectors. *)
Definition Sample : Type := list float * list float.

(** A collated batch (X, Y). *)
Definition Batch : Type := Tensor * Tensor.

(** Modelled from the spec: [EncodedDs] of [lightwood.data.encoded_ds], which
    is not among the sources: "an ordered, indexable sequence of (X, Y)
    pairs" that "additionally exposes the source dataframe (for row-wise
    auxiliary lookups) and ... a per-encoder span layout". *)
Record EncodedDs : Type := {
  samples : list Sample;
  data_frame : list (gmap string Cell);
  encoder_spans : gmap string (Z * Z)
}.

(** Modelled from the spec: [ConcatedEncodedDs] of
    [lightwood.data.encoded_ds], which is not among the sources: "multiple
    such datasets can be concatenated into one logical dataset preserving
    row order across the concatenation boundary". *)
Definition ConcatedEncodedDs (ds_arr : list EncodedDs) : list Sample :=
  concat (map samples ds_arr).

(** The loss functions [_select_criterion] chooses between. *)
Inductive Criterion : Type :=
  | TransformCrossEntropyLoss (weight : list float)
  | BCEWithLogitsLoss
  | L1Loss
  | MSELoss.

Inductive NetClass : Type := DefaultNet | ArNet.

Record NetKwargs : Type := {
  input_size : nat;
  output_size : nat;
  kw_num_hidden : Z;
  dropout : Z;
  encoder_span : option (gmap string (Z * Z));
  target_name : option string
}.

(** The keyword arguments [__call__] hands to [decode]. *)
Record DecodeKwargs : Type := {
  dependency_data : option (gmap string (list Cell));
  return_raw : option bool
}.

(** A data loader, by what one pass over it yields: [dl p] are the batches
    of pass number [p] (a shuffling loader yields a new order each pass). *)
Definition Loader : Type := Z -> list Batch.

(** ** What the libraries compute

    The numerical work of PyTorch, torch_optimizer, NumPy and scikit-learn
    is not translated; the mixer is parametric in it. *)

Class Torch (Model Optim Scaler : Type) : Type := {
  (** the constructor of the network class, applied to its keyword arguments *)
  net_init : NetClass -> NetKwargs -> Model;
  (** [model.train()] and [model.eval()] *)
  set_train : Model -> Model;
  set_eval : Model -> Model;
  (** [model(X)] *)
  forward : Model -> Tensor -> Tensor;
  (** [criterion(Yh, Y).item()] *)
  loss_item : Criterion -> Tensor -> Tensor -> float;
  (** [ad_optim.Ranger(model.parameters(), lr=..., weight_decay=...)] *)
  Ranger : Model -> float -> option float -> Optim;
  (** [optimizer.param_groups[0]['lr']], read and written *)
  get_lr : Optim -> float;
  set_lr : float -> Optim -> Optim;
  (** [GradScaler()] *)
  GradScaler : Scaler;
  (** One training step on a batch: [zero_grad], the forward pass and the
      loss under [LightwoodAutocast], [backward] and the optimizer step
      (through the scaler when autocast is active).  It updates the network
      in place and yields [loss.item()]. *)
  train_batch :
    Criterion -> Batch -> Model -> Optim -> Scaler -> Model * Optim * Scaler * float;
  (** [np.mean] and [np.average(..., weights=...)] of a list *)
  np_mean : list float -> float;
  np_average : list float -> list float -> float;
  (** [sklearn.metrics.r2_score(y_true, y_pred)] on input it accepts *)
  r2_score : list Cell -> list Cell -> float;
  (** [target_encoder.decode] on [Yh] and the keyword arguments: the decoded
      predictions *)
  decode : Encoder -> Tensor -> DecodeKwargs -> list Cell;
  (** with [return_raw] set, [decode] returns a triple: the decoded
      predictions, the matrix of probabilities (one row for each row of
      [Yh]) and [rev_map], of which the labels [rev_map.values()] are read,
      in the order of the dictionary and as an f-string prints them *)
  decode_probs : Encoder -> Tensor -> DecodeKwargs -> list (list float);
  decode_rev_map : Encoder -> Tensor -> DecodeKwargs -> list string;
  (** the order in which a shuffling [DataLoader] visits the rows on a pass *)
  permute : Z -> list Sample -> list Sample
}.

(** A reference to a network: [best_model = self.model] binds the live
    network object itself, which training keeps updating in place, while
    [deepcopy(self.model)] is an independent snapshot. *)
Inductive ModelRef (Model : Type) : Type :=
  | Live
  | Snapshot (m : Model).
Arguments Live {Model}.
Arguments Snapshot {Model} m.

Definition deref {Model} (live : Model) (r : ModelRef Model) : Model :=
  match r with
  | Live => live
  | Snapshot m => m
  end.

(** [range(lo, hi)] *)
Fixpoint range_from (lo : Z) (n : nat) : list Z :=
  match n with
  | O => []
  | S n' => lo :: range_from (lo + 1) n'
  end.

Definition py_range (lo hi : Z) : list Z := range_from lo (Z.to_nat (hi - lo)).

(** [l[:-1]] *)
Definition py_init {A} (l : list A) : list A := take (length l - 1)%nat l.

(** [np.argmin] on a one-dimensional array of doubles: the first NaN if
    there is one, otherwise the first smallest entry; an empty argument
    raises [ValueError]. *)
Fixpoint argmin_scan (mp : float) (min_ind i : nat) (l : list float) : nat :=
  match l with
  | [] => min_ind
  | x :: l' =>
      if F64.isnan mp then min_ind
      else if negb (F64.leb mp x) then argmin_scan x i (S i) l'
      else argmin_scan mp min_ind (S i) l'
  end.

Definition np_argmin (l : list float) : result nat :=
  match l with
  | [] => Raise ValueError
  | x :: l' => Ok (argmin_scan x 0%nat 1%nat l')
  end.

(** [torch.utils.data.DataLoader] with the default collation and
    [drop_last=False]: consecutive groups of [batch_size] rows, the last one
    possibly shorter. *)
Fixpoint chunks {A} (fuel n : nat) (l : list A) : list (list A) :=
  match fuel with
  | O => []
  | S fuel' =>
      match l with
      | [] => []
      | _ :: _ => take n l :: chunks fuel' n (drop n l)
      end
  end.

Definition collate (rows : list Sample) : Batch := (T2 (rows.*1), T2 (rows.*2)).

Definition no_kwargs : DecodeKwargs :=
  {| dependency_data := None; return_raw := None |}.

(** ** The mixer *)

Section Neural.

Context {Model Optim Scaler : Type} `{!Torch Model Optim Scaler}.

Definition DataLoader (ds : list Sample) (batch_size : Z) (shuffle : bool) : Loader :=
  fun pass =>
    let rows := if shuffle then permute pass ds else ds in
    collate <$> chunks (length rows) (Z.to_nat batch_size) rows.

(** The attributes of a [Neural] object.  [model], [batch_size], [lr] and
    [num_hidden] are not assigned by [__init__]; reading them before [fit]
    has assigned them raises [AttributeError]. *)
Record Neural : Type := {
  stop_after : Z;
  dtype_dict : gmap string string;
  target : string;
  timeseries_settings : TimeseriesSettings;
  target_encoder : Encoder;
  epochs_to_best : Z;
  fit_on_dev : bool;
  net_class : NetClass;
  supports_proba : bool;
  search_hyperparameters : bool;
  stable : bool;
  model : option Model;
  batch_size : option Z;
  lr : option float;
  num_hidden : option Z
}.

Definition set_model (m : Model) (self : Neural) : Neural :=
  {| stop_after := stop_after self; dtype_dict := dtype_dict self;
     target := target self; timeseries_settings := timeseries_settings self;
     target_encoder := target_encoder self; epochs_to_best := epochs_to_best self;
     fit_on_dev := fit_on_dev self; net_class := net_class self;
     supports_proba := supports_proba self;
     search_hyperparameters := search_hyperparameters self; stable := stable self;
     model := Some m; batch_size := batch_size self; lr := lr self;
     num_hidden := num_hidden self |}.

Definition set_target_encoder (e : Encoder) (self : Neural) : Neural :=
  {| stop_after := stop_after self; dtype_dict := dtype_dict self;
     target := target self; timeseries_settings := timeseries_settings self;
     target_encoder := e; epochs_to_best := epochs_to_best self;
     fit_on_dev := fit_on_dev self; net_class := net_class self;
     supports_proba := supports_proba self;
     search_hyperparameters := search_hyperparameters self; stable := stable self;
     model := model self; batch_size := batch_size self; lr := lr self;
     num_hidden := num_hidden self |}.

Definition set_epochs_to_best (n : Z) (self : Neural) : Neural :=
  {| stop_after := stop_after self; dtype_dict := dtype_dict self;
     target := target self; timeseries_settings := timeseries_settings self;
     target_encoder := target_encoder self; epochs_to_best := n;
     fit_on_dev := fit_on_dev self; net_class := net_class self;
     supports_proba := supports_proba self;
     search_hyperparameters := search_hyperparameters self; stable := stable self;
     model := model self; batch_size := batch_size self; lr := lr self;
     num_hidden := num_hidden self |}.

Definition set_batch_size (n : Z) (self : Neural) : Neural :=
  {| stop_after := stop_after self; dtype_dict := dtype_dict self;
     target := target self; timeseries_settings := timeseries_settings self;
     target_encoder := target_encoder self; epochs_to_best := epochs_to_best self;
     fit_on_dev := fit_on_dev self; net_class := net_class self;
     supports_proba := supports_proba self;
     search_hyperparameters := search_hyperparameters self; stable := stable self;
     model := model self; batch_size := Some n; lr := lr self;
     num_hidden := num_hidden self |}.

Definition set_self_lr (x : float) (self : Neural) : Neural :=
  {| stop_after := stop_after self; dtype_dict := dtype_dict self;
     target := target self; timeseries_settings := timeseries_settings self;
     target_encoder := target_encoder self; epochs_to_best := epochs_to_best self;
     fit_on_dev := fit_on_dev self; net_class := net_class self;
     supports_proba := supports_proba self;
     search_hyperparameters := search_hyperparameters self; stable := stable self;
     model := model self; batch_size := batch_size self; lr := Some x;
     num_hidden := num_hidden self |}.

Definition set_num_hidden (n : Z) (self : Neural) : Neural :=
  {| stop_after := stop_after self; dtype_dict := dtype_dict self;
     target := target self; timeseries_settings := timeseries_settings self;
     target_encoder := target_encoder self; epochs_to_best := epochs_to_best self;
     fit_on_dev := fit_on_dev self; net_class := net_class self;
     supports_proba := supports_proba self;
     search_hyperparameters := search_hyperparameters self; stable := stable self;
     model := model self; batch_size := batch_size self; lr := lr self;
     num_hidden := Some n |}.

(** [self.dtype_dict[self.target]] *)
Definition target_dtype (self : Neural) : result string :=
  match dtype_dict self !! target self with
  | Some t => Ok t
  | None => Raise KeyError
  end.

(** [Neural.__init__] *)
Definition __init__ (stop_after : Z) (target : string)
    (dtype_dict : gmap string string) (input_cols : list string)
    (timeseries_settings : TimeseriesSettings) (target_encoder : Encoder)
    (net : string) (fit_on_dev search_hyperparameters : bool) : result Neural :=
  match dtype_dict !! target with
  | None => Raise KeyError
  | Some t =>
      Ok {| stop_after := stop_after; dtype_dict := dtype_dict;
            target := target; timeseries_settings := timeseries_settings;
            target_encoder := target_encoder; epochs_to_best := 0;
            fit_on_dev := fit_on_dev;
            net_class := if bool_decide (net = "DefaultNet") then DefaultNet else ArNet;
            supports_proba := bool_decide (t ∈ [dtype.binary; dtype.categorical]);
            search_hyperparameters := search_hyperparameters; stable := true;
            model := None; batch_size := None; lr := None; num_hidden := None |}
  end.

(** *** [_final_tuning] *)

(** One pass of the inner loops of [_final_tuning]: the decoded predictions
    and the decoded real values over all rows of all datasets. *)
Definition tuning_pass (m : Model) (enc : Encoder) (data_arr : list EncodedDs)
    : list Cell * list Cell :=
  foldl (fun acc data =>
    foldl (fun '(decoded_predictions, decoded_real_values) '(X, Y) =>
        let Yh := forward m (T1 X) in
        let Yh := unsqueeze_if_flat Yh in
        let Y := unsqueeze_if_flat (T1 Y) in
        (decoded_predictions ++ decode enc Yh no_kwargs,
         decoded_real_values ++ decode enc Y no_kwargs))
      acc (samples data))
    ([], []) data_arr.

(** A cell that scikit-learn takes as a target value: a number that is
    neither NaN nor infinite. *)
Definition finite_number (c : Cell) : bool :=
  match c with
  | CNum x => negb (F64.isnan x || F64.isinf x)
  | CStr _ => false
  end.

(** [r2_score(y_true, y_pred)] as it is called: scikit-learn checks its
    input first and raises [ValueError] when the two lists differ in
    length, when there is no sample, and when a value is not a finite
    number; the score itself is the library's. *)
Definition sklearn_r2_score (y_true y_pred : list Cell) : result float :=
  if negb (length y_true =? length y_pred)%nat then Raise ValueError
  else if (length y_true =? 0)%nat then Raise ValueError
  else if negb (forallb finite_number y_true && forallb finite_number y_pred)
  then Raise ValueError
  else Ok (r2_score y_true y_pred).

(** [acc_dict[decode_log]] of [_final_tuning]. *)
Definition tuning_score (m : Model) (enc : Encoder) (data_arr : list EncodedDs)
    (decode_log : bool) : result float :=
  let '(decoded_predictions, decoded_real_values) :=
    tuning_pass m (set_decode_log decode_log enc) data_arr in
  sklearn_r2_score decoded_real_values decoded_predictions.

Definition _final_tuning (self : Neural) (data_arr : list EncodedDs) : result Neural :=
  t ← target_dtype self;
  if in_tuple t [dtype.integer; dtype.float] then
    m ← attr (model self);
    let m := set_eval m in
    acc_true ← tuning_score m (target_encoder self) data_arr true;
    acc_false ← tuning_score m (target_encoder self) data_arr false;
    Ok (set_target_encoder
          (set_decode_log (F64.gtb acc_true acc_false) (target_encoder self))
          (set_model m self))
  else Ok self.

(** *** [_select_criterion] and [_select_optimizer] *)

Definition _select_criterion (self : Neural) : result Criterion :=
  t ← target_dtype self;
  if in_tuple t [dtype.categorical; dtype.binary] then
    (* [index_weights.to(self.model.device)] reads [self.model] *)
    _ ← attr (model self);
    Ok (TransformCrossEntropyLoss (index_weights (target_encoder self)))
  else if in_str t dtype.tags then
    (* [in (dtype.tags)]: the parentheses do not make a tuple, so this is
       the substring test of [str] *)
    Ok BCEWithLogitsLoss
  else if in_tuple t [dtype.integer; dtype.float; dtype.array]
          && is_timeseries (timeseries_settings self) then
    Ok L1Loss
  else if in_tuple t [dtype.integer; dtype.float] then
    Ok MSELoss
  else
    Ok MSELoss.

Definition _select_optimizer (self : Neural) : result Optim :=
  if is_timeseries (timeseries_settings self) then
    m ← attr (model self);
    lr ← attr (lr self);
    Ok (Ranger m lr None)
  else
    m ← attr (model self);
    lr ← attr (lr self);
    Ok (Ranger m lr (Some F64.lit_2e_2)).

(** *** [_find_lr] *)

(** The local variables of [_find_lr], with the live network, its
    optimizer and the gradient scaler. *)
Record Sweep : Type := {
  sw_model : Model;
  sw_optimizer : Optim;
  sw_scaler : Scaler;
  running_losses : list float;
  cum_loss : float;
  lr_log : list float;
  sw_best_model : ModelRef Model;
  stop : bool;
  batches : Z
}.

(** The body of the batch loop for batch number [i] of epoch [epoch],
    after its [if stop: break]. *)
Definition sweep_batch (criterion : Criterion) (epoch i : Z) (b : Batch)
    (st : Sweep) : Sweep :=
  let batches := batches st + tensor_len b.1 in
  let '(m, optimizer, scaler, loss) :=
    train_batch criterion b (sw_model st) (sw_optimizer st) (sw_scaler st) in
  let cum_loss := F64.add (cum_loss st) loss in
  (* [if (i + 1) * epoch % 6:] is taken when the remainder is not zero *)
  if negb (((i + 1) * epoch) mod 6 =? 0) then
    let lr := get_lr optimizer in
    let running_losses := running_losses st ++ [cum_loss] in
    let lr_log := lr_log st ++ [lr] in
    if (Z.of_nat (length running_losses) <? 2)
       || F64.gtb (np_mean (py_init running_losses)) (np_mean running_losses)
    then
      {| sw_model := m;
         sw_optimizer := set_lr (F64.mul lr F64.lit_1_4) optimizer;
         sw_scaler := scaler; running_losses := running_losses;
         cum_loss := F64.zero; lr_log := lr_log;
         sw_best_model := Snapshot m; stop := stop st; batches := 0 |}
    else
      {| sw_model := m; sw_optimizer := optimizer; sw_scaler := scaler;
         running_losses := running_losses; cum_loss := F64.zero;
         lr_log := lr_log; sw_best_model := sw_best_model st;
         stop := true; batches := 0 |}
  else
    {| sw_model := m; sw_optimizer := optimizer; sw_scaler := scaler;
       running_losses := running_losses st; cum_loss := cum_loss;
       lr_log := lr_log st; sw_best_model := sw_best_model st;
       stop := stop st; batches := batches |}.

(** [for i, (X, Y) in enumerate(dl)], from batch number [i] on. *)
Fixpoint sweep_batches (criterion : Criterion) (epoch i : Z) (bs : list Batch)
    (st : Sweep) : Sweep :=
  match bs with
  | [] => st
  | b :: bs' =>
      if stop st then st
      else sweep_batches criterion epoch (i + 1) bs' (sweep_batch criterion epoch i b st)
  end.

(** [for epoch in ...] over the remaining epochs. *)
Fixpoint sweep_epochs (criterion : Criterion) (dl : Loader) (epochs : list Z)
    (st : Sweep) : Sweep :=
  match epochs with
  | [] => st
  | epoch :: epochs' =>
      if stop st then st
      else sweep_epochs criterion dl epochs' (sweep_batches criterion epoch 0 (dl epoch) st)
  end.

Definition sweep_init (m : Model) (optimizer : Optim) : Sweep :=
  {| sw_model := m; sw_optimizer := optimizer; sw_scaler := GradScaler;
     running_losses := []; cum_loss := F64.zero; lr_log := [];
     sw_best_model := Live; stop := false; batches := 0 |}.

(** The state in which the two loops of [_find_lr] leave the sweep. *)
Definition sweep (self : Neural) (dl : Loader) : result Sweep :=
  optimizer ← _select_optimizer self;
  criterion ← _select_criterion self;
  m ← attr (model self);
  Ok (sweep_epochs criterion dl (py_range 1 101) (sweep_init m optimizer)).

(** [_find_lr]: the learning rate found and the network to go on with
    ([best_model], which is the live network when no snapshot was taken). *)
Definition _find_lr (self : Neural) (dl : Loader) : result (float * Model) :=
  st ← sweep self dl;
  idx ← np_argmin (running_losses st);
  best_loss_lr ← py_index (lr_log st) idx;
  Ok (best_loss_lr, deref (sw_model st) (sw_best_model st)).

(** *** [_error] and [_max_fit] *)

(** The mean of the batch losses of the network [m], as it stands, over
    the batches [dev_dl]. *)
Definition mean_loss (dev_dl : list Batch) (criterion : Criterion) (m : Model) : float :=
  np_mean ((fun '(X, Y) => loss_item criterion (forward m X) Y) <$> dev_dl).

(** [_error]: the network is put in evaluation mode; returns it with the
    mean loss. *)
Definition _error (dev_dl : list Batch) (criterion : Criterion) (m : Model)
    : Model * float :=
  let m := set_eval m in
  (m, mean_loss dev_dl criterion m).

(** The local variables of [_max_fit], with the live network, the
    optimizer and the scaler. *)
Record Run : Type := {
  run_model : Model;
  run_optimizer : Optim;
  run_scaler : Scaler;
  run_epochs_to_best : Z;
  best_dev_error : float;
  running_errors : list float;
  best_model : ModelRef Model
}.

(** The training loop of one epoch: the network, optimizer and scaler
    after it, and the list of batch losses. *)
Definition train_epoch (criterion : Criterion) (bs : list Batch)
    (m : Model) (optimizer : Optim) (scaler : Scaler)
    : Model * Optim * Scaler * list float :=
  foldl (fun '(m, optimizer, scaler, running_losses) b =>
      let '(m, optimizer, scaler, loss) := train_batch criterion b m optimizer scaler in
      (m, optimizer, scaler, running_losses ++ [loss]))
    (m, optimizer, scaler, []) bs.

(** Which [break] left the epoch loop. *)
Inductive Break : Type :=
  | Diverged    (* NaN or infinite training loss or epoch error *)
  | Plateau     (* [delta_mean <= 0] *)
  | OutOfTime   (* [(time.time() - started) > stop_after] *)
  | Converged.  (* an error below 0.0001 *)

(** [np.isnan(a) or np.isnan(b) or np.isinf(a) or np.isinf(b)] *)
Definition diverged (train_error last : float) : bool :=
  F64.isnan train_error || F64.isnan last || F64.isinf train_error || F64.isinf last.

(** The weighted mean of the last four differences of [running_errors]. *)
Definition delta_mean (running_errors : list float) : float :=
  np_average
    ((fun i => F64.sub (neg_index running_errors (i + 1)) (neg_index running_errors i))
       <$> [1; 2; 3; 4]%nat)
    ((fun i => F64.pow F64.lit_0_5 i) <$> [1; 2; 3; 4]%nat).

(** The first half of the body of the epoch loop of [_max_fit]: the
    training pass and the pass over the dev set.  It yields the network,
    optimizer and scaler after them, [train_error] and [epoch_error]. *)
Definition epoch_pass (train_dl dev_dl : Loader) (criterion : Criterion)
    (epoch : Z) (st : Run) : Model * Optim * Scaler * float * float :=
  let m := set_train (run_model st) in
  let '(m, optimizer, scaler, running_losses) :=
    train_epoch criterion (train_dl epoch) m (run_optimizer st) (run_scaler st) in
  let train_error := np_mean running_losses in
  let '(m, epoch_error) := _error (dev_dl epoch) criterion m in
  (m, optimizer, scaler, train_error, epoch_error).

(** The second half: [epoch_error] is appended to [running_errors] and the
    stopping rules are gone through.  [clock epoch] is what [time.time()]
    returns at the end of epoch [epoch], and [clock 0] what it returned for
    [started]. *)
Definition epoch_rules (clock : Z -> float) (stop_after : Z) (epoch : Z)
    (m : Model) (optimizer : Optim) (scaler : Scaler)
    (train_error epoch_error : float) (st : Run) : Run * option Break :=
  let running_errors := running_errors st ++ [epoch_error] in
  let last := neg_index running_errors 1 in
  if diverged train_error last then
    ({| run_model := m; run_optimizer := optimizer; run_scaler := scaler;
        run_epochs_to_best := run_epochs_to_best st;
        best_dev_error := best_dev_error st;
        running_errors := running_errors; best_model := best_model st |},
     Some Diverged)
  else
    let st' :=
      if F64.gtb (best_dev_error st) last then
        {| run_model := m; run_optimizer := optimizer; run_scaler := scaler;
           run_epochs_to_best := epoch; best_dev_error := last;
           running_errors := running_errors; best_model := Snapshot m |}
      else
        {| run_model := m; run_optimizer := optimizer; run_scaler := scaler;
           run_epochs_to_best := run_epochs_to_best st;
           best_dev_error := best_dev_error st;
           running_errors := running_errors; best_model := best_model st |} in
    if 5 <=? Z.of_nat (length running_errors) then
      if F64.leb (delta_mean running_errors) F64.zero then (st', Some Plateau)
      else (st', None)
    else if F64.gt_Z (F64.sub (clock epoch) (clock 0)) stop_after then
      (st', Some OutOfTime)
    else if F64.ltb last F64.lit_1e_4 || F64.ltb train_error F64.lit_1e_4 then
      (st', Some Converged)
    else (st', None).

(** The body of the epoch loop of [_max_fit]. *)
Definition max_fit_epoch (clock : Z -> float) (train_dl dev_dl : Loader)
    (criterion : Criterion) (stop_after : Z) (epoch : Z) (st : Run)
    : Run * option Break :=
  let '(m, optimizer, scaler, train_error, epoch_error) :=
    epoch_pass train_dl dev_dl criterion epoch st in
  epoch_rules clock stop_after epoch m optimizer scaler train_error epoch_error st.

(** [for epoch in ...] over the remaining epochs, until a [break]. *)
Fixpoint max_fit_epochs (clock : Z -> float) (train_dl dev_dl : Loader)
    (criterion : Criterion) (stop_after : Z) (epochs : list Z) (st : Run)
    : Run * option Break :=
  match epochs with
  | [] => (st, None)
  | epoch :: epochs' =>
      let '(st', brk) := max_fit_epoch clock train_dl dev_dl criterion stop_after epoch st in
      match brk with
      | Some b => (st', Some b)
      | None => max_fit_epochs clock train_dl dev_dl criterion stop_after epochs' st'
      end
  end.

Definition run_init (m : Model) (optimizer : Optim) (scaler : Scaler) : Run :=
  {| run_model := m; run_optimizer := optimizer; run_scaler := scaler;
     run_epochs_to_best := 0; best_dev_error := F64.pow_2_32;
     running_errors := []; best_model := Live |}.

(** The state in which the epoch loop of [_max_fit] ends, and the [break]
    that ended it, if one did. *)
Definition max_fit_loop (clock : Z -> float) (m : Model) (train_dl dev_dl : Loader)
    (criterion : Criterion) (optimizer : Optim) (scaler : Scaler)
    (stop_after return_model_after : Z) : Run * option Break :=
  max_fit_epochs clock train_dl dev_dl criterion stop_after
    (py_range 1 (return_model_after + 1)) (run_init m optimizer scaler).

(** What [_max_fit] returns from the final state of its loop. *)
Definition max_fit_result (st : Run) : Model * Z * float :=
  let best_dev_error :=
    if F64.isnan (best_dev_error st) then F64.pow_2_32 else best_dev_error st in
  (deref (run_model st) (best_model st), run_epochs_to_best st, best_dev_error).

(** [_max_fit], on the live network [m] of [self.model]. *)
Definition _max_fit (clock : Z -> float) (m : Model) (train_dl dev_dl : Loader)
    (criterion : Criterion) (optimizer : Optim) (scaler : Scaler)
    (stop_after return_model_after : Z) : Model * Z * float :=
  max_fit_result
    (max_fit_loop clock m train_dl dev_dl criterion optimizer scaler
       stop_after return_model_after).1.

(** *** [_init_net], [partial_fit] and [fit] *)

(** [int(x)] on a float. *)
Definition py_int (x : float) : result Z :=
  match F64.to_int x with
  | Some z => Ok z
  | None => Raise (if F64.isnan x then ValueError else OverflowError)
  end.

Definition _init_net (self : Neural) (ds_arr : list EncodedDs) : result Neural :=
  ds0 ← py_index ds_arr 0;
  row0 ← py_index (samples ds0) 0;
  num_hidden ← attr (num_hidden self);
  let net_kwargs :=
    {| input_size := length row0.1; output_size := length row0.2;
       kw_num_hidden := num_hidden; dropout := 0;
       encoder_span := match net_class self with
                       | ArNet => Some (encoder_spans ds0)
                       | DefaultNet => None
                       end;
       target_name := match net_class self with
                      | ArNet => Some (target self)
                      | DefaultNet => None
                      end |} in
  Ok (set_model (net_init (net_class self) net_kwargs) self).

Definition partial_fit (clock : Z -> float) (self : Neural)
    (train_data dev_data : list EncodedDs) : result Neural :=
  let train_ds := ConcatedEncodedDs train_data in
  let dev_ds := ConcatedEncodedDs (dev_data ++ train_data) in
  batch_size ← attr (batch_size self);
  let train_dl := DataLoader train_ds batch_size true in
  let dev_dl := DataLoader dev_ds batch_size true in
  optimizer ← _select_optimizer self;
  criterion ← _select_criterion self;
  let scaler := GradScaler in
  m ← attr (model self);
  third ← py_int (F64.div_Z (epochs_to_best self) 3);
  let '(m, _, _) :=
    _max_fit clock m train_dl dev_dl criterion optimizer scaler
      (stop_after self) (Z.max 1 third) in
  Ok (set_model m self).

(** [int(len(ds_arr) * 0.9)] *)
Definition split_point (ds_arr : list EncodedDs) : result Z :=
  py_int (F64.mul (F64.of_Z (Z.of_nat (length ds_arr))) F64.lit_0_9).

(** [ds_arr[0:k]] and [ds_arr[k:]] for [k >= 0]. *)
Definition train_side (k : Z) (ds_arr : list EncodedDs) : list EncodedDs :=
  take (Z.to_nat k) ds_arr.
Definition dev_side (k : Z) (ds_arr : list EncodedDs) : list EncodedDs :=
  drop (Z.to_nat k) ds_arr.

(** The batch size [fit] derives from the length of the training side. *)
Definition derive_batch_size (con_train_ds : list Sample) : result Z :=
  tenth ← py_int (F64.div_Z (Z.of_nat (length con_train_ds)) 10);
  let batch_size := Z.min 200 tenth in
  Ok (Z.max 40 batch_size).

(** [fit] up to and including [self.epochs_to_best += epoch_to_best_model],
    for the split point [k]. *)
Definition fit_training (clock : Z -> float) (self : Neural)
    (ds_arr : list EncodedDs) (k : Z) : result Neural :=
  let train_ds_arr := train_side k ds_arr in
  let dev_ds_arr := dev_side k ds_arr in
  let con_train_ds := ConcatedEncodedDs train_ds_arr in
  let con_test_ds := ConcatedEncodedDs dev_ds_arr in
  batch_size ← derive_batch_size con_train_ds;
  let self := set_batch_size batch_size self in
  let dev_dl := DataLoader con_test_ds batch_size false in
  let train_dl := DataLoader con_train_ds batch_size false in
  let self := set_self_lr F64.lit_1e_4 self in
  let self := set_num_hidden 1 self in
  self ← _init_net self ds_arr;
  '(lr, m) ← _find_lr self train_dl;
  let self := set_model m (set_self_lr lr self) in
  optimizer ← _select_optimizer self;
  criterion ← _select_criterion self;
  let scaler := GradScaler in
  let train_dl := DataLoader (ConcatedEncodedDs train_ds_arr) 200 true in
  m ← attr (model self);
  let '(m, epoch_to_best_model, err) :=
    _max_fit clock m train_dl dev_dl criterion optimizer scaler
      (stop_after self) 20000 in
  let self := set_model m self in
  Ok (set_epochs_to_best (epochs_to_best self + epoch_to_best_model) self).

(** [fit]; [clock] times the bounded run of [fit] itself and [clock'] the
    one of [partial_fit]. *)
Definition fit (clock clock' : Z -> float) (self : Neural)
    (ds_arr : list EncodedDs) : result Neural :=
  k ← split_point ds_arr;
  self ← fit_training clock self ds_arr k;
  let train_ds_arr := train_side k ds_arr in
  let dev_ds_arr := dev_side k ds_arr in
  let con_test_ds := ConcatedEncodedDs dev_ds_arr in
  if 0 <? Z.of_nat (length con_test_ds) then
    self ← (if fit_on_dev self
            then partial_fit clock' self dev_ds_arr train_ds_arr
            else Ok self);
    _final_tuning self dev_ds_arr
  else Ok self.

(** *** [__call__]: the keyword arguments of [decode] *)

(** [for dep in self.target_encoder.dependencies], from the keyword
    arguments [kwargs] on; [ds.data_frame.iloc[idx][[dep]].values] is the
    one-element array with the cell of column [dep] in row [idx]. *)
Fixpoint dependency_loop (ds : EncodedDs) (idx : nat) (deps : list string)
    (kwargs : DecodeKwargs) : result DecodeKwargs :=
  match deps with
  | [] => Ok kwargs
  | dep :: deps' =>
      row ← py_index (data_frame ds) idx;
      values ← match row !! dep with
               | Some c => Ok [c]
               | None => Raise KeyError
               end;
      dependency_loop ds idx deps'
        {| dependency_data := Some {[ dep := values ]};
           return_raw := return_raw kwargs |}
  end.

(** The keyword arguments with which [__call__] calls [decode] for the
    sample at position [idx]. *)
Definition decode_kwargs (self : Neural) (ds : EncodedDs) (predict_proba : bool)
    (idx : nat) : result DecodeKwargs :=
  kwargs ← dependency_loop ds idx (dependencies (target_encoder self)) no_kwargs;
  if predict_proba && supports_proba self then
    Ok {| dependency_data := dependency_data kwargs; return_raw := Some true |}
  else Ok kwargs.

(** An entry of the [prediction] column: [extend] adds the decoded values
    one by one, [append] adds the decoded sequence as one entry. *)
Inductive Entry : Type :=
  | Scalar (c : Cell)
  | Sequence (cs : list Cell).

(** *** [__call__]: the arrays and the table *)

(** A NumPy array of floats: its shape and its entries in row-major
    order. *)
Record ndarray : Type := {
  nd_shape : list nat;
  nd_data : list float
}.

(** [np.array(all_probs)] for a list of matrices given by their rows.
    NumPy (from version 1.24 on) raises [ValueError] when the matrices, or
    their rows, differ in length. *)
Definition np_array (all_probs : list (list (list float))) : result ndarray :=
  match all_probs with
  | [] => Ok {| nd_shape := [0%nat]; nd_data := [] |}
  | [] :: _ =>
      if forallb (fun p : list (list float) => (length p =? 0)%nat) all_probs
      then Ok {| nd_shape := [length all_probs; 0%nat]; nd_data := [] |}
      else Raise ValueError
  | (row :: _) as p :: _ =>
      let r := length p in
      let c := length row in
      if forallb (fun q : list (list float) =>
                    (length q =? r)%nat
                    && forallb (fun row' : list float => (length row' =? c)%nat) q)
           all_probs
      then Ok {| nd_shape := [length all_probs; r; c];
                 nd_data := concat (concat all_probs) |}
      else Raise ValueError
  end.

(** [a.squeeze()]: the axes of length one are dropped. *)
Definition squeeze (a : ndarray) : ndarray :=
  {| nd_shape := filter (fun d => d <> 1%nat) (nd_shape a);
     nd_data := nd_data a |}.

(** [a[:, idx]] for [idx >= 0]: [IndexError] on an array of fewer than two
    axes and on an index beyond the second axis. *)
Definition column (a : ndarray) (idx : nat) : result ndarray :=
  match nd_shape a with
  | d0 :: d1 :: rest =>
      if (idx <? d1)%nat then
        let inner := foldr Nat.mul 1%nat rest in
        Ok {| nd_shape := d0 :: rest;
              nd_data :=
                concat ((fun i => take inner (drop ((i * d1 + idx) * inner) (nd_data a)))
                          <$> seq 0 d0) |}
      else Raise IndexError
  | _ => Raise IndexError
  end.

(** The table [ydf]: the [prediction] column and the probability columns,
    in the order of their creation. *)
Record Table : Type := {
  prediction : list Entry;
  probabilities : list (string * list float)
}.

(** The columns with the column [name] set: in place when there is one of
    that name, as the last column otherwise. *)
Definition set_column (name : string) (values : list float)
    (columns : list (string * list float)) : list (string * list float) :=
  if bool_decide (name ∈ columns.*1) then
    (fun '(n, c) => if bool_decide (n = name) then (n, values) else (n, c))
      <$> columns
  else columns ++ [(name, values)].

(** [ydf[name] = value] for a NumPy array [value].  A 1-D array as long as
    the table becomes the column; a table without rows takes its rows from
    a non-empty 1-D array, the cells of its other columns being NaN; pandas
    raises [ValueError] on a 1-D array of another length and on an array of
    two axes or more. *)
Definition setitem (ydf : Table) (name : string) (value : ndarray) : result Table :=
  match nd_shape value with
  | [len] =>
      if (length (prediction ydf) =? 0)%nat && (0 <? len)%nat then
        Ok {| prediction := replicate len (Scalar (CNum F64.nan));
              probabilities :=
                set_column name (nd_data value)
                  ((fun '(n, _) => (n, replicate len F64.nan))
                     <$> probabilities ydf) |}
      else if (len =? length (prediction ydf))%nat then
        Ok {| prediction := prediction ydf;
              probabilities := set_column name (nd_data value) (probabilities ydf) |}
      else Raise ValueError
  | _ => Raise ValueError
  end.

(** [for idx, label in enumerate(rev_map.values())], from position [idx]
    on. *)
Fixpoint proba_columns (raw_predictions : ndarray) (idx : nat)
    (labels : list string) (ydf : Table) : result Table :=
  match labels with
  | [] => Ok ydf
  | label :: labels' =>
      value ← column raw_predictions idx;
      ydf ← setitem ydf ("__mdb_proba_" +:+ label) value;
      proba_columns raw_predictions (S idx) labels' ydf
  end.

(** The sample loop of [__call__] from position [idx] on: the decoded
    predictions, the probabilities collected and the last [rev_map]. *)
Fixpoint call_loop (self : Neural) (m : Model) (ds : EncodedDs)
    (predict_proba : bool) (idx : nat) (rows : list Sample)
    (decoded_predictions : list Entry) (all_probs : list (list (list float)))
    (rev_map : list string)
    : result (list Entry * list (list (list float)) * list string) :=
  match rows with
  | [] => Ok (decoded_predictions, all_probs, rev_map)
  | (X, _) :: rows' =>
      let Yh := unsqueeze_if_flat (forward m (T1 X)) in
      kwargs ← decode_kwargs self ds predict_proba idx;
      let decoded_prediction := decode (target_encoder self) Yh kwargs in
      let '(all_probs, rev_map) :=
        if predict_proba && supports_proba self then
          (all_probs ++ [decode_probs (target_encoder self) Yh kwargs],
           decode_rev_map (target_encoder self) Yh kwargs)
        else (all_probs, rev_map) in
      let ts := timeseries_settings self in
      call_loop self m ds predict_proba (S idx) rows'
        (if negb (is_timeseries ts) || (nr_predictions ts =? 1)
         then decoded_predictions ++ (Scalar <$> decoded_prediction)
         else decoded_predictions ++ [Sequence decoded_prediction])
        all_probs rev_map
  end.

Definition __call__ (self : Neural) (ds : EncodedDs) (predict_proba : bool)
    : result Table :=
  m ← attr (model self);
  '(decoded_predictions, all_probs, rev_map) ←
    call_loop self (set_eval m) ds predict_proba 0 (samples ds) [] [] [];
  let ydf := {| prediction := decoded_predictions; probabilities := [] |} in
  if predict_proba && supports_proba self then
    raw ← np_array all_probs;
    let raw_predictions := squeeze raw in
    proba_columns raw_predictions 0 rev_map ydf
  else Ok ydf.

End Neural.

(** ** A small concrete instance

    A stand-in for the libraries on which the definitions above can be run:
    the "network" is the number of training steps taken so far, a forward
    pass reads entry number [m] of the first feature row, and the loss is
    the first entry of the prediction.  The feature rows of a dataset thus
    script the losses of successive epochs. *)

Module Toy.

Definition first_row (t : Tensor) : list float :=
  match t with
  | T1 v => v
  | T2 rows => default [] (head rows)
  end.

Definition toy_forward (m : nat) (X : Tensor) : Tensor :=
  T1 [default F64.nan (first_row X !! m)].

Definition toy_loss (c : Criterion) (Yh Y : Tensor) : float :=
  default F64.nan (head (first_row Yh)).

(** Left-to-right sum, the mean and the weighted average; on the dyadic
    values used below every sum is exact. *)
Definition seq_sum (l : list float) : float := foldl F64.add F64.zero l.

Definition seq_mean (l : list float) : float :=
  F64.div (seq_sum l) (F64.of_Z (Z.of_nat (length l))).

Definition seq_average (a w : list float) : float :=
  F64.div (seq_sum (zip_with F64.mul a w)) (seq_sum w).

Definition tensor_rows (t : Tensor) : list (list float) :=
  match t with
  | T1 v => [v]
  | T2 rows => rows
  end.

Definition cell_num (c : Cell) : float :=
  match c with
  | CNum x => x
  | CStr _ => F64.nan
  end.

#[global] Instance toy_torch : Torch nat float unit := {|
  net_init := fun _ _ => 0%nat;
  set_train := fun m => m;
  set_eval := fun m => m;
  forward := toy_forward;
  loss_item := toy_loss;
  Ranger := fun _ lr _ => lr;
  get_lr := fun o => o;
  set_lr := fun x _ => x;
  GradScaler := tt;
  train_batch := fun c b m o s => (S m, o, s, toy_loss c (toy_forward m b.1) b.2);
  np_mean := seq_mean;
  np_average := seq_average;
  r2_score := fun y_true y_pred => default F64.nan (cell_num <$> head y_pred);
  decode := fun enc _ _ =>
    [CNum (if decode_log enc then F64.lit_0_8 else F64.lit_0_75)];
  decode_probs := fun _ Yh _ =>
    (fun row => [default F64.nan (head row); default F64.nan (head row)])
      <$> tensor_rows Yh;
  decode_rev_map := fun _ _ _ => ["no"; "yes"];
  permute := fun _ rows => rows
|}.

Definition encoder : Encoder :=
  {| decode_log := false; index_weights := []; dependencies := ["a"; "b"] |}.

(** A mixer for a target column ["y"] of type [t], as [__init__] leaves it,
    with a network and a learning rate assigned. *)
Definition mixer (t : string) : Neural :=
  {| stop_after := 4; dtype_dict := {[ "y" := t ]}; target := "y";
     timeseries_settings := {| is_timeseries := false; nr_predictions := 1 |};
     target_encoder := encoder; epochs_to_best := 0; fit_on_dev := true;
     net_class := DefaultNet; supports_proba := false;
     search_hyperparameters := false; stable := true;
     model := Some 0%nat; batch_size := None; lr := Some F64.lit_1e_4;
     num_hidden := None |}.

(** A loader of one batch whose single feature row is [script]. *)
Definition one_batch (script : list float) : Loader :=
  fun _ => [ (T2 [script], T2 [[F64.zero]]) ].

Definition empty_loader : Loader := fun _ => [].

(** Dyadic values [n / 2^k]. *)
Definition dy (n : Z) (k : nat) : float := F64.div (F64.of_Z n) (F64.of_Z (2 ^ Z.of_nat k)).

(** A clock that reads [e] seconds at the end of epoch [e]. *)
Definition clock (e : Z) : float := F64.of_Z e.

(** A dataset of the given feature rows (each with the label 0) over a
    dataframe with the columns ["a"] and ["b"]. *)
Definition dataset (rows : list (list float)) : EncodedDs :=
  {| samples := (fun r => (r, [F64.zero])) <$> rows;
     data_frame := (fun _ => {[ "a" := CNum (F64.of_Z 1); "b" := CNum (F64.of_Z 2) ]}) <$> rows;
     encoder_spans := ∅ |}.

End Toy.

(** ** The transformer helpers
    (lightwood/encoders/time_series/helpers/transformer_helpers.py)

    Tensors are given by their nested lists, a 3-D tensor together with its
    shape; integer tensors hold 64-bit integers, whose arithmetic wraps
    around; the attention masks hold the binary32 values 1, 0 and minus
    infinity.  The positional encoder, the stack of encoder layers and the
    criterion are left opaque: each of them may raise, and each may change
    the state of the modules (weights, buffers, the random generator of the
    dropout layers). *)

Module transformer_helpers.

(** What this module raises: [RuntimeError] from torch, and built-in
    exceptions of Python. *)
Inductive error : Type :=
  | RuntimeError
  | UnboundLocalError
  | Builtin (e : exn).

Inductive outcome (A : Type) : Type :=
  | Done (a : A)
  | Fails (e : error).
Arguments Done {A} a.
Arguments Fails {A} e.

#[global] Instance outcome_ret : MRet outcome := fun A a => Done a.
#[global] Instance outcome_bind : MBind outcome := fun A B f r =>
  match r with
  | Done a => f a
  | Fails e => Fails e
  end.

(** The binary32 values of the masks. *)
Definition one : float := Eval vm_compute in binary_normalize 24 128 1 0 false.
Definition zero : float := S754_zero false.
Definition neg_inf : float := S754_infinity true.

(** Arithmetic on [int64] tensors wraps around. *)
Definition wrap64 (z : Z) : Z := (z + 2 ^ 63) mod 2 ^ 64 - 2 ^ 63.

(** [t.max()] of a 1-D tensor; torch refuses an empty one. *)
Definition tensor_max (t : list Z) : outcome Z :=
  match t with
  | [] => Fails RuntimeError
  | x :: t' => Done (foldl Z.max x t')
  end.

(** [torch.arange(n)]; torch refuses a negative upper bound. *)
Definition arange (n : Z) : outcome (list Z) :=
  if n <? 0 then Fails RuntimeError
  else Done (range_from 0 (Z.to_nat n)).

(** [m.transpose(0, 1)] of a 2-D tensor with [ncols] columns. *)
Definition transpose {A} (ncols : nat) (rows : list (list A)) : list (list A) :=
  (fun j => omap (fun row : list A => row !! j) rows) <$> seq 0 ncols.

(** An elementwise operation on a 2-D tensor. *)
Definition map2d {A B} (f : A -> B) (m : list (list A)) : list (list B) :=
  (fun row : list A => f <$> row) <$> m.

(** The entry at row [i] and column [j]. *)
Definition entry {A} (m : list (list A)) (i j : nat) : option A :=
  row ← m !! i; row !! j.

(** A 2-D tensor of shape [(n, k)]. *)
Definition rect {A} (n k : nat) (m : list (list A)) : Prop :=
  length m = n /\ Forall (fun row => length row = k) m.

Definition len_to_mask (lengths : list Z) (zeros : bool)
    : outcome (list (list bool)) :=
  n ← tensor_max lengths;
  steps ← arange n;
  (* [arange(n)[None, :] < lengths[:, None]] *)
  let mask := (fun len => (fun t => t <? len) <$> steps) <$> lengths in
  let mask := if zeros then map2d negb mask else mask in
  Done (transpose (length steps) mask).

(** A 3-D tensor: its shape and its nested lists. *)
Record Tensor3 : Type := {
  shape : nat * nat * nat;
  items : list (list (list float))
}.

(** The nested lists agree with the shape. *)
Definition well_shaped (t : Tensor3) : Prop :=
  let '(b, n, d) := shape t in
  length (items t) = b /\
  Forall (fun seq => rect n d seq) (items t).

(** [torch.clamp(x, min=lo, max=hi)] on one element. *)
Definition clamp (lo hi x : Z) : Z := Z.min (Z.max x lo) hi.

(** [l[:stop]] on a list. *)
Definition slice_to {A} (stop : Z) (l : list A) : list A :=
  if stop <? 0 then take (length l - Z.to_nat (- stop)) l
  else take (Z.to_nat stop) l.

(** The length of [l[:stop]] for a list of [n] elements. *)
Definition slice_to_len (stop : Z) (n : nat) : nat :=
  if stop <? 0 then (n - Z.to_nat (- stop))%nat
  else Nat.min (Z.to_nat stop) n.

(** [get_chunk], for [start] and [step] in the range of [int64]. *)
Definition get_chunk (source : Tensor3) (source_lengths : list Z)
    (start step : Z) : Tensor3 * Tensor3 * list Z :=
  let lengths :=
    (fun len => clamp 0 step (wrap64 (wrap64 (len - 1) - start)))
      <$> source_lengths in
  let '(b, n, d) := shape source in
  let end_ := Z.of_nat n in
  let data := {| shape := (b, slice_to_len (end_ - 1) n, d);
                 items := slice_to (end_ - 1) <$> items source |} in
  let target := {| shape := (b, (n - 1)%nat, d);
                   items := drop 1 <$> items source |} in
  (data, target, lengths).

(** [torch.ones(n, k)]; torch refuses a negative dimension. *)
Definition ones (n k : Z) : outcome (list (list float)) :=
  if (n <? 0) || (k <? 0) then Fails RuntimeError
  else Done (replicate (Z.to_nat n) (replicate (Z.to_nat k) one)).

(** [torch.triu(m)]: the entries below the diagonal become zero. *)
Definition triu (m : list (list float)) : list (list float) :=
  imap (fun i row => imap (fun j x => if (i <=? j)%nat then x else zero) row) m.

(** [m == z] for a boolean tensor and an integer [z]. *)
Definition eq_int (m : list (list bool)) (z : Z) : list (list bool) :=
  map2d (fun b : bool => (if b then 1 else 0) =? z) m.

(** [m.float()] for a boolean tensor. *)
Definition to_float (m : list (list bool)) : list (list float) :=
  map2d (fun b : bool => if b then one else zero) m.

(** [t.masked_fill(mask, v)] for tensors of one shape. *)
Definition masked_fill (t : list (list float)) (mask : list (list bool))
    (v : float) : list (list float) :=
  zip_with (zip_with (fun x (c : bool) => if c then v else x)) t mask.

Definition _generate_square_subsequent_mask (sz : Z)
    : outcome (list (list float)) :=
  o ← ones sz sz;
  let mask := transpose (Z.to_nat sz) (map2d (fun x => SFeqb x one) (triu o)) in
  let mask' := masked_fill (to_float mask) (eq_int mask 0) neg_inf in
  Done (masked_fill mask' (eq_int mask 1) zero).

(** [range(start, stop, step)] *)
Definition py_range3 (start stop step : Z) : outcome (list Z) :=
  if step =? 0 then Fails (Builtin ValueError)
  else
    let len := if 0 <? step then (stop - start + step - 1) / step
               else (start - stop - step - 1) / (- step) in
    Done ((fun i => start + i * step) <$> range_from 0 (Z.to_nat len)).

(** A number of Python that starts as an [int] and becomes a tensor once
    a tensor is added to it. *)
Inductive Num (Loss : Type) : Type :=
  | Int (z : Z)
  | Tensor0 (x : Loss).
Arguments Int {Loss} z.
Arguments Tensor0 {Loss} x.

(** A tensor and the device it is on; [t.to(device)]. *)
Record Placed (Device A : Type) : Type := {
  tensor : A;
  placed_on : Device
}.
Arguments tensor {Device A} p.
Arguments placed_on {Device A} p.

Definition to {Device A} (device : Device) (t : A) : Placed Device A :=
  {| tensor := t; placed_on := device |}.

Section TransformerEncoder.

(** The state of the submodules, the loss values and the devices. *)
Context {Modules Loss Device : Type}.

(** [self.pos_encoder(src)], [self.transformer_encoder(src, mask=...,
    src_key_padding_mask=...)] and [criterion(output, targets, lengths)]. *)
Variable pos_encoder : Modules -> Tensor3 -> Modules * outcome Tensor3.
Variable transformer_encoder :
  Modules -> Tensor3 -> Placed Device (list (list float)) ->
  Placed Device (list (list bool)) -> Modules * outcome Tensor3.
Variable criterion : Tensor3 -> Tensor3 -> list Z -> outcome Loss.
(** [z + x] for an [int] and a tensor, and [x + y] for two tensors. *)
Variable add_int : Z -> Loss -> Loss.
Variable add : Loss -> Loss -> Loss.

Record TransformerEncoder : Type := {
  src_mask : option (Placed Device (list (list float)));
  modules : Modules
}.

Definition set_src_mask (mask : Placed Device (list (list float)))
    (self : TransformerEncoder) : TransformerEncoder :=
  {| src_mask := Some mask; modules := modules self |}.

Definition set_modules (mods : Modules) (self : TransformerEncoder)
    : TransformerEncoder :=
  {| src_mask := src_mask self; modules := mods |}.

(** [__init__], with the submodules as they are once built and once
    [init_weights] has run. *)
Definition __init__ (mods : Modules) : TransformerEncoder :=
  {| src_mask := None; modules := mods |}.

(** [src.size(0)] *)
Definition size0 (t : Tensor3) : Z := Z.of_nat (shape t).1.1.

(** The first statement of [forward]: the encoder after it, and the mask
    [self.src_mask] then holds.  A mask is generated on [device]; a cached
    one is tested for its size only and stays on the device it is on. *)
Definition checked_mask (self : TransformerEncoder) (src : Tensor3)
    (device : Device)
    : outcome (TransformerEncoder * Placed Device (list (list float))) :=
  let regenerate :=
    mask ← _generate_square_subsequent_mask (size0 src);
    Done (set_src_mask (to device mask) self, to device mask) in
  (* [if self.src_mask is None or self.src_mask.size(0) != src.size(0):] *)
  match src_mask self with
  | None => regenerate
  | Some mask =>
      if negb (Z.of_nat (length (tensor mask)) =? size0 src) then regenerate
      else Done (self, mask)
  end.

(** The cached mask that the first statement of [forward] keeps: one of
    the size of the input, on whatever device it is. *)
Definition reuses (self : TransformerEncoder) (src : Tensor3)
    : option (Placed Device (list (list float))) :=
  match src_mask self with
  | Some cached =>
      if Z.of_nat (length (tensor cached)) =? size0 src then Some cached else None
  | None => None
  end.

(** The statements of [forward] after the first, [mask] being
    [self.src_mask]. *)
Definition encode (self : TransformerEncoder)
    (mask : Placed Device (list (list float))) (src : Tensor3)
    (lengths : list Z) (device : Device)
    : TransformerEncoder * outcome Tensor3 :=
  let '(mods, r) := pos_encoder (modules self) src in
  let self := set_modules mods self in
  match r with
  | Fails e => (self, Fails e)
  | Done src =>
      match len_to_mask lengths true with
      | Fails e => (self, Fails e)
      | Done lengths_mask =>
          let '(mods, r) :=
            transformer_encoder mods src mask (to device lengths_mask) in
          (set_modules mods self, r)
      end
  end.

(** [forward]: the encoder after the call, and what the call returns or
    raises. *)
Definition forward (self : TransformerEncoder) (src : Tensor3) (lengths : list Z)
    (device : Device) : TransformerEncoder * outcome Tensor3 :=
  match checked_mask self src device with
  | Fails e => (self, Fails e)
  | Done (self, mask) => encode self mask src lengths device
  end.

(** [loss += x] *)
Definition iadd (loss : Num Loss) (x : Loss) : Num Loss :=
  match loss with
  | Int z => Tensor0 (add_int z x)
  | Tensor0 y => Tensor0 (add y x)
  end.

(** The loop of [bptt] over the remaining chunk starts; [output] is [None]
    as long as the name is not bound. *)
Fixpoint bptt_loop (self : TransformerEncoder) (train_batch : Tensor3)
    (len_batch : list Z) (timesteps : Z) (device : Device) (starts : list Z)
    (output : option Tensor3) (loss : Num Loss)
    : TransformerEncoder * outcome (option Tensor3 * Num Loss) :=
  match starts with
  | [] => (self, Done (output, loss))
  | start_chunk :: starts' =>
      let '(data, targets, lengths_chunk) :=
        get_chunk train_batch len_batch start_chunk timesteps in
      let '(self, r) := forward self data lengths_chunk device in
      match r with
      | Fails e => (self, Fails e)
      | Done output =>
          match criterion output targets lengths_chunk with
          | Fails e => (self, Fails e)
          | Done x =>
              bptt_loop self train_batch len_batch timesteps device starts'
                (Some output) (iadd loss x)
          end
      end
  end.

(** [bptt]; the second component of the returned triple is always [None]
    and is left out. *)
Definition bptt (self : TransformerEncoder) (batch : Tensor3 * list Z)
    (device : Device) : TransformerEncoder * outcome (Tensor3 * Num Loss) :=
  let loss := Int 0 in
  let '(train_batch, len_batch) := batch in
  let '(batch_size, timesteps, _) := shape train_batch in
  let timesteps := Z.of_nat timesteps in
  match py_range3 0 timesteps timesteps with
  | Fails e => (self, Fails e)
  | Done starts =>
      let '(self, r) :=
        bptt_loop self train_batch len_batch timesteps device starts None loss in
      match r with
      | Fails e => (self, Fails e)
      | Done (None, _) => (self, Fails UnboundLocalError)
      | Done (Some output, loss) => (self, Done (output, loss))
      end
  end.

(** The cached mask, if there is one, was generated for some size. *)
Definition mask_generated (self : TransformerEncoder) : Prop :=
  forall mask, src_mask self = Some mask ->
    exists sz, 0 <= sz /\ _generate_square_subsequent_mask sz = Done (tensor mask).

End TransformerEncoder.

End transformer_helpers.

(** Submodules to run the encoder on: they count the calls made to them
    and return their input, but for the encoder layers, which refuse an
    attention mask and a padding mask on two devices; the criterion adds up
    the chunk lengths. *)
Module ToyEncoder.

Import transformer_helpers.

Definition pos_encoder (calls : nat) (src : Tensor3) : nat * outcome Tensor3 :=
  (S calls, Done src).

Definition transformer_encoder (calls : nat) (src : Tensor3)
    (mask : Placed string (list (list float)))
    (padding : Placed string (list (list bool)))
    : nat * outcome Tensor3 :=
  if bool_decide (placed_on mask = placed_on padding) then (S calls, Done src)
  else (S calls, Fails RuntimeError).

Definition criterion (output targets : Tensor3) (lengths : list Z) : outcome Z :=
  Done (foldr Z.add 0 lengths).

(** One sequence of three steps. *)
Definition sequence : Tensor3 :=
  {| shape := (1, 3, 1)%nat;
     items := [[[F64.of_Z 1]; [F64.of_Z 2]; [F64.of_Z 3]]] |}.

Definition forward := forward pos_encoder transformer_encoder.
Definition bptt := bptt pos_encoder transformer_encoder criterion Z.add Z.add.

End ToyEncoder.

(** ** Predicates of the statements below *)

Section Predicates.

Context {Model Optim Scaler : Type} `{!Torch Model Optim Scaler}.
Implicit Types st : @Run Model Optim Scaler.
Implicit Types brk : option Break.

(** The two logs of the sweep have one entry per checkpoint each. *)
Definition logs_agree (st : @Sweep Model Optim Scaler) : Prop :=
  length (lr_log st) = length (running_losses st).


(** The state after [n] epochs, none of which diverged: the best error is
    not NaN and is at most every recorded error; either no checkpoint was
    taken (the best network is still the live one, at epoch 0, under the
    error 2^32), or the best network is a snapshot whose mean dev loss, on
    the dev pass of its epoch, is the best error; and the last recorded
    error is the mean dev loss of the live network. *)
Definition tracked (dev_dl : Loader) (criterion : Criterion) (n : Z) st : Prop :=
  Z.of_nat (length (running_errors st)) = n /\
  F64.isnan (best_dev_error st) = false /\
  Forall (fun e => F64.leb (best_dev_error st) e = true) (running_errors st) /\
  ((best_model st = Live /\ run_epochs_to_best st = 0 /\
    best_dev_error st = F64.pow_2_32) \/
   (exists m, best_model st = Snapshot m /\ 1 <= run_epochs_to_best st <= n /\
      best_dev_error st = mean_loss (dev_dl (run_epochs_to_best st)) criterion m)) /\
  (0 < n ->
   last (running_errors st) = Some (mean_loss (dev_dl n) criterion (run_model st))).

(** Where a run of further epochs leaves a tracked state. *)
Definition run_outcome (dev_dl : Loader) (criterion : Criterion) st brk : Prop :=
  match brk with
  | Some Diverged =>
      exists n st1 e,
        tracked dev_dl criterion n st1 /\
        best_dev_error st = best_dev_error st1 /\
        best_model st = best_model st1 /\
        run_epochs_to_best st = run_epochs_to_best st1 /\
        running_errors st = running_errors st1 ++ [e]
  | _ => exists n, tracked dev_dl criterion n st
  end.

(** What every epoch keeps, whether it diverges or not: one recorded error
    per epoch, a best error that is a number at most 2^32, and an
    epochs-to-best between 0 and the number of epochs run. *)
Definition run_bounds (n : Z) st : Prop :=
  Z.of_nat (length (running_errors st)) = n /\
  F64.isnan (best_dev_error st) = false /\
  F64.leb (best_dev_error st) F64.pow_2_32 = true /\
  0 <= run_epochs_to_best st <= n.

(** The best network is the live one exactly until the first checkpoint,
    a snapshot from then on, and the sweep is halted only with two
    checkpoints or more. *)
Definition sweep_shape (st : @Sweep Model Optim Scaler) : Prop :=
  (running_losses st = [] -> sw_best_model st = Live) /\
  (running_losses st <> [] -> exists m, sw_best_model st = Snapshot m) /\
  (stop st = true -> (2 <= length (running_losses st))%nat).

(** What a method leaves of the configuration of the mixer: the attributes
    [__init__] takes from its arguments, and of the target encoder
    everything but the [decode_log] flag. *)
Definition keeps_configuration (self self' : @Neural Model) : Prop :=
  stop_after self' = stop_after self /\
  dtype_dict self' = dtype_dict self /\
  target self' = target self /\
  timeseries_settings self' = timeseries_settings self /\
  fit_on_dev self' = fit_on_dev self /\
  net_class self' = net_class self /\
  supports_proba self' = supports_proba self /\
  search_hyperparameters self' = search_hyperparameters self /\
  stable self' = stable self /\
  index_weights (target_encoder self') = index_weights (target_encoder self) /\
  dependencies (target_encoder self') = dependencies (target_encoder self).

(** The attributes [fit] assigns: a network, a learning rate, one hidden
    layer and a batch size between 40 and 200. *)
Definition fitted (self : @Neural Model) : Prop :=
  is_Some (model self) /\ is_Some (lr self) /\ num_hidden self = Some 1 /\
  exists bs, batch_size self = Some bs /\ 40 <= bs <= 200.

End Predicates.

(** [int(n * 0.9)] is the integer part of 9n/10. *)
Definition split_matches_floor (n : Z) : bool :=
  match F64.to_int (F64.mul (F64.of_Z n) F64.lit_0_9) with
  | Some k => k =? 9 * n / 10
  | None => false
  end.

(** * Properties *)

(** ** Order facts on binary64 comparisons *)

Section F64_order.

Lemma ltb_irrefl x : F64.ltb x x = false.
Proof.
  unfold F64.ltb, SFltb.
  destruct x as [s|s| |s m e]; simpl; try done; destruct s; simpl; try done;
    rewrite Z.compare_refl;
    change (Pos.compare_cont Eq m m) with (Pos.compare m m);
    by rewrite Pos.compare_refl.
Qed.

Lemma gtb_irrefl x : F64.gtb x x = false.
Proof. apply ltb_irrefl. Qed.

Local Ltac order_cases :=
  repeat match goal with
    | |- context [ (?a ?= ?b)%Z ] =>
        destruct (Z.compare_spec a b); simpl; subst
    | |- context [ Pos.compare_cont Eq ?a ?b ] =>
        change (Pos.compare_cont Eq a b) with (Pos.compare a b);
        destruct (Pos.compare_spec a b); simpl; subst
    | H : context [ (?a ?= ?b)%Z ] |- _ =>
        destruct (Z.compare_spec a b); simpl in H; subst
    | H : context [ Pos.compare_cont Eq ?a ?b ] |- _ =>
        change (Pos.compare_cont Eq a b) with (Pos.compare a b) in H;
        destruct (Pos.compare_spec a b); simpl in H; subst
    end;
  try done; try lia.

Lemma ltb_trans x y z :
  F64.ltb x y = true -> F64.ltb y z = true -> F64.ltb x z = true.
Proof.
  unfold F64.ltb, SFltb.
  destruct x as [sx|sx| |sx mx ex], y as [sy|sy| |sy my ey],
    z as [sz|sz| |sz mz ez]; simpl; try done;
    try (destruct sx); try (destruct sy); try (destruct sz); simpl;
    try done; intros H1 H2; order_cases.
Qed.



(** Without NaN the order is total: "not greater" is "less or equal". *)
Lemma not_gtb_leb x y :
  F64.isnan x = false -> F64.isnan y = false ->
  F64.gtb x y = false -> F64.leb x y = true.
Proof.
  unfold F64.gtb, F64.leb, SFltb, SFleb.
  destruct x as [sx|sx| |sx mx ex], y as [sy|sy| |sy my ey]; simpl; try done;
    try (destruct sx); try (destruct sy); simpl; try done;
    intros _ _ H; order_cases.
Qed.

Lemma leb_not_gtb x y : F64.leb x y = true -> F64.gtb x y = false.
Proof.
  unfold F64.gtb, F64.leb, SFltb, SFleb.
  destruct x as [sx|sx| |sx mx ex], y as [sy|sy| |sy my ey]; simpl; try done;
    try (destruct sx); try (destruct sy); simpl; try done;
    intros H; order_cases.
Qed.

(** [y < x], [not (z < x)] gives [not (z < y)]: what keeps a running
    minimum below everything seen before. *)
Lemma gtb_chain x y z :
  F64.gtb x y = true -> F64.gtb x z = false -> F64.gtb y z = false.
Proof.
  unfold F64.gtb. intros Hyx Hzx.
  destruct (SFltb z y) eqn:E; [|done].
  pose proof (ltb_trans z y x E Hyx) as C. unfold F64.ltb in C. congruence.
Qed.

Lemma leb_true_not_nan x y :
  F64.leb x y = true -> F64.isnan x = false /\ F64.isnan y = false.
Proof.
  unfold F64.leb, SFleb.
  destruct x as [sx|sx| |sx mx ex], y as [sy|sy| |sy my ey]; simpl; done.
Qed.

Lemma leb_refl x : F64.isnan x = false -> F64.leb x x = true.
Proof. intros H. apply not_gtb_leb; auto using gtb_irrefl. Qed.

(** [y < x] and [x <= z] give [y <= z]. *)
Lemma gtb_leb_trans x y z :
  F64.isnan y = false ->
  F64.gtb x y = true -> F64.leb x z = true -> F64.leb y z = true.
Proof.
  intros Hy Hxy Hxz.
  destruct (leb_true_not_nan _ _ Hxz) as [_ Hz].
  apply not_gtb_leb; try done.
  eapply gtb_chain; [exact Hxy|]. by apply leb_not_gtb.
Qed.

End F64_order.

(** ** Python values *)

Section Lists.

Lemma bind_Ok {A B} (a : A) (f : A -> result B) : (Ok a ≫= f) = f a.
Proof. done. Qed.

Lemma bind_Raise {A B} (e : exn) (f : A -> result B) : (Raise e ≫= f) = Raise e.
Proof. done. Qed.

Lemma range_from_app lo (n k : nat) :
  range_from lo (n + k) = range_from lo n ++ range_from (lo + Z.of_nat n) k.
Proof.
  revert lo. induction n as [|n IH]; intros lo; simpl.
  - by rewrite Z.add_0_r.
  - rewrite IH. do 3 f_equal. lia.
Qed.

Lemma py_range_nil lo hi : hi <= lo -> py_range lo hi = [].
Proof. intros H. unfold py_range. by replace (Z.to_nat (hi - lo)) with O by lia. Qed.

Lemma py_range_cons lo hi : lo < hi -> py_range lo hi = lo :: py_range (lo + 1) hi.
Proof.
  intros H. unfold py_range.
  replace (Z.to_nat (hi - lo)) with (S (Z.to_nat (hi - (lo + 1)))) by lia. done.
Qed.

Lemma py_range_split lo k hi :
  lo <= k <= hi -> py_range lo hi = py_range lo k ++ py_range k hi.
Proof.
  intros H. unfold py_range.
  replace (Z.to_nat (hi - lo)) with (Z.to_nat (k - lo) + Z.to_nat (hi - k))%nat by lia.
  rewrite range_from_app. do 2 f_equal. lia.
Qed.

Lemma neg_index_snoc (l : list float) e : neg_index (l ++ [e]) 1 = e.
Proof.
  unfold neg_index. rewrite length_app. simpl.
  replace (length l + 1 - 1)%nat with (length l) by lia.
  by rewrite list_lookup_middle.
Qed.


Lemma argmin_scan_lt l : forall mp min_ind i,
  (min_ind < i)%nat -> (argmin_scan mp min_ind i l < i + length l)%nat.
Proof.
  induction l as [|x l IH]; intros mp min_ind i Hlt; simpl; [lia|].
  destruct (F64.isnan mp); [lia|].
  destruct (negb (F64.leb mp x)).
  - specialize (IH x i (S i)). lia.
  - specialize (IH mp min_ind (S i)). lia.
Qed.

Lemma np_argmin_in_range l :
  l <> [] -> exists idx, np_argmin l = Ok idx /\ (idx < length l)%nat.
Proof.
  destruct l as [|x l]; [done|]. intros _. eexists. split; [done|].
  pose proof (argmin_scan_lt l x 0%nat 1%nat). simpl. lia.
Qed.

End Lists.

(** ** Loss selection and final tuning *)

Section Selection.

Context {Model Optim Scaler : Type} `{!Torch Model Optim Scaler}.
Implicit Types self : @Neural Model.

Lemma target_dtype_Some self t :
  dtype_dict self !! target self = Some t -> target_dtype self = Ok t.
Proof. unfold target_dtype. by intros ->. Qed.

Lemma in_tuple_true x t : in_tuple x t = true <-> x ∈ t.
Proof. unfold in_tuple. apply bool_decide_eq_true. Qed.

Lemma in_tuple_false x t : in_tuple x t = false <-> x ∉ t.
Proof. unfold in_tuple. apply bool_decide_eq_false. Qed.

(** The only type names of [dtype] that occur inside ["tags"] are ["tags"]
    itself; none of the other names does. *)
Lemma dtype_names_in_tags :
  in_str dtype.tags dtype.tags = true /\
  Forall (fun t => in_str t dtype.tags = false)
    [dtype.integer; dtype.float; dtype.binary; dtype.categorical; dtype.array].
Proof. split; [done|]. repeat constructor. Qed.

(** The policy of [_select_criterion] on a target type [t], for every
    string [t] that does not occur inside ["tags"] and for ["tags"]. *)
Lemma select_criterion_policy self t :
  dtype_dict self !! target self = Some t ->
  (t ∈ [dtype.categorical; dtype.binary] -> forall m, model self = Some m ->
     _select_criterion self
     = Ok (TransformCrossEntropyLoss (index_weights (target_encoder self)))) /\
  (t = dtype.tags -> _select_criterion self = Ok BCEWithLogitsLoss) /\
  (t ∈ [dtype.integer; dtype.float; dtype.array] ->
     is_timeseries (timeseries_settings self) = true ->
     _select_criterion self = Ok L1Loss) /\
  (t ∈ [dtype.integer; dtype.float] ->
     is_timeseries (timeseries_settings self) = false ->
     _select_criterion self = Ok MSELoss) /\
  (t ∉ [dtype.categorical; dtype.binary; dtype.integer; dtype.float; dtype.array] ->
     in_str t dtype.tags = false ->
     _select_criterion self = Ok MSELoss) /\
  (t = dtype.array -> is_timeseries (timeseries_settings self) = false ->
     _select_criterion self = Ok MSELoss).
Proof.
  intros Ht. unfold _select_criterion.
  rewrite (target_dtype_Some _ _ Ht), bind_Ok.
  repeat split.
  - intros Hin m Hm. apply in_tuple_true in Hin. rewrite Hin, Hm. done.
  - intros ->. done.
  - intros Hin Hts. rewrite Hts.
    assert (in_tuple t [dtype.categorical; dtype.binary] = false) as ->.
    { apply in_tuple_false. set_unfold. unfold dtype.categorical, dtype.binary.
      unfold dtype.integer, dtype.float, dtype.array in Hin.
      intros [?|[?|?]]; destruct Hin as [?|[?|[?|?]]]; congruence. }
    assert (in_str t dtype.tags = false) as ->.
    { set_unfold. destruct Hin as [->|[->|[->|?]]]; done. }
    apply in_tuple_true in Hin. by rewrite Hin.
  - intros Hin Hts. rewrite Hts.
    assert (in_tuple t [dtype.categorical; dtype.binary] = false) as ->.
    { apply in_tuple_false. set_unfold. unfold dtype.categorical, dtype.binary.
      unfold dtype.integer, dtype.float in Hin.
      intros [?|[?|?]]; destruct Hin as [?|[?|?]]; congruence. }
    assert (in_str t dtype.tags = false) as ->.
    { set_unfold. destruct Hin as [->|[->|?]]; done. }
    rewrite andb_false_r. by destruct (in_tuple _ _).
  - intros Hout Hstr. rewrite Hstr.
    assert (in_tuple t [dtype.categorical; dtype.binary] = false) as ->.
    { apply in_tuple_false. set_unfold. tauto. }
    assert (in_tuple t [dtype.integer; dtype.float; dtype.array] = false) as ->.
    { apply in_tuple_false. set_unfold. tauto. }
    rewrite andb_false_l. by destruct (in_tuple _ _).
  - intros -> Hts. by rewrite Hts.
Qed.

(** The score [_final_tuning] compares is computed on the network in
    evaluation mode; what the method does to the flag, in one equation. *)
Lemma final_tuning_numeric self data_arr t m :
  dtype_dict self !! target self = Some t ->
  t ∈ [dtype.integer; dtype.float] ->
  model self = Some m ->
  _final_tuning self data_arr
  = (acc_true ← tuning_score (set_eval m) (target_encoder self) data_arr true;
     acc_false ← tuning_score (set_eval m) (target_encoder self) data_arr false;
     Ok (set_target_encoder
           (set_decode_log (F64.gtb acc_true acc_false) (target_encoder self))
           (set_model (set_eval m) self))).
Proof.
  intros Ht Hin Hm. unfold _final_tuning.
  rewrite (target_dtype_Some _ _ Ht). simpl.
  apply in_tuple_true in Hin. by rewrite Hin, Hm.
Qed.


Lemma final_tuning_other self data_arr t :
  dtype_dict self !! target self = Some t ->
  t ∉ [dtype.integer; dtype.float] ->
  _final_tuning self data_arr = Ok self.
Proof.
  intros Ht Hin. unfold _final_tuning.
  rewrite (target_dtype_Some _ _ Ht). simpl.
  apply in_tuple_false in Hin. by rewrite Hin.
Qed.


End Selection.


(** C6.  The test for a tags target is [in (dtype.tags)], on a string and
    not on a tuple: every target type that occurs inside ["tags"] (such as
    ["tag"], or the empty string) and is neither categorical nor binary gets
    the binary cross-entropy with logits, not the mean-squared-error
    fallback. *)
Theorem select_criterion_tags_is_substring_test
    {Model Optim Scaler : Type} `{!Torch Model Optim Scaler}
    (self : @Neural Model) (t : string) :
  dtype_dict self !! target self = Some t ->
  t ∉ [dtype.categorical; dtype.binary] ->
  in_str t dtype.tags = true ->
  _select_criterion self = Ok BCEWithLogitsLoss.
Proof.
  intros Ht Hout Hin. unfold _select_criterion.
  rewrite (target_dtype_Some _ _ Ht), bind_Ok.
  apply in_tuple_false in Hout. by rewrite Hout, Hin.
Qed.

Lemma select_criterion_tags_is_substring_test_witness :
  "tag" <> dtype.tags /\
  _select_criterion (Toy.mixer "tag") = Ok BCEWithLogitsLoss /\
  _select_criterion (Toy.mixer "") = Ok BCEWithLogitsLoss.
Proof.
  split; [done|]. split.
  - apply (select_criterion_tags_is_substring_test (Toy.mixer "tag") "tag").
    + reflexivity.
    + apply in_tuple_false. reflexivity.
    + reflexivity.
  - apply (select_criterion_tags_is_substring_test (Toy.mixer "") "").
    + reflexivity.
    + apply in_tuple_false. reflexivity.
    + reflexivity.
Defined.

(** ** The learning-rate sweep *)

Section SweepFacts.

Context {Model Optim Scaler : Type} `{!Torch Model Optim Scaler}.
Implicit Types self : @Neural Model.
Implicit Types st : @Sweep Model Optim Scaler.

(** What one batch does to the two logs: nothing when the counter
    [(i + 1) * epoch] is a multiple of 6, one more entry in each
    otherwise. *)
Lemma sweep_batch_logs criterion epoch i b st :
  let st' := sweep_batch criterion epoch i b st in
  if ((i + 1) * epoch) mod 6 =? 0
  then running_losses st' = running_losses st /\ lr_log st' = lr_log st
  else exists loss lr,
         running_losses st' = running_losses st ++ [loss] /\
         lr_log st' = lr_log st ++ [lr].
Proof.
  unfold sweep_batch.
  destruct (train_batch _ _ _ _ _) as [[[m o] s] loss].
  destruct (((i + 1) * epoch) mod 6 =? 0); simpl; [done|].
  destruct (_ || _); simpl; eauto.
Qed.

(** The sweep keeps one learning rate per recorded loss. *)
Lemma sweep_batch_agree criterion epoch i b st :
  logs_agree st -> logs_agree (sweep_batch criterion epoch i b st).
Proof.
  unfold logs_agree. intros H.
  pose proof (sweep_batch_logs criterion epoch i b st) as L. simpl in L.
  destruct (_ =? 0).
  - destruct L as [-> ->]. done.
  - destruct L as (loss & lr & -> & ->). rewrite !length_app. simpl. lia.
Qed.

Lemma sweep_batch_keeps criterion epoch i b st :
  running_losses st <> [] -> running_losses (sweep_batch criterion epoch i b st) <> [].
Proof.
  intros H.
  pose proof (sweep_batch_logs criterion epoch i b st) as L. simpl in L.
  destruct (_ =? 0).
  - destruct L as [-> _]. done.
  - destruct L as (loss & lr & -> & _). by destruct (running_losses st).
Qed.

Lemma sweep_batches_inv (P : Sweep -> Prop) criterion epoch :
  (forall i b st, P st -> P (sweep_batch criterion epoch i b st)) ->
  forall bs i st, P st -> P (sweep_batches criterion epoch i bs st).
Proof.
  intros Hstep bs. induction bs as [|b bs IH]; intros i st HP; simpl; [done|].
  destruct (stop st); [done|]. apply IH, Hstep, HP.
Qed.

Lemma sweep_epochs_inv (P : Sweep -> Prop) criterion dl :
  (forall epoch i b st, P st -> P (sweep_batch criterion epoch i b st)) ->
  forall epochs st, P st -> P (sweep_epochs criterion dl epochs st).
Proof.
  intros Hstep epochs. induction epochs as [|e epochs IH]; intros st HP; simpl; [done|].
  destruct (stop st); [done|]. apply IH, sweep_batches_inv; auto.
Qed.

(** A loader that yields no batch leaves the sweep where it started. *)
Lemma sweep_epochs_empty criterion dl epochs st :
  (forall pass, dl pass = []) -> sweep_epochs criterion dl epochs st = st.
Proof.
  intros Hdl. revert st. induction epochs as [|e epochs IH]; intros st; simpl; [done|].
  destruct (stop st); [done|]. rewrite Hdl. simpl. apply IH.
Qed.

(** If the first pass yields a batch, its first batch already records a
    checkpoint: the counter is 1, which is not a multiple of 6. *)
Lemma sweep_epochs_records criterion dl m optimizer b bs :
  dl 1 = b :: bs ->
  let st := sweep_epochs criterion dl (py_range 1 101) (sweep_init m optimizer) in
  running_losses st <> [] /\ logs_agree st.
Proof.
  intros Hdl. rewrite py_range_cons by lia.
  generalize (py_range (1 + 1) 101). intros rest.
  assert (sweep_epochs criterion dl (1 :: rest) (sweep_init m optimizer)
          = sweep_epochs criterion dl rest
              (sweep_batches criterion 1 (0 + 1) bs
                 (sweep_batch criterion 1 0 b (sweep_init m optimizer)))) as ->.
  { simpl. by rewrite Hdl. }
  simpl. split.
  - apply (sweep_epochs_inv (fun st => running_losses st <> [])).
    { intros. by apply sweep_batch_keeps. }
    apply (sweep_batches_inv (fun st => running_losses st <> [])).
    { intros. by apply sweep_batch_keeps. }
    pose proof (sweep_batch_logs criterion 1 0 b (sweep_init m optimizer)) as L.
    simpl in L. destruct L as (loss & lr & -> & _). done.
  - apply (sweep_epochs_inv logs_agree).
    { intros. by apply sweep_batch_agree. }
    apply (sweep_batches_inv logs_agree).
    { intros. by apply sweep_batch_agree. }
    by apply sweep_batch_agree.
Qed.

Lemma find_lr_no_checkpoint self dl st :
  sweep self dl = Ok st -> running_losses st = [] ->
  _find_lr self dl = Raise ValueError.
Proof. unfold _find_lr. intros -> H. rewrite bind_Ok, H. done. Qed.

Lemma sweep_unfold self dl optimizer criterion m :
  _select_optimizer self = Ok optimizer ->
  _select_criterion self = Ok criterion ->
  model self = Some m ->
  sweep self dl
  = Ok (sweep_epochs criterion dl (py_range 1 101) (sweep_init m optimizer)).
Proof. unfold sweep. by intros -> -> ->. Qed.

(** On a loader without batches [_find_lr] raises. *)
Lemma find_lr_empty_loader self dl optimizer criterion m :
  _select_optimizer self = Ok optimizer ->
  _select_criterion self = Ok criterion ->
  model self = Some m ->
  (forall pass, dl pass = []) ->
  _find_lr self dl = Raise ValueError.
Proof.
  intros Ho Hc Hm Hdl. eapply find_lr_no_checkpoint.
  - by eapply sweep_unfold.
  - by rewrite sweep_epochs_empty.
Qed.

(** On a loader whose first pass yields a batch [_find_lr] returns a
    learning rate, however few batches there are. *)
Lemma find_lr_nonempty_loader self dl optimizer criterion m b bs :
  _select_optimizer self = Ok optimizer ->
  _select_criterion self = Ok criterion ->
  model self = Some m ->
  dl 1 = b :: bs ->
  exists lr m', _find_lr self dl = Ok (lr, m').
Proof.
  intros Ho Hc Hm Hdl. unfold _find_lr.
  rewrite (sweep_unfold _ dl _ _ _ Ho Hc Hm), bind_Ok.
  destruct (sweep_epochs_records criterion dl m optimizer b bs Hdl) as [Hne Hag].
  destruct (np_argmin_in_range _ Hne) as (idx & -> & Hidx). rewrite bind_Ok.
  unfold py_index. unfold logs_agree in Hag. rewrite <- Hag in Hidx.
  destruct (lookup_lt_is_Some_2 _ _ Hidx) as [x ->]. rewrite bind_Ok. eauto.
Qed.

(** C1.  The cadence check of [_find_lr] (the loss recorded, the learning
    rate possibly raised, the sweep possibly halted) is taken at the batches
    whose counter [(i + 1) * epoch] is NOT a multiple of 6 and skipped at
    the multiples: batch 0 of epoch 1 (counter 1) records a checkpoint,
    batch 5 of epoch 1 (counter 6) records none. *)
Theorem find_lr_check_fires_off_multiples_of_six criterion b st :
  (forall epoch i,
     length (running_losses (sweep_batch criterion epoch i b st))
     = if ((i + 1) * epoch) mod 6 =? 0
       then length (running_losses st)
       else S (length (running_losses st))) /\
  length (running_losses (sweep_batch criterion 1 0 b st))
  = S (length (running_losses st)) /\
  running_losses (sweep_batch criterion 1 5 b st) = running_losses st /\
  stop (sweep_batch criterion 1 5 b st) = stop st.
Proof.
  assert (forall epoch i,
     length (running_losses (sweep_batch criterion epoch i b st))
     = if ((i + 1) * epoch) mod 6 =? 0
       then length (running_losses st)
       else S (length (running_losses st))) as Hgen.
  { intros epoch i.
    pose proof (sweep_batch_logs criterion epoch i b st) as L. simpl in L.
    destruct (_ =? 0).
    - by destruct L as [-> _].
    - destruct L as (loss & lr & -> & _). rewrite length_app. simpl. lia. }
  split; [exact Hgen|]. split; [apply (Hgen 1 0)|].
  pose proof (sweep_batch_logs criterion 1 5 b st) as L. simpl in L.
  split; [apply L|].
  unfold sweep_batch. by destruct (train_batch _ _ _ _ _) as [[[m o] s] loss].
Qed.

(** The sweep is not halted before its first checkpoint. *)
Lemma sweep_batch_not_halted criterion epoch i b st :
  (running_losses st = [] -> stop st = false) ->
  running_losses (sweep_batch criterion epoch i b st) = [] ->
  stop (sweep_batch criterion epoch i b st) = false.
Proof.
  intros Hst. unfold sweep_batch.
  destruct (train_batch _ _ _ _ _) as [[[m o] s] loss].
  destruct (negb _); [|exact Hst].
  destruct (_ || _); cbn [running_losses stop]; intros E;
    by destruct (running_losses st).
Qed.

(** A batch whose counter is not a multiple of 6 leaves a checkpoint, in a
    sweep that was not halted before its first one. *)
Lemma sweep_batches_record criterion epoch bs : forall k b i st,
  (running_losses st = [] -> stop st = false) ->
  bs !! k = Some b ->
  ((i + Z.of_nat k + 1) * epoch) mod 6 <> 0 ->
  running_losses (sweep_batches criterion epoch i bs st) <> [].
Proof.
  induction bs as [|b0 bs IH]; intros k b i st Hst Hk Hcnt; [done|].
  cbn [sweep_batches]. destruct (stop st) eqn:Hs.
  { intros E. specialize (Hst E). congruence. }
  destruct k as [|k].
  - apply (sweep_batches_inv (fun st => running_losses st <> [])).
    { intros. by apply sweep_batch_keeps. }
    pose proof (sweep_batch_logs criterion epoch i b0 st) as L. cbv zeta in L.
    replace (i + Z.of_nat 0 + 1) with (i + 1) in Hcnt by lia.
    apply Z.eqb_neq in Hcnt. rewrite Hcnt in L.
    destruct L as (loss & lr & -> & _). by destruct (running_losses st).
  - apply (IH k b); [by apply sweep_batch_not_halted|exact Hk|].
    replace (i + 1 + Z.of_nat k + 1) with (i + Z.of_nat (S k) + 1) by lia. done.
Qed.

Lemma sweep_epochs_record criterion dl epochs : forall e k b st,
  (running_losses st = [] -> stop st = false) ->
  e ∈ epochs -> dl e !! k = Some b ->
  ((Z.of_nat k + 1) * e) mod 6 <> 0 ->
  running_losses (sweep_epochs criterion dl epochs st) <> [].
Proof.
  induction epochs as [|e0 epochs IH]; intros e k b st Hst He Hk Hcnt.
  { by apply elem_of_nil in He. }
  cbn [sweep_epochs]. destruct (stop st) eqn:Hs.
  { intros E. specialize (Hst E). congruence. }
  destruct (decide (e = e0)) as [->|Hne].
  - apply (sweep_epochs_inv (fun st => running_losses st <> [])).
    { intros. by apply sweep_batch_keeps. }
    by apply (sweep_batches_record criterion e0 (dl e0) k b 0 st).
  - apply (IH e k b); try done.
    + apply (sweep_batches_inv
               (fun st => running_losses st = [] -> stop st = false)); [|done].
      intros. by apply sweep_batch_not_halted.
    + apply elem_of_cons in He as [->|He]; done.
Qed.

(** Batches whose counters are all multiples of 6 leave no checkpoint. *)
Lemma sweep_batches_silent criterion epoch bs : forall i st,
  (forall k b, bs !! k = Some b -> ((i + Z.of_nat k + 1) * epoch) mod 6 = 0) ->
  running_losses (sweep_batches criterion epoch i bs st) = running_losses st.
Proof.
  induction bs as [|b0 bs IH]; intros i st Hall; [done|].
  cbn [sweep_batches]. destruct (stop st); [done|].
  rewrite IH.
  - pose proof (sweep_batch_logs criterion epoch i b0 st) as L. cbv zeta in L.
    pose proof (Hall 0%nat b0 eq_refl) as H0.
    replace (i + Z.of_nat 0 + 1) with (i + 1) in H0 by lia.
    apply Z.eqb_eq in H0. rewrite H0 in L. apply L.
  - intros k b Hk. specialize (Hall (S k) b Hk).
    replace (i + 1 + Z.of_nat k + 1) with (i + Z.of_nat (S k) + 1) by lia. done.
Qed.

Lemma sweep_epochs_silent criterion dl epochs : forall st,
  (forall e k b, e ∈ epochs -> dl e !! k = Some b ->
     ((Z.of_nat k + 1) * e) mod 6 = 0) ->
  running_losses (sweep_epochs criterion dl epochs st) = running_losses st.
Proof.
  induction epochs as [|e0 epochs IH]; intros st Hall; [done|].
  cbn [sweep_epochs]. destruct (stop st); [done|].
  rewrite IH.
  - apply sweep_batches_silent. intros k b Hk.
    replace (0 + Z.of_nat k + 1) with (Z.of_nat k + 1) by lia.
    apply (Hall e0 k b); [by left|done].
  - intros e k b He. apply Hall. by right.
Qed.

Lemma elem_of_py_range lo hi e : e ∈ py_range lo hi <-> lo <= e < hi.
Proof.
  unfold py_range.
  assert (forall n lo, e ∈ range_from lo n <-> lo <= e < lo + Z.of_nat n) as H.
  { induction n as [|n IH]; intros lo'; cbn [range_from].
    - rewrite elem_of_nil. lia.
    - rewrite elem_of_cons, IH. lia. }
  rewrite H. lia.
Qed.

(** C5.  [_find_lr] has no guard of its own: it raises, by [np.argmin] of
    the empty list of losses, exactly when the sweep records no checkpoint,
    that is when no batch of the 100 passes has a counter [(i + 1) * epoch]
    that is not a multiple of 6.  A loader without batches is such a one; a
    loader whose first pass yields a batch, however few, is not: its first
    batch (counter 1) records a checkpoint and a learning rate is
    returned. *)
Theorem find_lr_raises_exactly_when_nothing_recorded
    self dl optimizer criterion m :
  _select_optimizer self = Ok optimizer ->
  _select_criterion self = Ok criterion ->
  model self = Some m ->
  let recording := fun (e : Z) (k : nat) =>
    1 <= e <= 100 /\ (k < length (dl e))%nat /\
    ((Z.of_nat k + 1) * e) mod 6 <> 0 in
  ((forall e k, ~ recording e k) -> _find_lr self dl = Raise ValueError) /\
  (forall e k, recording e k -> exists lr m', _find_lr self dl = Ok (lr, m')) /\
  ((forall pass, dl pass = []) -> _find_lr self dl = Raise ValueError) /\
  (forall b bs, dl 1 = b :: bs -> exists lr m', _find_lr self dl = Ok (lr, m')).
Proof.
  intros Ho Hc Hm recording.
  assert ((forall e k, ~ recording e k) -> _find_lr self dl = Raise ValueError)
    as Hsilent.
  { intros Hno. eapply find_lr_no_checkpoint; [by eapply sweep_unfold|].
    rewrite sweep_epochs_silent; [reflexivity|].
    intros e k b He Hk.
    destruct (decide (((Z.of_nat k + 1) * e) mod 6 = 0)) as [|Hne]; [done|].
    exfalso. apply (Hno e k). split; [|split; [by eapply lookup_lt_Some|done]].
    apply elem_of_py_range in He. lia. }
  assert (forall e k, recording e k -> exists lr m', _find_lr self dl = Ok (lr, m'))
    as Hrec.
  { intros e k (He & Hk & Hcnt).
    destruct (lookup_lt_is_Some_2 _ _ Hk) as [b Hb].
    unfold _find_lr. rewrite (sweep_unfold _ dl _ _ _ Ho Hc Hm), bind_Ok.
    set (st := sweep_epochs criterion dl (py_range 1 101) (sweep_init m optimizer)).
    assert (running_losses st <> []) as Hne.
    { apply (sweep_epochs_record criterion dl (py_range 1 101) e k b);
        [done|apply elem_of_py_range; lia|done|done]. }
    assert (logs_agree st) as Hag.
    { apply (sweep_epochs_inv logs_agree); [|reflexivity].
      intros. by apply sweep_batch_agree. }
    clearbody st.
    destruct (np_argmin_in_range _ Hne) as (idx & -> & Hidx). rewrite bind_Ok.
    unfold py_index. unfold logs_agree in Hag. rewrite <- Hag in Hidx.
    destruct (lookup_lt_is_Some_2 _ _ Hidx) as [x ->]. rewrite bind_Ok. eauto. }
  split; [exact Hsilent|]. split; [exact Hrec|]. split.
  - intros Hdl. apply Hsilent. intros e k (_ & Hk & _).
    rewrite Hdl in Hk. simpl in Hk. lia.
  - intros b bs Hdl. apply (Hrec 1 0%nat). split; [lia|].
    rewrite Hdl. split; [simpl; lia|]. done.
Qed.

End SweepFacts.

Lemma find_lr_raises_exactly_when_nothing_recorded_witness :
  _find_lr (Toy.mixer "integer") Toy.empty_loader = Raise ValueError /\
  exists lr m',
    _find_lr (Toy.mixer "integer") (Toy.one_batch [F64.of_Z 1]) = Ok (lr, m').
Proof.
  assert (_select_optimizer (Toy.mixer "integer") = Ok F64.lit_1e_4) as Ho
    by reflexivity.
  assert (_select_criterion (Toy.mixer "integer") = Ok MSELoss) as Hc
    by reflexivity.
  destruct (find_lr_raises_exactly_when_nothing_recorded
              (Toy.mixer "integer") Toy.empty_loader F64.lit_1e_4 MSELoss 0%nat
              Ho Hc eq_refl) as (_ & _ & Hempty & _).
  destruct (find_lr_raises_exactly_when_nothing_recorded
              (Toy.mixer "integer") (Toy.one_batch [F64.of_Z 1])
              F64.lit_1e_4 MSELoss 0%nat Ho Hc eq_refl)
    as (_ & _ & _ & Hone).
  split.
  - apply Hempty. reflexivity.
  - eapply Hone. reflexivity.
Defined.

(** A loader of one batch is shorter than one cadence cycle of 6, and
    [_find_lr] returns a learning rate over it: the rate logged at its first
    checkpoint. *)
Lemma find_lr_returns_over_short_loader :
  let dl := fun n (_ : Z) => replicate n (T2 [[F64.of_Z 1]], T2 [[F64.zero]]) in
  (forall epoch, length (dl 1%nat epoch) = 1%nat) /\
  (forall epoch, length (dl 5%nat epoch) = 5%nat) /\
  (exists lr m', _find_lr (Toy.mixer "integer") (dl 1%nat) = Ok (lr, m')) /\
  (exists lr m', _find_lr (Toy.mixer "integer") (dl 5%nat) = Ok (lr, m')).
Proof.
  intros dl. split; [done|]. split; [done|].
  split; vm_compute; eexists _, _; reflexivity.
Qed.

(** ** The bounded trainer *)

Section MaxFitFacts.

Context {Model Optim Scaler : Type} `{!Torch Model Optim Scaler}.
Implicit Types st : @Run Model Optim Scaler.
Implicit Types brk : option Break.

(** The epoch error of [epoch_pass] is the mean dev loss of the network it
    returns. *)
Lemma epoch_pass_error train_dl dev_dl criterion epoch st m o s te ee :
  epoch_pass train_dl dev_dl criterion epoch st = (m, o, s, te, ee) ->
  ee = mean_loss (dev_dl epoch) criterion m.
Proof.
  unfold epoch_pass, _error.
  destruct (train_epoch _ _ _ _ _) as [[[m1 o1] s1] ls]. congruence.
Qed.

(** The stopping rules of one epoch, rule by rule. *)
Lemma epoch_rules_break clock stop_after epoch m o s te ee st :
  (epoch_rules clock stop_after epoch m o s te ee st).2 =
  let errs := running_errors st ++ [ee] in
  if diverged te ee then Some Diverged
  else if 5 <=? Z.of_nat (length errs) then
    if F64.leb (delta_mean errs) F64.zero then Some Plateau else None
  else if F64.gt_Z (F64.sub (clock epoch) (clock 0)) stop_after then
    Some OutOfTime
  else if F64.ltb ee F64.lit_1e_4 || F64.ltb te F64.lit_1e_4 then Some Converged
  else None.
Proof.
  unfold epoch_rules. rewrite neg_index_snoc. cbv zeta.
  destruct (diverged te ee); [done|].
  destruct (5 <=? _).
  { by destruct (F64.leb _ _). }
  destruct (F64.gt_Z _ _); [done|].
  by destruct (_ || _).
Qed.

(** What an epoch leaves in the state: the error is recorded in any case;
    the best error, the best network and its epoch change only when the
    epoch did not diverge and improved on the best error. *)
Lemma epoch_rules_state clock stop_after epoch m o s te ee st :
  let st' := (epoch_rules clock stop_after epoch m o s te ee st).1 in
  running_errors st' = running_errors st ++ [ee] /\
  run_model st' = m /\
  if negb (diverged te ee) && F64.gtb (best_dev_error st) ee then
    best_dev_error st' = ee /\ best_model st' = Snapshot m /\
    run_epochs_to_best st' = epoch
  else
    best_dev_error st' = best_dev_error st /\ best_model st' = best_model st /\
    run_epochs_to_best st' = run_epochs_to_best st.
Proof.
  unfold epoch_rules. rewrite neg_index_snoc. cbv zeta.
  destruct (diverged te ee); simpl; [done|].
  destruct (F64.gtb (best_dev_error st) ee);
    destruct (5 <=? _); try destruct (F64.leb _ _);
    try destruct (F64.gt_Z _ _); try destruct (_ || _); done.
Qed.

Lemma diverged_false te ee :
  diverged te ee = false -> F64.isnan ee = false /\ F64.isinf ee = false.
Proof.
  unfold diverged. intros H.
  apply orb_false_elim in H as [H H4]. apply orb_false_elim in H as [H H3].
  apply orb_false_elim in H as [H1 H2]. done.
Qed.

(** An epoch ends in the divergence [break] exactly when its mean training
    loss or its epoch error is NaN or infinite. *)
Lemma max_fit_epoch_diverged_iff clock train_dl dev_dl criterion stop_after epoch st :
  (max_fit_epoch clock train_dl dev_dl criterion stop_after epoch st).2 = Some Diverged
  <-> let '(_, _, _, train_error, epoch_error) :=
        epoch_pass train_dl dev_dl criterion epoch st in
      diverged train_error epoch_error = true.
Proof.
  unfold max_fit_epoch.
  destruct (epoch_pass _ _ _ _ _) as [[[[m o] s] te] ee].
  rewrite epoch_rules_break. cbv zeta.
  destruct (diverged te ee); [done|].
  destruct (5 <=? _); [by destruct (F64.leb _ _)|].
  destruct (F64.gt_Z _ _); [done|]. by destruct (_ || _).
Qed.

(** [max_fit_epochs] over two stretches of epochs. *)
Lemma max_fit_epochs_app clock train_dl dev_dl criterion stop_after l1 l2 st :
  max_fit_epochs clock train_dl dev_dl criterion stop_after (l1 ++ l2) st =
  match max_fit_epochs clock train_dl dev_dl criterion stop_after l1 st with
  | (st1, None) => max_fit_epochs clock train_dl dev_dl criterion stop_after l2 st1
  | (st1, Some b) => (st1, Some b)
  end.
Proof.
  revert st. induction l1 as [|e l1 IH]; intros st; simpl; [done|].
  destruct (max_fit_epoch _ _ _ _ _ _ _) as [st1 [b|]]; [done|]. apply IH.
Qed.

(** C2.  The time budget is looked at only while fewer than five epoch
    errors are recorded: at such an epoch end, if no divergence stopped the
    run and the elapsed time exceeds [stop_after], the run stops there and
    no further epoch is started.  From the fifth recorded error on, the
    plateau test alone decides, whatever the clock says. *)
Theorem max_fit_time_budget_before_fifth_error
    clock train_dl dev_dl criterion stop_after epoch epochs st st' brk :
  max_fit_epoch clock train_dl dev_dl criterion stop_after epoch st = (st', brk) ->
  brk <> Some Diverged ->
  F64.gt_Z (F64.sub (clock epoch) (clock 0)) stop_after = true ->
  (Z.of_nat (length (running_errors st')) < 5 ->
     brk = Some OutOfTime /\
     max_fit_epochs clock train_dl dev_dl criterion stop_after (epoch :: epochs) st
     = (st', Some OutOfTime)) /\
  (5 <= Z.of_nat (length (running_errors st')) ->
     brk = if F64.leb (delta_mean (running_errors st')) F64.zero
           then Some Plateau else None).
Proof.
  intros Hep Hnd Htime.
  assert (Hloop := Hep). unfold max_fit_epoch in Hep.
  destruct (epoch_pass _ _ _ _ _) as [[[[m o] s] te] ee].
  pose proof (epoch_rules_break clock stop_after epoch m o s te ee st) as Hb.
  pose proof (epoch_rules_state clock stop_after epoch m o s te ee st) as [Herrs _].
  rewrite Hep in Hb, Herrs. simpl in Hb, Herrs. rewrite <- Herrs in Hb.
  destruct (diverged te ee); [done|].
  split; intros Hlen.
  - assert ((5 <=? Z.of_nat (length (running_errors st'))) = false) as E by lia.
    rewrite E, Htime in Hb. split; [done|].
    simpl. rewrite Hloop. by rewrite Hb.
  - assert ((5 <=? Z.of_nat (length (running_errors st'))) = true) as E by lia.
    by rewrite E in Hb.
Qed.

(** *** The best checkpoint along a run *)


Lemma tracked_init dev_dl criterion (m : Model) (o : Optim) (s : Scaler) :
  tracked dev_dl criterion 0 (run_init m o s).
Proof. unfold tracked. simpl. repeat split; auto. lia. Qed.

(** An epoch that does not diverge keeps the state tracked. *)
Lemma max_fit_epoch_tracked clock train_dl dev_dl criterion stop_after n st st' brk :
  tracked dev_dl criterion n st ->
  max_fit_epoch clock train_dl dev_dl criterion stop_after (n + 1) st = (st', brk) ->
  brk <> Some Diverged ->
  tracked dev_dl criterion (n + 1) st'.
Proof.
  intros (Hlen & Hnan & Hle & Hck & Hlast) Hep Hnd.
  unfold max_fit_epoch in Hep.
  destruct (epoch_pass _ _ _ _ _) as [[[[m o] s] te] ee] eqn:Hpass.
  apply epoch_pass_error in Hpass.
  pose proof (epoch_rules_break clock stop_after (n + 1) m o s te ee st) as Hb.
  pose proof (epoch_rules_state clock stop_after (n + 1) m o s te ee st)
    as (Herrs & Hm & Hbest).
  rewrite Hep in Hb, Herrs, Hm, Hbest. simpl in Hb, Herrs, Hm, Hbest.
  destruct (diverged te ee) eqn:Hdiv; [congruence|].
  destruct (diverged_false _ _ Hdiv) as [Hee _].
  simpl in Hbest.
  assert (0 <= n) as Hn0 by lia.
  destruct (F64.gtb (best_dev_error st) ee) eqn:Hgt.
  - destruct Hbest as (Hb1 & Hb2 & Hb3).
    unfold tracked. rewrite Herrs, Hb1, Hb2, Hb3, Hm. repeat split.
    + rewrite length_app. simpl. lia.
    + done.
    + apply Forall_app. split.
      * eapply Forall_impl; [exact Hle|]. intros e He.
        by apply (gtb_leb_trans (best_dev_error st)).
      * repeat constructor. by apply leb_refl.
    + right. exists m. repeat split; try lia. done.
    + intros _. rewrite last_snoc. by rewrite Hpass.
  - destruct Hbest as (Hb1 & Hb2 & Hb3).
    unfold tracked. rewrite Herrs, Hb1, Hb2, Hb3, Hm. repeat split.
    + rewrite length_app. simpl. lia.
    + done.
    + apply Forall_app. split; [done|].
      repeat constructor. by apply not_gtb_leb.
    + destruct Hck as [?|(m0 & ? & ? & ?)]; [by left|].
      right. exists m0. repeat split; try done; lia.
    + intros _. rewrite last_snoc. by rewrite Hpass.
Qed.

(** An epoch that diverges only records its error and leaves the live
    network trained: best error, best network and its epoch stay. *)
Lemma max_fit_epoch_diverged clock train_dl dev_dl criterion stop_after epoch st st' :
  max_fit_epoch clock train_dl dev_dl criterion stop_after epoch st
  = (st', Some Diverged) ->
  best_dev_error st' = best_dev_error st /\
  best_model st' = best_model st /\
  run_epochs_to_best st' = run_epochs_to_best st /\
  exists e, running_errors st' = running_errors st ++ [e].
Proof.
  intros Hep. unfold max_fit_epoch in Hep.
  destruct (epoch_pass _ _ _ _ _) as [[[[m o] s] te] ee].
  pose proof (epoch_rules_break clock stop_after epoch m o s te ee st) as Hb.
  pose proof (epoch_rules_state clock stop_after epoch m o s te ee st)
    as (Herrs & Hm & Hbest).
  rewrite Hep in Hb, Herrs, Hm, Hbest. simpl in Hb, Herrs, Hm, Hbest.
  destruct (diverged te ee) eqn:Hdiv.
  - simpl in Hbest. destruct Hbest as (? & ? & ?). eauto.
  - destruct (5 <=? _); [by destruct (F64.leb _ _)|].
    destruct (F64.gt_Z _ _); [done|]. by destruct (_ || _).
Qed.


Lemma max_fit_epochs_outcome clock train_dl dev_dl criterion stop_after cnt :
  forall n st st' brk,
    tracked dev_dl criterion n st ->
    max_fit_epochs clock train_dl dev_dl criterion stop_after
      (range_from (n + 1) cnt) st = (st', brk) ->
    run_outcome dev_dl criterion st' brk.
Proof.
  induction cnt as [|cnt IH]; intros n st st' brk Htr Hrun; simpl in Hrun.
  - inversion Hrun; subst. simpl. eauto.
  - destruct (max_fit_epoch _ _ _ _ _ _ _) as [st1 b1] eqn:Hep.
    destruct b1 as [b|].
    + inversion Hrun; subst.
      assert (b = Diverged \/ Some b <> Some Diverged) as [->|Hb]
        by (destruct b; (by left) || (by right)).
      * apply max_fit_epoch_diverged in Hep as (? & ? & ? & e & ?).
        simpl. exists n, st, e. done.
      * assert (tracked dev_dl criterion (n + 1) st') as Htr'.
        { eapply max_fit_epoch_tracked; eauto. }
        destruct b; simpl; eauto. done.
    + eapply (IH (n + 1)); [|exact Hrun].
      eapply max_fit_epoch_tracked; eauto.
Qed.

Lemma max_fit_loop_outcome clock m train_dl dev_dl criterion optimizer scaler
    stop_after return_model_after st brk :
  max_fit_loop clock m train_dl dev_dl criterion optimizer scaler
    stop_after return_model_after = (st, brk) ->
  run_outcome dev_dl criterion st brk.
Proof.
  unfold max_fit_loop, py_range. intros Hrun.
  eapply (max_fit_epochs_outcome _ _ _ _ _ _ 0); [apply tracked_init|exact Hrun].
Qed.

Lemma max_fit_result_not_nan st :
  F64.isnan (best_dev_error st) = false ->
  max_fit_result st
  = (deref (run_model st) (best_model st), run_epochs_to_best st, best_dev_error st).
Proof. unfold max_fit_result. by intros ->. Qed.


(** C4.  An epoch that diverges (NaN or infinite mean training loss or
    epoch error) ends the run and updates nothing of the best checkpoint.
    For a run that diverges at epoch [k], epochs-to-best and the best error
    are returned as they stood after epoch [k - 1]; so is the returned
    network once a checkpoint had been taken by then.  With no checkpoint
    taken, the returned network is the live one, trained through epoch
    [k]. *)
Theorem max_fit_divergent_epoch_discarded
    clock m train_dl dev_dl criterion optimizer scaler stop_after
    return_model_after k st1 :
  1 <= k <= return_model_after ->
  max_fit_loop clock m train_dl dev_dl criterion optimizer scaler
    stop_after (k - 1) = (st1, None) ->
  (max_fit_epoch clock train_dl dev_dl criterion stop_after k st1).2
  = Some Diverged ->
  let r := _max_fit clock m train_dl dev_dl criterion optimizer scaler
             stop_after return_model_after in
  let r1 := _max_fit clock m train_dl dev_dl criterion optimizer scaler
              stop_after (k - 1) in
  (max_fit_loop clock m train_dl dev_dl criterion optimizer scaler
     stop_after return_model_after).2 = Some Diverged /\
  r.1.2 = r1.1.2 /\ r.2 = r1.2 /\
  (0 < r1.1.2 -> r = r1) /\
  (r1.1.2 = 0 ->
     r.1.1 = run_model (max_fit_epoch clock train_dl dev_dl criterion stop_after k st1).1).
Proof.
  intros Hk Hrun1 Hdiv.
  destruct (max_fit_epoch clock train_dl dev_dl criterion stop_after k st1)
    as [st2 b2] eqn:Hep. simpl in Hdiv. subst b2.
  assert (max_fit_loop clock m train_dl dev_dl criterion optimizer scaler
            stop_after return_model_after = (st2, Some Diverged)) as Hrun.
  { unfold max_fit_loop in *.
    rewrite (py_range_split 1 k (return_model_after + 1)) by lia.
    rewrite max_fit_epochs_app.
    replace (k - 1 + 1) with k in Hrun1 by lia. rewrite Hrun1.
    rewrite (py_range_cons k) by lia. simpl. by rewrite Hep. }
  pose proof (max_fit_loop_outcome _ _ _ _ _ _ _ _ _ _ _ Hrun1) as (n & Htr).
  destruct Htr as (Hlen & Hnan & Hle & Hck & Hlast).
  apply max_fit_epoch_diverged in Hep as (Hb & Hbm & He2b & e & Herrs).
  unfold _max_fit. rewrite Hrun, Hrun1. cbn [fst snd].
  rewrite !max_fit_result_not_nan by congruence. cbn [fst snd].
  rewrite Hb, Hbm, He2b. split; [done|]. split; [done|]. split; [done|]. split.
  - intros Hpos. destruct Hck as [(_ & E & _)|(m0 & -> & _ & _)]; [lia|]. done.
  - intros Hzero. destruct Hck as [(-> & _ & _)|(m0 & _ & ? & _)]; [done|lia].
Qed.

End MaxFitFacts.

Lemma max_fit_time_budget_before_fifth_error_witness :
  max_fit_epochs Toy.clock (Toy.one_batch [Toy.dy 1 0]) (Toy.one_batch [Toy.dy 1 0; Toy.dy 1 1])
    MSELoss 0 [1; 2] (run_init 0%nat F64.lit_1e_4 tt)
  = ({| run_model := 1%nat; run_optimizer := F64.lit_1e_4; run_scaler := tt;
        run_epochs_to_best := 1; best_dev_error := Toy.dy 1 1;
        running_errors := [Toy.dy 1 1]; best_model := Snapshot 1%nat |},
     Some OutOfTime).
Proof.
  eapply (max_fit_time_budget_before_fifth_error Toy.clock
            (Toy.one_batch [Toy.dy 1 0]) (Toy.one_batch [Toy.dy 1 0; Toy.dy 1 1])
            MSELoss 0 1 [2] (run_init 0%nat F64.lit_1e_4 tt)).
  - vm_compute. reflexivity.
  - discriminate.
  - vm_compute. reflexivity.
  - vm_compute. reflexivity.
Defined.

(** A run of six epochs with the dev errors 1/2, 1/4, ..., 1/64 on a clock
    that reads [e] seconds after epoch [e], under a budget of 4 seconds:
    at the end of epoch 5 nothing has diverged, the plateau test does not
    fire and 5 seconds have passed, yet the run goes on to train epoch 6. *)
Lemma max_fit_runs_past_time_budget :
  let train_dl := Toy.one_batch (replicate 8 (Toy.dy 1 0)) in
  let dev_dl := Toy.one_batch ((fun k => Toy.dy 1 k) <$> seq 0 8) in
  let after5 := max_fit_epochs Toy.clock train_dl dev_dl MSELoss 4
                  (py_range 1 6) (run_init 0%nat F64.lit_1e_4 tt) in
  after5.2 = None /\
  length (running_errors after5.1) = 5%nat /\
  F64.leb (delta_mean (running_errors after5.1)) F64.zero = false /\
  F64.gt_Z (F64.sub (Toy.clock 5) (Toy.clock 0)) 4 = true /\
  _max_fit Toy.clock 0%nat train_dl dev_dl MSELoss F64.lit_1e_4 tt 4 6
  = (6%nat, 6, Toy.dy 1 6).
Proof. vm_compute. repeat split; reflexivity. Qed.



Lemma max_fit_divergent_epoch_discarded_witness :
  let train_dl := Toy.one_batch [Toy.dy 1 0; F64.inf] in
  let dev_dl := Toy.one_batch [Toy.dy 1 0; Toy.dy 1 1; Toy.dy 1 2] in
  _max_fit Toy.clock 0%nat train_dl dev_dl MSELoss F64.lit_1e_4 tt 4 6
  = _max_fit Toy.clock 0%nat train_dl dev_dl MSELoss F64.lit_1e_4 tt 4 1.
Proof.
  intros train_dl dev_dl.
  edestruct (max_fit_divergent_epoch_discarded Toy.clock 0%nat train_dl dev_dl
               MSELoss F64.lit_1e_4 tt 4 6 2) as (_ & _ & _ & H & _).
  - lia.
  - vm_compute. reflexivity.
  - vm_compute. reflexivity.
  - apply H. vm_compute. reflexivity.
Defined.

(** A run whose first epoch has the dev error 2^33, above the initial best
    error 2^32, and whose second epoch has a NaN dev error: no checkpoint
    was taken by epoch 1, and the network returned after the divergence at
    epoch 2 has taken two training steps, not the one it had taken at the
    end of epoch 1. *)
Lemma max_fit_divergent_epoch_trains_returned_network :
  let train_dl := Toy.one_batch (replicate 8 (Toy.dy 1 0)) in
  let dev_dl := Toy.one_batch [Toy.dy 1 0; F64.of_Z (2 ^ 33); F64.nan] in
  (max_fit_loop Toy.clock 0%nat train_dl dev_dl MSELoss F64.lit_1e_4 tt 4 1).2 = None /\
  (max_fit_loop Toy.clock 0%nat train_dl dev_dl MSELoss F64.lit_1e_4 tt 4 2).2
  = Some Diverged /\
  _max_fit Toy.clock 0%nat train_dl dev_dl MSELoss F64.lit_1e_4 tt 4 1
  = (1%nat, 0, F64.pow_2_32) /\
  _max_fit Toy.clock 0%nat train_dl dev_dl MSELoss F64.lit_1e_4 tt 4 2
  = (2%nat, 0, F64.pow_2_32) /\
  _max_fit Toy.clock 0%nat train_dl dev_dl MSELoss F64.lit_1e_4 tt 4 2
  <> _max_fit Toy.clock 0%nat train_dl dev_dl MSELoss F64.lit_1e_4 tt 4 1.
Proof. vm_compute. repeat split; try reflexivity. discriminate. Qed.

(** ** [fit] *)

Section FitFacts.

Context {Model Optim Scaler : Type} `{!Torch Model Optim Scaler}.
Implicit Types self : @Neural Model.

Lemma select_criterion_total self t m :
  dtype_dict self !! target self = Some t -> model self = Some m ->
  exists criterion, _select_criterion self = Ok criterion.
Proof.
  intros Ht Hm. unfold _select_criterion.
  rewrite (target_dtype_Some _ _ Ht), bind_Ok, Hm.
  destruct (in_tuple _ _); [by eexists|].
  destruct (in_str _ _); [by eexists|].
  destruct (_ && _); [by eexists|].
  destruct (in_tuple _ _); by eexists.
Qed.

Lemma select_criterion_no_dtype self :
  dtype_dict self !! target self = None -> _select_criterion self = Raise KeyError.
Proof. intros Ht. unfold _select_criterion, target_dtype. by rewrite Ht. Qed.

(** A loader over an empty dataset yields no batch. *)
Lemma DataLoader_empty batch_size pass : DataLoader [] batch_size false pass = [].
Proof. done. Qed.

Lemma select_optimizer_total self m x :
  model self = Some m -> lr self = Some x ->
  exists optimizer, _select_optimizer self = Ok optimizer.
Proof.
  intros Hm Hx. unfold _select_optimizer. rewrite Hm, Hx.
  destruct (is_timeseries _); by eexists.
Qed.

(** A loader without shuffling over a dataset with a row yields a batch. *)
Lemma DataLoader_nonempty row rows batch_size pass :
  exists b bs, DataLoader (row :: rows) batch_size false pass = b :: bs.
Proof. unfold DataLoader. simpl. eauto. Qed.

Lemma train_side_first k p0 rest :
  1 <= k -> train_side k (p0 :: rest) = p0 :: take (Z.to_nat k - 1) rest.
Proof.
  intros Hk. unfold train_side.
  replace (Z.to_nat k) with (S (Z.to_nat k - 1)) at 1 by lia. done.
Qed.

(** The training stages of [fit] complete when the first partition has a
    row and lies on the training side, the target type is declared and the
    batch size can be derived. *)
Lemma fit_training_completes clock self ds_arr k p0 rest row rows t bs :
  ds_arr = p0 :: rest -> samples p0 = row :: rows -> 1 <= k ->
  dtype_dict self !! target self = Some t ->
  derive_batch_size (ConcatedEncodedDs (train_side k ds_arr)) = Ok bs ->
  exists self', fit_training clock self ds_arr k = Ok self'.
Proof.
  intros -> Hp0 Hk Ht Hbs. unfold fit_training.
  rewrite Hbs, bind_Ok. unfold _init_net.
  change (py_index (p0 :: rest) 0%nat) with (Ok p0). rewrite bind_Ok, Hp0.
  change (py_index (row :: rows) 0%nat) with (Ok row). rewrite bind_Ok.
  change (attr (num_hidden _)) with (@Ok Z 1). rewrite !bind_Ok.
  match goal with
  | |- context [ _find_lr ?s ?dl ] => set (self1 := s); set (train_dl := dl)
  end.
  assert (exists m, model self1 = Some m) as [m Hm] by (by eexists).
  destruct (select_criterion_total self1 t m Ht Hm) as [criterion Hc].
  destruct (select_optimizer_total self1 m F64.lit_1e_4 Hm eq_refl) as [o Ho].
  assert (exists b bs', train_dl 1 = b :: bs') as (b & bs' & Hdl).
  { unfold train_dl. rewrite (train_side_first _ _ _ Hk).
    unfold ConcatedEncodedDs. simpl. rewrite Hp0. simpl.
    apply DataLoader_nonempty. }
  destruct (find_lr_nonempty_loader self1 train_dl o criterion m b bs' Ho Hc Hm Hdl)
    as (x & m' & ->).
  rewrite bind_Ok. cbv beta iota.
  set (self2 := set_model m' (set_self_lr x self1)).
  destruct (select_optimizer_total self2 m' x eq_refl eq_refl) as [o2 ->].
  destruct (select_criterion_total self2 t m' Ht eq_refl) as [c2 ->].
  rewrite !bind_Ok. change (attr (model self2)) with (Ok m'). rewrite bind_Ok.
  destruct (_max_fit _ _ _ _ _ _ _ _ _) as [[m1 e2b] err]. by eexists.
Qed.

(** C8.  When the validation side of the split is empty, [fit] is its
    training stages and nothing more: it returns what they return, or raises
    what they raise, and calls neither [partial_fit] nor [_final_tuning].
    The training stages complete, and [fit] with them, when the first
    partition has a row and lies on the training side and the target type is
    declared. *)
Theorem fit_empty_validation_skips_tuning clock clock' self ds_arr k :
  split_point ds_arr = Ok k ->
  length (ConcatedEncodedDs (dev_side k ds_arr)) = 0%nat ->
  fit clock clock' self ds_arr = fit_training clock self ds_arr k /\
  (forall self', fit_training clock self ds_arr k = Ok self' ->
     fit clock clock' self ds_arr = Ok self') /\
  (forall p0 rest row rows t bs,
     ds_arr = p0 :: rest -> samples p0 = row :: rows -> 1 <= k ->
     dtype_dict self !! target self = Some t ->
     derive_batch_size (ConcatedEncodedDs (train_side k ds_arr)) = Ok bs ->
     exists self', fit clock clock' self ds_arr = Ok self').
Proof.
  intros Hk Hlen.
  assert (fit clock clock' self ds_arr = fit_training clock self ds_arr k) as E.
  { unfold fit. rewrite Hk, bind_Ok.
    destruct (fit_training clock self ds_arr k) as [self'|e]; [|done].
    rewrite bind_Ok, Hlen. done. }
  split; [exact E|]. split.
  - intros self' H'. by rewrite E.
  - intros p0 rest row rows t bs H1 H2 H3 H4 H5. rewrite E.
    by eapply fit_training_completes.
Qed.

(** On a list of one partition the split point is 0, the training side is
    empty, and [fit] raises before it reaches the bounded trainer. *)
Lemma fit_training_single_partition clock self p :
  exists e, fit_training clock self [p] 0 = Raise e /\
    forall t row rows,
      dtype_dict self !! target self = Some t -> samples p = row :: rows ->
      e = ValueError.
Proof.
  unfold fit_training.
  change (derive_batch_size (ConcatedEncodedDs (train_side 0 [p]))) with (@Ok Z 40).
  rewrite bind_Ok.
  unfold _init_net. change (py_index [p] 0%nat) with (Ok p). rewrite bind_Ok.
  destruct (samples p) as [|row rows] eqn:Hp.
  { eexists. split; [reflexivity|]. intros ? ? ? _ [=]. }
  change (py_index (row :: rows) 0%nat) with (Ok row). rewrite bind_Ok.
  change (attr (num_hidden _)) with (@Ok Z 1). rewrite !bind_Ok.
  match goal with
  | |- context [ _find_lr ?s ?dl ] => set (self1 := s); set (train_dl := dl)
  end.
  destruct (dtype_dict self !! target self) as [t|] eqn:Ht.
  - assert (exists m, model self1 = Some m) as [m Hm] by (by eexists).
    destruct (select_criterion_total self1 t m Ht Hm) as [criterion Hc].
    assert (exists o, _select_optimizer self1 = Ok o) as [o Ho].
    { unfold _select_optimizer. simpl. destruct (is_timeseries _); by eexists. }
    rewrite (find_lr_empty_loader self1 train_dl o criterion m Ho Hc Hm).
    + eexists. split; [reflexivity|]. done.
    + intros pass. apply DataLoader_empty.
  - assert (_find_lr self1 train_dl = Raise KeyError) as ->.
    { unfold _find_lr, sweep.
      assert (exists o, _select_optimizer self1 = Ok o) as [o ->].
      { unfold _select_optimizer. simpl. destruct (is_timeseries _); by eexists. }
      rewrite bind_Ok. rewrite (select_criterion_no_dtype self1 Ht). done. }
    eexists. split; [reflexivity|]. intros ? ? ? [=].
Qed.

End FitFacts.

(** *** The split point *)


Lemma split_matches_floor_checked :
  forallb split_matches_floor (range_from 0 (Z.to_nat 10000)) = true.
Proof. vm_compute. reflexivity. Qed.

Lemma elem_of_range_from cnt : forall lo n,
  lo <= n < lo + Z.of_nat cnt -> In n (range_from lo cnt).
Proof.
  induction cnt as [|cnt IH]; intros lo n Hn; simpl; [lia|].
  destruct (decide (n = lo)) as [->|Hne]; [by left|].
  right. apply IH. lia.
Qed.

Lemma split_point_floor (ds_arr : list EncodedDs) :
  Z.of_nat (length ds_arr) < 10000 ->
  split_point ds_arr = Ok (9 * Z.of_nat (length ds_arr) / 10).
Proof.
  intros Hlt.
  pose proof split_matches_floor_checked as Hall.
  rewrite forallb_forall in Hall.
  specialize (Hall (Z.of_nat (length ds_arr))).
  unfold split_matches_floor in Hall. unfold split_point, py_int.
  destruct (F64.to_int _) as [k|].
  - f_equal. apply Z.eqb_eq, Hall, elem_of_range_from. lia.
  - discriminate Hall. apply elem_of_range_from. lia.
Qed.

Section SinglePartition.

Context {Model Optim Scaler : Type} `{!Torch Model Optim Scaler}.
Implicit Types self : @Neural Model.

(** C10.  On a list of exactly one partition the split point is
    [int(1 * 0.9) = 0]: the training side is empty and the partition goes to
    the validation side; the derived batch size is 40 and the training
    loader yields no batch.  The learning-rate finder then records no
    checkpoint and raises, so [fit] raises and never reaches the bounded
    trainer.  In general the training side is the first [int(n * 0.9)]
    partitions, which is the integer part of 9n/10 (checked for every n below
    10000). *)
Theorem fit_single_partition_has_empty_training_side clock clock' self p :
  split_point [p] = Ok 0 /\
  train_side 0 [p] = [] /\
  dev_side 0 [p] = [p] /\
  derive_batch_size (ConcatedEncodedDs (train_side 0 [p])) = Ok 40 /\
  (forall pass,
     DataLoader (ConcatedEncodedDs (train_side 0 [p])) 40 false pass = []) /\
  (exists e, fit clock clock' self [p] = Raise e /\
     forall t row rows,
       dtype_dict self !! target self = Some t -> samples p = row :: rows ->
       e = ValueError) /\
  (forall ds_arr : list EncodedDs,
     Z.of_nat (length ds_arr) < 10000 ->
     split_point ds_arr = Ok (9 * Z.of_nat (length ds_arr) / 10) /\
     train_side (9 * Z.of_nat (length ds_arr) / 10) ds_arr
     = take (Z.to_nat (9 * Z.of_nat (length ds_arr) / 10)) ds_arr).
Proof.
  split; [done|]. split; [done|]. split; [done|]. split; [done|].
  split; [done|]. split.
  - destruct (fit_training_single_partition clock self p) as (e & He & Hval).
    exists e. split; [|exact Hval].
    unfold fit. change (split_point [p]) with (@Ok Z 0).
    by rewrite bind_Ok, He.
  - intros ds_arr Hlt. split; [by apply split_point_floor|done].
Qed.

End SinglePartition.

Lemma fit_single_partition_has_empty_training_side_witness :
  fit Toy.clock Toy.clock (Toy.mixer "integer") [Toy.dataset [[F64.of_Z 1]]]
  = Raise ValueError /\
  split_point (replicate 10 (Toy.dataset [])) = Ok 9.
Proof.
  destruct (fit_single_partition_has_empty_training_side Toy.clock Toy.clock
              (Toy.mixer "integer") (Toy.dataset [[F64.of_Z 1]]))
    as (_ & _ & _ & _ & _ & (e & He & Hval) & Hsplit).
  split.
  - rewrite He. f_equal. eapply Hval; reflexivity.
  - apply (Hsplit (replicate 10 (Toy.dataset []))). simpl. lia.
Defined.

(** A one-partition list with one row: the training stages of [fit] raise
    in [_find_lr]; no bounded training run takes place. *)
Lemma fit_single_partition_raises_in_find_lr :
  let ds_arr := [Toy.dataset [[F64.of_Z 1]]] in
  split_point ds_arr = Ok 0 /\
  fit_training Toy.clock (Toy.mixer "integer") ds_arr 0 = Raise ValueError /\
  fit Toy.clock Toy.clock (Toy.mixer "integer") ds_arr = Raise ValueError /\
  ~ (exists self', fit_training Toy.clock (Toy.mixer "integer") ds_arr 0 = Ok self').
Proof.
  vm_compute. repeat split; try reflexivity. intros [self' H]. discriminate H.
Qed.

Lemma fit_empty_validation_skips_tuning_witness :
  let ds_arr := [Toy.dataset [[F64.of_Z 1]]; Toy.dataset []] in
  exists self',
    fit Toy.clock Toy.clock (Toy.mixer "integer") ds_arr = Ok self' /\
    fit_training Toy.clock (Toy.mixer "integer") ds_arr 1 = Ok self' /\
    target_encoder self' = Toy.encoder.
Proof.
  intros ds_arr.
  destruct (fit_empty_validation_skips_tuning Toy.clock Toy.clock
              (Toy.mixer "integer") ds_arr 1) as (E & _ & H).
  - vm_compute. reflexivity.
  - reflexivity.
  - destruct (H (Toy.dataset [[F64.of_Z 1]]) [Toy.dataset []]
                ([F64.of_Z 1], [F64.zero]) [] "integer" 40) as [self' Hfit];
      try reflexivity; try lia.
    exists self'. split; [exact Hfit|]. split; [by rewrite <- E|].
    assert (fit Toy.clock Toy.clock (Toy.mixer "integer") ds_arr
            = Ok (set_epochs_to_best 0
                    (set_model 2%nat
                       (set_self_lr (F64.mul F64.lit_1e_4 F64.lit_1_4)
                          (set_num_hidden 1 (set_batch_size 40 (Toy.mixer "integer")))))))
      as Hval by (vm_compute; reflexivity).
    rewrite Hfit in Hval. injection Hval as ->. reflexivity.
Defined.

(** The validation side of an empty list of partitions is empty, and so is
    that of a single partition without rows; on both [fit] raises. *)
Lemma fit_empty_validation_raises :
  split_point [] = Ok 0 /\
  length (ConcatedEncodedDs (dev_side 0 [])) = 0%nat /\
  fit Toy.clock Toy.clock (Toy.mixer "integer") [] = Raise IndexError /\
  split_point [Toy.dataset []] = Ok 0 /\
  length (ConcatedEncodedDs (dev_side 0 [Toy.dataset []])) = 0%nat /\
  fit Toy.clock Toy.clock (Toy.mixer "integer") [Toy.dataset []] = Raise IndexError.
Proof. vm_compute. repeat split; reflexivity. Qed.

(** ** Inference: the dependency data *)

Section CallFacts.

Context {Model Optim Scaler : Type} `{!Torch Model Optim Scaler}.
Implicit Types self : @Neural Model.

(** The loop over the dependencies overwrites the dependency data at each
    step: after it, only the last dependency is there. *)
Lemma dependency_loop_last ds idx row deps : forall dep kwargs c,
  data_frame ds !! idx = Some row ->
  (forall d, d ∈ deps -> is_Some (row !! d)) ->
  row !! dep = Some c ->
  dependency_loop ds idx (deps ++ [dep]) kwargs
  = Ok {| dependency_data := Some {[ dep := [c] ]};
          return_raw := return_raw kwargs |}.
Proof.
  induction deps as [|d deps IH]; intros dep kwargs c Hrow Hall Hc; simpl.
  - unfold py_index. rewrite Hrow, bind_Ok, Hc, bind_Ok. done.
  - unfold py_index. rewrite Hrow, bind_Ok.
    destruct (Hall d) as [cd ->]; [by left|]. rewrite bind_Ok.
    rewrite (IH dep _ c); try done.
    intros d' Hd'. apply Hall. by right.
Qed.

(** C9.  With the declared dependency columns [deps ++ [dep]], all present
    in the row of the sample, [decode] is handed dependency data with the
    last column [dep] only: no other declared column has a value in it. *)
Theorem call_passes_only_last_dependency self ds predict_proba idx row deps dep c :
  dependencies (target_encoder self) = deps ++ [dep] ->
  data_frame ds !! idx = Some row ->
  (forall d, d ∈ deps -> is_Some (row !! d)) ->
  row !! dep = Some c ->
  exists kwargs dd,
    decode_kwargs self ds predict_proba idx = Ok kwargs /\
    dependency_data kwargs = Some dd /\
    dd !! dep = Some [c] /\
    (forall d, d ∈ deps -> d <> dep -> dd !! d = None).
Proof.
  intros Hdeps Hrow Hall Hc. unfold decode_kwargs.
  rewrite Hdeps, (dependency_loop_last ds idx row deps dep no_kwargs c Hrow Hall Hc).
  rewrite bind_Ok.
  exists (if predict_proba && supports_proba self
          then {| dependency_data := Some {[ dep := [c] ]}; return_raw := Some true |}
          else {| dependency_data := Some {[ dep := [c] ]}; return_raw := None |}).
  exists {[ dep := [c] ]}. split; [by destruct (_ && _)|]. split; [by destruct (_ && _)|].
  split.
  - apply lookup_singleton_eq.
  - intros d _ Hne. by apply lookup_singleton_ne.
Qed.

End CallFacts.

Lemma call_passes_only_last_dependency_witness :
  let self := Toy.mixer "integer" in
  let ds := Toy.dataset [[F64.of_Z 1]] in
  dependencies (target_encoder self) = ["a"; "b"] /\
  exists kwargs dd,
    decode_kwargs self ds false 0 = Ok kwargs /\
    dependency_data kwargs = Some dd /\
    dd !! "b" = Some [CNum (F64.of_Z 2)] /\
    dd !! "a" = None.
Proof.
  intros self ds. split; [reflexivity|].
  destruct (call_passes_only_last_dependency self ds false 0%nat
              {[ "a" := CNum (F64.of_Z 1); "b" := CNum (F64.of_Z 2) ]}
              ["a"] "b" (CNum (F64.of_Z 2)))
    as (kwargs & dd & Hk & Hdd & Hb & Ha).
  - reflexivity.
  - reflexivity.
  - intros d Hd. apply list_elem_of_singleton in Hd as ->. by eexists.
  - reflexivity.
  - exists kwargs, dd. split; [exact Hk|]. split; [exact Hdd|]. split; [exact Hb|].
    apply Ha; [by left|discriminate].
Defined.

(** * Further properties of the mixer *)

(** ** The bounded trainer: how long a run is and what it returns *)

Section MaxFitRuns.

Context {Model Optim Scaler : Type} `{!Torch Model Optim Scaler}.
Implicit Types st : @Run Model Optim Scaler.
Implicit Types brk : option Break.

Lemma run_bounds_init (m : Model) (o : Optim) (s : Scaler) :
  run_bounds 0 (run_init m o s).
Proof. unfold run_bounds. simpl. repeat split; try done; lia. Qed.

Lemma max_fit_epoch_bounds clock train_dl dev_dl criterion stop_after n st st' brk :
  0 <= n ->
  run_bounds n st ->
  max_fit_epoch clock train_dl dev_dl criterion stop_after (n + 1) st = (st', brk) ->
  run_bounds (n + 1) st' /\
  (brk = Some Plateau -> 5 <= n + 1) /\
  (brk = Some OutOfTime \/ brk = Some Converged -> n + 1 < 5).
Proof.
  intros Hn (Hlen & Hnan & Hle & He2b) Hep. unfold max_fit_epoch in Hep.
  destruct (epoch_pass _ _ _ _ _) as [[[[m o] s] te] ee].
  pose proof (epoch_rules_break clock stop_after (n + 1) m o s te ee st) as Hb.
  pose proof (epoch_rules_state clock stop_after (n + 1) m o s te ee st)
    as (Herrs & _ & Hbest).
  rewrite Hep in Hb, Herrs, Hbest. simpl in Hb, Herrs, Hbest.
  assert (Z.of_nat (length (running_errors st ++ [ee])) = n + 1) as Hlen'.
  { rewrite length_app. simpl. lia. }
  rewrite Hlen' in Hb. split; [|split].
  - unfold run_bounds. rewrite Herrs, Hlen'.
    destruct (diverged te ee) eqn:Hdiv; simpl in Hbest.
    + destruct Hbest as (-> & _ & ->). repeat split; try done; lia.
    + destruct (diverged_false _ _ Hdiv) as [Hee _].
      destruct (F64.gtb (best_dev_error st) ee) eqn:Hgt.
      * destruct Hbest as (-> & _ & ->). repeat split; try done; try lia.
        by apply (gtb_leb_trans (best_dev_error st)).
      * destruct Hbest as (-> & _ & ->). repeat split; try done; lia.
  - intros ->. destruct (diverged te ee); [done|].
    destruct (5 <=? n + 1) eqn:E; [lia|].
    destruct (F64.gt_Z _ _); [done|]. by destruct (_ || _).
  - intros Hbrk. destruct (diverged te ee); [destruct Hbrk; congruence|].
    destruct (5 <=? n + 1) eqn:E; [|lia].
    destruct (F64.leb (delta_mean _) _); destruct Hbrk; congruence.
Qed.

(** A run of [cnt] further epochs from a state with [n] epochs behind it. *)
Lemma max_fit_epochs_bounds clock train_dl dev_dl criterion stop_after cnt :
  forall n st st' brk,
    0 <= n ->
    run_bounds n st ->
    max_fit_epochs clock train_dl dev_dl criterion stop_after
      (range_from (n + 1) cnt) st = (st', brk) ->
    exists k,
      run_bounds k st' /\ n <= k <= n + Z.of_nat cnt /\
      (brk = None -> k = n + Z.of_nat cnt) /\
      (brk <> None -> n < k) /\
      (brk = Some Plateau -> 5 <= k) /\
      (brk = Some OutOfTime \/ brk = Some Converged -> k < 5).
Proof.
  induction cnt as [|cnt IH]; intros n st st' brk Hn Hb Hrun; simpl in Hrun.
  - inversion Hrun; subst. exists n.
    split_and!; try done; try lia. intros [?|?]; done.
  - destruct (max_fit_epoch _ _ _ _ _ _ _) as [st1 b1] eqn:Hep.
    destruct (max_fit_epoch_bounds _ _ _ _ _ _ _ _ _ Hn Hb Hep) as (Hb1 & Hpl & Hto).
    destruct b1 as [b|].
    + inversion Hrun; subst. exists (n + 1).
      split_and!; try done; try lia; auto.
    + destruct (IH (n + 1) st1 st' brk ltac:(lia) Hb1 Hrun)
        as (k & Hk & Hrange & Hnone & Hsome & Hpl' & Hto').
      exists k.
      split_and!; [done|lia|lia| |intros E; specialize (Hsome E); lia|done|done].
      intros E. specialize (Hnone E). lia.
Qed.

Lemma max_fit_loop_bounds clock m train_dl dev_dl criterion optimizer scaler
    stop_after return_model_after st brk :
  max_fit_loop clock m train_dl dev_dl criterion optimizer scaler
    stop_after return_model_after = (st, brk) ->
  exists k,
    run_bounds k st /\ 0 <= k <= Z.max 0 return_model_after /\
    (brk = None -> k = Z.max 0 return_model_after) /\
    (brk <> None -> 0 < k) /\
    (brk = Some Plateau -> 5 <= k) /\
    (brk = Some OutOfTime \/ brk = Some Converged -> k < 5).
Proof.
  unfold max_fit_loop, py_range. intros Hrun.
  destruct (max_fit_epochs_bounds _ _ _ _ _ _ 0 _ _ _ ltac:(lia)
              (run_bounds_init m optimizer scaler) Hrun)
    as (k & Hk & Hrange & Hnone & Hsome & Hpl & Hto).
  exists k.
  split_and!; [done|lia|lia| |intros E; specialize (Hsome E); lia|done|done].
  intros E. specialize (Hnone E). lia.
Qed.

(** X1.  [_max_fit] returns an epochs-to-best between 0 and the number of
    epochs it ran, which is at most [return_model_after]; the best error it
    returns is a number, never NaN, and at most 2^32 (the final replacement
    of a NaN best error never applies). *)
Theorem max_fit_returns_bounded_values
    clock m train_dl dev_dl criterion optimizer scaler stop_after
    return_model_after :
  let st := (max_fit_loop clock m train_dl dev_dl criterion optimizer scaler
               stop_after return_model_after).1 in
  let r := _max_fit clock m train_dl dev_dl criterion optimizer scaler
             stop_after return_model_after in
  0 <= r.1.2 <= Z.of_nat (length (running_errors st)) /\
  Z.of_nat (length (running_errors st)) <= Z.max 0 return_model_after /\
  r.2 = best_dev_error st /\
  F64.isnan r.2 = false /\
  F64.leb r.2 F64.pow_2_32 = true.
Proof.
  unfold _max_fit.
  destruct (max_fit_loop _ _ _ _ _ _ _ _ _) as [st brk] eqn:Hrun.
  destruct (max_fit_loop_bounds _ _ _ _ _ _ _ _ _ _ _ Hrun)
    as (k & (Hlen & Hnan & Hle & He2b) & Hrange & _).
  cbn [fst]. rewrite max_fit_result_not_nan by done. cbn [fst snd].
  split_and!; try done; lia.
Qed.

(** X2.  Which rule can end a run when: the plateau rule only from the
    fifth epoch on; the time budget and the convergence floor only within
    the first four epochs.  A run that no rule ends trains exactly
    [return_model_after] epochs, and a run that a rule ends has trained at
    least one. *)
Theorem max_fit_stopping_rules_by_epoch
    clock m train_dl dev_dl criterion optimizer scaler stop_after
    return_model_after st brk :
  max_fit_loop clock m train_dl dev_dl criterion optimizer scaler
    stop_after return_model_after = (st, brk) ->
  let epochs := Z.of_nat (length (running_errors st)) in
  (brk = Some Plateau -> 5 <= epochs) /\
  (brk = Some OutOfTime \/ brk = Some Converged -> 1 <= epochs <= 4) /\
  (brk = Some Diverged -> 1 <= epochs) /\
  (brk = None -> epochs = Z.max 0 return_model_after) /\
  epochs <= Z.max 0 return_model_after.
Proof.
  intros Hrun.
  destruct (max_fit_loop_bounds _ _ _ _ _ _ _ _ _ _ _ Hrun)
    as (k & (Hlen & _) & Hrange & Hnone & Hsome & Hpl & Hto).
  cbv zeta. rewrite Hlen. split_and!.
  - exact Hpl.
  - intros Hb. specialize (Hto Hb).
    assert (brk <> None) as Hne by (destruct Hb as [->| ->]; done).
    specialize (Hsome Hne). lia.
  - intros ->. specialize (Hsome ltac:(done)). lia.
  - exact Hnone.
  - lia.
Qed.

End MaxFitRuns.

Lemma max_fit_stopping_rules_by_epoch_witness :
  let train_dl := Toy.one_batch (replicate 8 (Toy.dy 1 0)) in
  let dev_dl := Toy.one_batch ((fun k => Toy.dy 1 k) <$> seq 0 8) in
  exists st,
    max_fit_loop Toy.clock 0%nat train_dl dev_dl MSELoss F64.lit_1e_4 tt 2 6
    = (st, Some OutOfTime) /\
    1 <= Z.of_nat (length (running_errors st)) <= 4.
Proof.
  intros train_dl dev_dl. eexists. split.
  - vm_compute. reflexivity.
  - eapply (max_fit_stopping_rules_by_epoch Toy.clock 0%nat train_dl dev_dl
              MSELoss F64.lit_1e_4 tt 2 6).
    + vm_compute. reflexivity.
    + by left.
Defined.

(** ** The learning-rate sweep: what it returns *)

Section SweepReturns.

Context {Model Optim Scaler : Type} `{!Torch Model Optim Scaler}.
Implicit Types self : @Neural Model.
Implicit Types st : @Sweep Model Optim Scaler.

Lemma sweep_batch_shape criterion epoch i b st :
  sweep_shape st -> sweep_shape (sweep_batch criterion epoch i b st).
Proof.
  intros (Hnil & Hcons & Hstop). unfold sweep_batch.
  destruct (train_batch _ _ _ _ _) as [[[m o] s] loss].
  destruct (negb _); [|done].
  destruct (_ <? 2) eqn:Hlen; simpl.
  - split_and!; simpl; [by destruct (running_losses st)|by eexists|].
    intros Hs. specialize (Hstop Hs). rewrite length_app in *. simpl in *. lia.
  - destruct (F64.gtb _ _); split_and!; simpl.
    + by destruct (running_losses st).
    + by eexists.
    + intros Hs. rewrite length_app. simpl. specialize (Hstop Hs). lia.
    + by destruct (running_losses st).
    + intros _. apply Hcons. by destruct (running_losses st).
    + intros _. apply Z.ltb_ge in Hlen. lia.
Qed.

Lemma sweep_init_shape (m : Model) (o : Optim) : sweep_shape (sweep_init m o).
Proof. unfold sweep_shape. simpl. split_and!; done. Qed.

Lemma sweep_Ok_inv self dl st :
  sweep self dl = Ok st ->
  exists optimizer criterion m,
    st = sweep_epochs criterion dl (py_range 1 101) (sweep_init m optimizer).
Proof.
  unfold sweep. intros H.
  destruct (_select_optimizer self) as [o|]; [|discriminate H].
  rewrite bind_Ok in H.
  destruct (_select_criterion self) as [c|]; [|discriminate H].
  rewrite bind_Ok in H.
  destruct (model self) as [m|]; [|discriminate H].
  unfold attr in H. rewrite bind_Ok in H.
  exists o, c, m. injection H as <-. reflexivity.
Qed.

Lemma find_lr_Ok_inv self dl x m :
  _find_lr self dl = Ok (x, m) ->
  exists st idx,
    sweep self dl = Ok st /\ np_argmin (running_losses st) = Ok idx /\
    lr_log st !! idx = Some x /\ m = deref (sw_model st) (sw_best_model st).
Proof.
  unfold _find_lr. intros H.
  destruct (sweep self dl) as [st|]; [|discriminate H]. rewrite bind_Ok in H.
  destruct (np_argmin _) as [idx|] eqn:Hidx; [|discriminate H].
  rewrite bind_Ok in H. unfold py_index in H.
  destruct (lr_log st !! idx) as [y|] eqn:Hy; [|discriminate H].
  rewrite bind_Ok in H. injection H as <- <-.
  exists st, idx. split_and!; reflexivity || assumption.
Qed.

(** X3.  Whenever [_find_lr] returns, the network it returns is a snapshot
    taken at one of its checkpoints, never the live network object; the
    learning rate it returns is one of the logged rates; and if the sweep
    was halted, it was halted at its second checkpoint or later, never at
    the first. *)
Theorem find_lr_returns_a_snapshot self dl x m :
  _find_lr self dl = Ok (x, m) ->
  exists st,
    sweep self dl = Ok st /\
    sw_best_model st = Snapshot m /\
    x ∈ lr_log st /\
    length (lr_log st) = length (running_losses st) /\
    (1 <= length (running_losses st))%nat /\
    (stop st = true -> (2 <= length (running_losses st))%nat).
Proof.
  intros Hret.
  destruct (find_lr_Ok_inv _ _ _ _ Hret) as (st & idx & Hsw & Hidx & Hx & Hm).
  destruct (sweep_Ok_inv _ _ _ Hsw) as (o & c & m0 & Hst).
  assert (sweep_shape st /\ logs_agree st) as [(Hnil & Hcons & Hstop) Hag].
  { rewrite Hst. split.
    - apply (sweep_epochs_inv sweep_shape); [|apply sweep_init_shape].
      intros. by apply sweep_batch_shape.
    - apply (sweep_epochs_inv logs_agree); [|reflexivity].
      intros. by apply sweep_batch_agree. }
  clear Hst.
  assert (running_losses st <> []) as Hne.
  { intros E. by rewrite E in Hidx. }
  destruct (Hcons Hne) as [m1 Hm1].
  exists st. split_and!; try done.
  - rewrite Hm, Hm1. done.
  - by eapply list_elem_of_lookup_2.
  - destruct (running_losses st); [done|simpl; lia].
Qed.

End SweepReturns.

Lemma find_lr_returns_a_snapshot_witness :
  exists st,
    sweep (Toy.mixer "integer") (Toy.one_batch (replicate 8 (Toy.dy 1 0))) = Ok st /\
    sw_best_model st = Snapshot 1%nat /\ stop st = true /\
    length (running_losses st) = 2%nat.
Proof.
  destruct (find_lr_returns_a_snapshot (Toy.mixer "integer")
              (Toy.one_batch (replicate 8 (Toy.dy 1 0))) F64.lit_1e_4 1%nat)
    as (st & Hsw & Hbest & _).
  - vm_compute. reflexivity.
  - exists st. split; [exact Hsw|]. split; [exact Hbest|].
    assert (sweep (Toy.mixer "integer") (Toy.one_batch (replicate 8 (Toy.dy 1 0)))
            = Ok {| sw_model := 2%nat;
                    sw_optimizer := F64.mul F64.lit_1e_4 F64.lit_1_4;
                    sw_scaler := tt;
                    running_losses := [Toy.dy 1 0; Toy.dy 1 0];
                    cum_loss := F64.zero;
                    lr_log := [F64.lit_1e_4; F64.mul F64.lit_1e_4 F64.lit_1_4];
                    sw_best_model := Snapshot 1%nat; stop := true; batches := 0 |})
      as Hval by (vm_compute; reflexivity).
    rewrite Hsw in Hval. injection Hval as ->. split; reflexivity.
Defined.

(** *** The learning rate of the smallest loss *)

Section ArgminFacts.

Local Ltac compare_cases :=
  repeat match goal with
    | |- context [ (?a ?= ?b)%Z ] =>
        destruct (Z.compare_spec a b); simpl; subst
    | |- context [ Pos.compare_cont Eq ?a ?b ] =>
        change (Pos.compare_cont Eq a b) with (Pos.compare a b);
        destruct (Pos.compare_spec a b); simpl; subst
    | H : context [ (?a ?= ?b)%Z ] |- _ =>
        destruct (Z.compare_spec a b); simpl in H; subst
    | H : context [ Pos.compare_cont Eq ?a ?b ] |- _ =>
        change (Pos.compare_cont Eq a b) with (Pos.compare a b) in H;
        destruct (Pos.compare_spec a b); simpl in H; subst
    end;
  try done; try lia.

Lemma leb_false_ltb x y :
  F64.isnan x = false -> F64.isnan y = false ->
  F64.leb x y = false -> F64.ltb y x = true.
Proof.
  unfold F64.ltb, F64.leb, SFltb, SFleb.
  destruct x as [sx|sx| |sx mx ex], y as [sy|sy| |sy my ey]; simpl; try done;
    try (destruct sx); try (destruct sy); simpl; try done;
    intros _ _ H; compare_cases.
Qed.

Lemma ltb_leb_trans x y z :
  F64.ltb x y = true -> F64.leb y z = true -> F64.ltb x z = true.
Proof.
  unfold F64.ltb, F64.leb, SFltb, SFleb.
  destruct x as [sx|sx| |sx mx ex], y as [sy|sy| |sy my ey],
    z as [sz|sz| |sz mz ez]; simpl; try done;
    try (destruct sx); try (destruct sy); try (destruct sz); simpl;
    try done; intros H1 H2; compare_cases.
Qed.

Lemma ltb_not_nan x y :
  F64.ltb x y = true -> F64.isnan x = false /\ F64.isnan y = false.
Proof.
  unfold F64.ltb, SFltb.
  destruct x as [sx|sx| |sx mx ex], y as [sy|sy| |sy my ey]; simpl; done.
Qed.

(** The scan of [np.argmin] over a list without NaN: it ends on the first
    position of a smallest entry. *)
Lemma argmin_scan_first_min rest : forall pre mp min_ind,
  pre !! min_ind = Some mp ->
  F64.isnan mp = false ->
  Forall (fun e => F64.leb mp e = true) pre ->
  (forall j e, (j < min_ind)%nat -> pre !! j = Some e -> F64.ltb mp e = true) ->
  Forall (fun e => F64.isnan e = false) rest ->
  exists v,
    (pre ++ rest) !! argmin_scan mp min_ind (length pre) rest = Some v /\
    Forall (fun e => F64.leb v e = true) (pre ++ rest) /\
    (forall j e, (j < argmin_scan mp min_ind (length pre) rest)%nat ->
       (pre ++ rest) !! j = Some e -> F64.ltb v e = true).
Proof.
  induction rest as [|x rest IH]; intros pre mp min_ind Hmp Hnan Hle Hfirst Hrest.
  - simpl. rewrite app_nil_r. eauto.
  - simpl. rewrite Hnan. apply Forall_cons in Hrest as [Hx Hrest].
    replace (pre ++ x :: rest) with ((pre ++ [x]) ++ rest) by by rewrite <- app_assoc.
    replace (S (length pre)) with (length (pre ++ [x]))
      by (rewrite length_app; simpl; lia).
    destruct (F64.leb mp x) eqn:Hcmp; simpl.
    + apply IH; try done.
      * apply lookup_app_l_Some. done.
      * apply Forall_app. split; [done|]. by repeat constructor.
      * intros j e Hj Hje. apply (Hfirst j e Hj).
        rewrite lookup_app_l in Hje; [done|].
        apply lookup_lt_Some in Hmp. lia.
    + pose proof (leb_false_ltb _ _ Hnan Hx Hcmp) as Hlt.
      apply IH; try done.
      * by rewrite list_lookup_middle.
      * apply Forall_app. split.
        -- eapply Forall_impl; [exact Hle|]. intros e He.
           by apply (gtb_leb_trans mp).
        -- repeat constructor. by apply leb_refl.
      * intros j e Hj Hje. rewrite lookup_app_l in Hje by done.
        eapply ltb_leb_trans; [exact Hlt|].
        eapply Forall_forall in Hle; [exact Hle|]. by eapply list_elem_of_lookup_2.
Qed.

Lemma np_argmin_first_min l idx :
  Forall (fun e => F64.isnan e = false) l ->
  np_argmin l = Ok idx ->
  exists v,
    l !! idx = Some v /\
    Forall (fun e => F64.leb v e = true) l /\
    (forall j e, (j < idx)%nat -> l !! j = Some e -> F64.ltb v e = true).
Proof.
  destruct l as [|x rest]; [done|]. intros Hall [= <-].
  apply Forall_cons in Hall as [Hx Hrest].
  apply (argmin_scan_first_min rest [x] x 0%nat); try done.
  - repeat constructor. by apply leb_refl.
  - intros j e Hj. lia.
Qed.

End ArgminFacts.

Section SmallestLoss.

Context {Model Optim Scaler : Type} `{!Torch Model Optim Scaler}.
Implicit Types self : @Neural Model.

(** X4.  When no recorded loss is NaN, the learning rate [_find_lr]
    returns is the rate logged at the first checkpoint whose cumulative loss
    is the smallest: that loss is at most every recorded loss and strictly
    below every earlier one. *)
Theorem find_lr_returns_rate_of_smallest_loss self dl st x m :
  sweep self dl = Ok st ->
  Forall (fun e => F64.isnan e = false) (running_losses st) ->
  _find_lr self dl = Ok (x, m) ->
  exists i loss,
    running_losses st !! i = Some loss /\
    lr_log st !! i = Some x /\
    Forall (fun e => F64.leb loss e = true) (running_losses st) /\
    (forall j e, (j < i)%nat -> running_losses st !! j = Some e ->
       F64.ltb loss e = true).
Proof.
  intros Hsw Hall Hret.
  destruct (find_lr_Ok_inv _ _ _ _ Hret) as (st' & idx & Hsw' & Hidx & Hx & _).
  rewrite Hsw in Hsw'. injection Hsw' as <-.
  destruct (np_argmin_first_min _ _ Hall Hidx) as (v & Hv & Hmin & Hfirst).
  exists idx, v. done.
Qed.

End SmallestLoss.

Lemma find_lr_returns_rate_of_smallest_loss_witness :
  let dl := Toy.one_batch [Toy.dy 3 0; Toy.dy 1 0; Toy.dy 2 0] in
  exists st i,
    sweep (Toy.mixer "integer") dl = Ok st /\
    running_losses st = [Toy.dy 3 0; Toy.dy 1 0; Toy.dy 2 0] /\
    running_losses st !! i = Some (Toy.dy 1 0) /\
    lr_log st !! i = Some (F64.mul F64.lit_1e_4 F64.lit_1_4).
Proof.
  intros dl.
  assert (exists st, sweep (Toy.mixer "integer") dl = Ok st /\
            running_losses st = [Toy.dy 3 0; Toy.dy 1 0; Toy.dy 2 0] /\
            lr_log st = [F64.lit_1e_4; F64.mul F64.lit_1e_4 F64.lit_1_4;
                         F64.mul (F64.mul F64.lit_1e_4 F64.lit_1_4) F64.lit_1_4])
    as (st & Hsw & Hrl & Hlog).
  { eexists. split; [vm_compute; reflexivity|].
    split; vm_compute; reflexivity. }
  destruct (find_lr_returns_rate_of_smallest_loss (Toy.mixer "integer") dl st
              (F64.mul F64.lit_1e_4 F64.lit_1_4) 2%nat Hsw)
    as (i & loss & Hl & Hx & Hmin & _).
  - rewrite Hrl. vm_compute. repeat constructor.
  - vm_compute. reflexivity.
  - exists st, i. split; [exact Hsw|]. split; [exact Hrl|]. split; [|exact Hx].
    clear Hsw Hmin Hl. rewrite Hlog in Hx. rewrite Hrl. clear Hlog Hrl.
    destruct i as [|[|[|i]]].
    + vm_compute in Hx. discriminate Hx.
    + reflexivity.
    + vm_compute in Hx. discriminate Hx.
    + discriminate Hx.
Defined.

(** ** Construction and use before [fit] *)

Section InitFacts.

Context {Model Optim Scaler : Type} `{!Torch Model Optim Scaler}.
Implicit Types self : @Neural Model.

Lemma init_Ok_inv sa tg dd input_cols ts enc net fod sh self :
  __init__ sa tg dd input_cols ts enc net fod sh = Ok self ->
  exists t,
    dd !! tg = Some t /\
    self = {| stop_after := sa; dtype_dict := dd; target := tg;
              timeseries_settings := ts;
              target_encoder := enc; epochs_to_best := 0; fit_on_dev := fod;
              net_class := if bool_decide (net = "DefaultNet") then DefaultNet else ArNet;
              supports_proba := bool_decide (t ∈ [dtype.binary; dtype.categorical]);
              search_hyperparameters := sh; stable := true;
              model := None; batch_size := None; lr := None; num_hidden := None |}.
Proof.
  unfold __init__. destruct (dd !! tg) as [t|]; [|discriminate].
  intros [= <-]. by exists t.
Qed.

(** X5.  A mixer built by [__init__] supports probabilities exactly when
    the loss it trains with is the weighted cross-entropy: for the binary
    and categorical targets and for no other. *)
Theorem init_supports_proba_iff_cross_entropy
    sa tg dd input_cols ts enc net fod sh self m :
  __init__ sa tg dd input_cols ts enc net fod sh = Ok self ->
  supports_proba self = true <->
  exists weight,
    _select_criterion (set_model m self) = Ok (TransformCrossEntropyLoss weight).
Proof.
  intros Hinit. destruct (init_Ok_inv _ _ _ _ _ _ _ _ _ _ Hinit) as (t & Ht & ->).
  unfold _select_criterion, target_dtype.
  cbn [dtype_dict target set_model supports_proba model target_encoder
       timeseries_settings].
  rewrite Ht, bind_Ok. unfold in_tuple.
  destruct (bool_decide (t ∈ [dtype.binary; dtype.categorical])) eqn:Hb.
  - apply bool_decide_eq_true in Hb.
    assert (bool_decide (t ∈ [dtype.categorical; dtype.binary]) = true) as ->.
    { apply bool_decide_eq_true. set_unfold. tauto. }
    split; [|done]. intros _. by eexists.
  - apply bool_decide_eq_false in Hb.
    assert (bool_decide (t ∈ [dtype.categorical; dtype.binary]) = false) as ->.
    { apply bool_decide_eq_false. set_unfold. tauto. }
    split; [done|]. intros [w Hw]. revert Hw. clear.
    destruct (in_str t dtype.tags); [intros Hw; discriminate Hw|].
    destruct (_ && is_timeseries ts); [intros Hw; discriminate Hw|].
    destruct (bool_decide (t ∈ [dtype.integer; dtype.float]));
      intros Hw; discriminate Hw.
Qed.

Lemma partial_fit_Ok_inv clock self train_data dev_data self' :
  partial_fit clock self train_data dev_data = Ok self' ->
  exists m bs, batch_size self = Some bs /\ self' = set_model m self.
Proof.
  unfold partial_fit. intros H.
  destruct (batch_size self) as [bs|]; [|discriminate H].
  change (attr (Some bs)) with (Ok bs) in H. rewrite bind_Ok in H.
  destruct (_select_optimizer self) as [o|]; [|discriminate H]. rewrite bind_Ok in H.
  destruct (_select_criterion self) as [c|]; [|discriminate H]. rewrite bind_Ok in H.
  destruct (attr (model self)) as [m|]; [|discriminate H]. rewrite bind_Ok in H.
  destruct (py_int _) as [third|]; [|discriminate H]. rewrite bind_Ok in H.
  destruct (_max_fit _ _ _ _ _ _ _ _ _) as [[m1 e] err].
  injection H as <-. by exists m1, bs.
Qed.

(** X6.  Before [fit] has run, a mixer built by [__init__] cannot be used:
    [partial_fit], [__call__], [_find_lr] and [_select_optimizer] raise
    [AttributeError].  After [fit], [partial_fit] replaces the network and
    nothing else: epochs-to-best, the learning rate, the batch size and the
    target encoder stay as they were. *)
Theorem partial_fit_needs_fit_and_replaces_only_network
    sa tg dd input_cols ts enc net fod sh self :
  __init__ sa tg dd input_cols ts enc net fod sh = Ok self ->
  (forall clock train_data dev_data,
     partial_fit clock self train_data dev_data = Raise AttributeError) /\
  (forall ds predict_proba, __call__ self ds predict_proba = Raise AttributeError) /\
  (forall dl, _find_lr self dl = Raise AttributeError) /\
  _select_optimizer self = Raise AttributeError /\
  (forall clock (trained : @Neural Model) train_data dev_data self',
     partial_fit clock trained train_data dev_data = Ok self' ->
     exists m, self' = set_model m trained).
Proof.
  intros Hinit. destruct (init_Ok_inv _ _ _ _ _ _ _ _ _ _ Hinit) as (t & Ht & ->).
  split_and!.
  - reflexivity.
  - reflexivity.
  - intros dl. unfold _find_lr, sweep, _select_optimizer.
    cbn [timeseries_settings model]. by destruct (is_timeseries ts).
  - unfold _select_optimizer. cbn [timeseries_settings model].
    by destruct (is_timeseries ts).
  - intros clock trained train_data dev_data self' Hpf.
    destruct (partial_fit_Ok_inv _ _ _ _ _ Hpf) as (m & bs & _ & ->). by exists m.
Qed.

(** X7.  For an integer or float target, what [_final_tuning] returns does
    not depend on the value [decode_log] had before the call: each score is
    taken with the flag set anew. *)
Theorem final_tuning_ignores_previous_flag self data_arr t b :
  dtype_dict self !! target self = Some t ->
  t ∈ [dtype.integer; dtype.float] ->
  _final_tuning (set_target_encoder (set_decode_log b (target_encoder self)) self)
    data_arr
  = _final_tuning self data_arr.
Proof.
  intros Ht Hin. unfold _final_tuning, target_dtype.
  cbn [dtype_dict target set_target_encoder model target_encoder].
  rewrite Ht, !bind_Ok. apply in_tuple_true in Hin. rewrite Hin.
  destruct (model self) as [m|]; [|done]. unfold attr. rewrite !bind_Ok.
  unfold tuning_score. by destruct self as [? ? ? ? [? ? ?] ? ? ? ? ? ? ? ? ? ?].
Qed.

End InitFacts.

Lemma init_supports_proba_iff_cross_entropy_witness :
  exists self,
    __init__ 60 "y" {[ "y" := "binary" ]} [] {| is_timeseries := false; nr_predictions := 1 |}
      Toy.encoder "DefaultNet" false false = Ok self /\
    supports_proba self = true /\
    _select_criterion (set_model 0%nat self) = Ok (TransformCrossEntropyLoss []).
Proof.
  eexists. split; [reflexivity|]. split; [reflexivity|].
  pose proof (init_supports_proba_iff_cross_entropy 60 "y" {[ "y" := "binary" ]} []
                {| is_timeseries := false; nr_predictions := 1 |}
                Toy.encoder "DefaultNet" false false _ 0%nat eq_refl) as [H _].
  destruct (H eq_refl) as [w Hw]. rewrite Hw. f_equal.
  vm_compute in Hw. injection Hw as <-. reflexivity.
Defined.

Lemma partial_fit_needs_fit_and_replaces_only_network_witness :
  exists self,
    __init__ 60 "y" {[ "y" := "integer" ]} [] {| is_timeseries := false; nr_predictions := 1 |}
      Toy.encoder "DefaultNet" false false = Ok self /\
    partial_fit Toy.clock self [Toy.dataset [[F64.of_Z 1]]] [] = Raise AttributeError /\
    __call__ self (Toy.dataset [[F64.of_Z 1]]) false = Raise AttributeError.
Proof.
  eexists. split; [reflexivity|].
  lazymatch goal with
  | |- partial_fit _ ?s _ _ = _ /\ _ =>
      assert (__init__ 60 "y" {[ "y" := "integer" ]} []
                {| is_timeseries := false; nr_predictions := 1 |}
                Toy.encoder "DefaultNet" false false = Ok s) as Hinit
        by reflexivity
  end.
  destruct (partial_fit_needs_fit_and_replaces_only_network _ _ _ _ _ _ _ _ _ _ Hinit)
    as (Hpf & Hcall & _).
  split; [apply Hpf|apply Hcall].
Defined.

Lemma final_tuning_ignores_previous_flag_witness :
  _final_tuning
    (set_target_encoder (set_decode_log true (target_encoder (Toy.mixer "integer")))
       (Toy.mixer "integer"))
    [Toy.dataset [[F64.of_Z 1]]]
  = _final_tuning (Toy.mixer "integer") [Toy.dataset [[F64.of_Z 1]]].
Proof.
  apply (final_tuning_ignores_previous_flag (Toy.mixer "integer") _ "integer" true).
  - reflexivity.
  - by left.
Defined.

(** ** Inference: errors and the prediction column *)

Section CallErrors.

Context {Model Optim Scaler : Type} `{!Torch Model Optim Scaler}.
Implicit Types self : @Neural Model.

(** With the row at hand, the dependency loop either succeeds or raises
    [KeyError]; it raises [KeyError] as soon as a declared column is not in
    the row. *)
Lemma dependency_loop_with_row ds idx row deps : forall kwargs,
  data_frame ds !! idx = Some row ->
  (exists d, d ∈ deps /\ row !! d = None) /\
    dependency_loop ds idx deps kwargs = Raise KeyError
  \/ (forall d, d ∈ deps -> is_Some (row !! d)) /\
    exists kwargs', dependency_loop ds idx deps kwargs = Ok kwargs' /\
      return_raw kwargs' = return_raw kwargs.
Proof.
  induction deps as [|d deps IH]; intros kwargs Hrow; simpl.
  - right. split; [intros d Hd; by apply elem_of_nil in Hd|]. by eexists.
  - unfold py_index. rewrite Hrow, bind_Ok.
    destruct (row !! d) as [c|] eqn:Hd.
    + rewrite bind_Ok.
      destruct (IH {| dependency_data := Some {[ d := [c] ]};
                      return_raw := return_raw kwargs |} Hrow)
        as [[(d' & Hin & Hnone) ->]|[Hall (kw' & -> & Hrr)]].
      * left. split; [|done]. exists d'. split; [by right|done].
      * right. split; [|by eexists].
        intros d' Hd'. apply elem_of_cons in Hd' as [->|Hd']; [by eexists|by apply Hall].
    + left. split; [|done]. exists d. split; [by left|done].
Qed.

Lemma dependency_loop_without_row ds idx d deps kwargs :
  data_frame ds !! idx = None ->
  dependency_loop ds idx (d :: deps) kwargs = Raise IndexError.
Proof. intros Hrow. simpl. unfold py_index. by rewrite Hrow. Qed.

Lemma decode_kwargs_with_row self ds predict_proba idx row :
  data_frame ds !! idx = Some row ->
  (exists d, d ∈ dependencies (target_encoder self) /\ row !! d = None) /\
    decode_kwargs self ds predict_proba idx = Raise KeyError
  \/ (forall d, d ∈ dependencies (target_encoder self) -> is_Some (row !! d)) /\
    exists kwargs, decode_kwargs self ds predict_proba idx = Ok kwargs.
Proof.
  intros Hrow. unfold decode_kwargs.
  destruct (dependency_loop_with_row ds idx row
              (dependencies (target_encoder self)) no_kwargs Hrow)
    as [[Hex ->]|[Hall (kw' & -> & _)]].
  - left. done.
  - right. split; [done|]. rewrite bind_Ok.
    destruct (predict_proba && supports_proba self); by eexists.
Qed.

(** The sample loop over rows that all have a dataframe row: a declared
    column missing from the row of some sample makes it raise [KeyError]. *)
Lemma call_loop_missing_column self m ds predict_proba rows :
  forall idx acc all_probs rev_map,
    (forall j, (j < length rows)%nat -> is_Some (data_frame ds !! (idx + j)%nat)) ->
    (exists j row d, (j < length rows)%nat /\
       data_frame ds !! (idx + j)%nat = Some row /\
       d ∈ dependencies (target_encoder self) /\ row !! d = None) ->
    call_loop self m ds predict_proba idx rows acc all_probs rev_map
    = Raise KeyError.
Proof.
  induction rows as [|[X Y] rows IH];
    intros idx acc all_probs rev_map Hrows (j & row & d & Hj & Hrow & Hd & Hnone).
  - simpl in Hj. lia.
  - cbn [call_loop].
    destruct (Hrows 0%nat ltac:(simpl; lia)) as [row0 Hrow0].
    rewrite Nat.add_0_r in Hrow0.
    destruct (decode_kwargs_with_row self ds predict_proba idx row0 Hrow0)
      as [[_ ->]|[Hall (kw & ->)]]; [done|].
    rewrite bind_Ok.
    assert (j <> 0%nat) as Hj0.
    { intros ->. rewrite Nat.add_0_r in Hrow. rewrite Hrow0 in Hrow.
      injection Hrow as ->. destruct (Hall d Hd) as [c Hc]. congruence. }
    destruct (predict_proba && supports_proba self); apply IH.
    all: try (intros j' Hj'; replace (S idx + j')%nat with (idx + S j')%nat by lia;
              apply Hrows; simpl; lia).
    all: exists (j - 1)%nat, row, d; split_and!; try done; [simpl in Hj; lia|];
         replace (S idx + (j - 1))%nat with (idx + j)%nat by lia; done.
Qed.

(** X8.  A declared dependency is not optional at inference.  With
    dependencies declared, [__call__] raises [IndexError] when the dataframe
    has no row for the first sample, and, when the dataframe has a row for
    every sample, raises [KeyError] if the row of any sample lacks one of
    the declared columns; no prediction is returned in either case. *)
Theorem call_raises_on_missing_dependency_data self m ds predict_proba :
  model self = Some m ->
  (forall d deps X Y rows,
     dependencies (target_encoder self) = d :: deps ->
     samples ds = (X, Y) :: rows -> data_frame ds = [] ->
     __call__ self ds predict_proba = Raise IndexError) /\
  ((length (samples ds) <= length (data_frame ds))%nat ->
   (exists j row d, (j < length (samples ds))%nat /\
      data_frame ds !! j = Some row /\
      d ∈ dependencies (target_encoder self) /\ row !! d = None) ->
   __call__ self ds predict_proba = Raise KeyError).
Proof.
  intros Hm. unfold __call__. rewrite Hm. unfold attr. rewrite bind_Ok. split.
  - intros d deps X Y rows Hdeps Hs Hdf. rewrite Hs. cbn [call_loop].
    unfold decode_kwargs. rewrite Hdeps, dependency_loop_without_row; [done|].
    by rewrite Hdf.
  - intros Hlen (j & row & d & Hj & Hrow & Hd & Hnone).
    rewrite call_loop_missing_column; [done| |].
    + intros j' Hj'. apply lookup_lt_is_Some_2. simpl. lia.
    + exists j, row, d. done.
Qed.

(** The sample loop when it returns: what it adds to the column, and that
    it leaves [rev_map] alone when there is no sample. *)
Lemma call_loop_column self m ds predict_proba rows :
  forall idx acc all_probs rev_map col all_probs' rev_map',
  call_loop self m ds predict_proba idx rows acc all_probs rev_map
  = Ok (col, all_probs', rev_map') ->
  (rows = [] -> rev_map' = rev_map) /\
  exists new,
    col = acc ++ new /\
    if negb (is_timeseries (timeseries_settings self))
       || (nr_predictions (timeseries_settings self) =? 1)
    then Forall (fun e => exists c, e = Scalar c) new
    else length new = length rows /\ Forall (fun e => exists cs, e = Sequence cs) new.
Proof.
  induction rows as [|[X Y] rows IH];
    intros idx acc all_probs rev_map col all_probs' rev_map' Hrun.
  - simpl in Hrun. injection Hrun as <- <- <-. split; [done|].
    exists []. rewrite app_nil_r.
    split; [done|]. destruct (_ || _); [done|]. split; done.
  - split; [done|]. cbn [call_loop] in Hrun.
    destruct (decode_kwargs self ds predict_proba idx) as [kw|]; [|discriminate Hrun].
    rewrite bind_Ok in Hrun.
    destruct (predict_proba && supports_proba self);
      apply IH in Hrun as (_ & new & -> & Hnew);
      destruct (negb (is_timeseries (timeseries_settings self))
                || (nr_predictions (timeseries_settings self) =? 1));
      eexists; rewrite <- app_assoc; (split; [reflexivity|]).
    all: try (apply Forall_app; split; [|done];
              apply Forall_fmap, Forall_true; intros c; by eexists).
    all: destruct Hnew as [Hlen Hall]; split;
      [simpl; by rewrite Hlen|constructor; [by eexists|done]].
Qed.

(** A column assignment leaves a [prediction] column with rows as it is,
    and puts single values in one without. *)
Lemma setitem_prediction ydf name value ydf' :
  setitem ydf name value = Ok ydf' ->
  (prediction ydf <> [] -> prediction ydf' = prediction ydf) /\
  (Forall (fun e => exists c, e = Scalar c) (prediction ydf) ->
   Forall (fun e => exists c, e = Scalar c) (prediction ydf')).
Proof.
  unfold setitem. destruct (nd_shape value) as [|len [|? ?]]; try discriminate.
  destruct (Nat.eqb_spec (length (prediction ydf)) 0) as [E|E]; cbn [andb].
  - destruct (0 <? len)%nat.
    + intros [= <-]. cbn [prediction]. split.
      * intros Hne. by apply nil_length_inv in E.
      * intros _. apply Forall_replicate. by eexists.
    + destruct (len =? _)%nat; [|discriminate]. intros [= <-]. done.
  - destruct (len =? _)%nat; [|discriminate]. intros [= <-]. done.
Qed.

Lemma proba_columns_prediction raw labels : forall idx ydf ydf',
  proba_columns raw idx labels ydf = Ok ydf' ->
  (labels = [] -> ydf' = ydf) /\
  (prediction ydf <> [] -> prediction ydf' = prediction ydf) /\
  (Forall (fun e => exists c, e = Scalar c) (prediction ydf) ->
   Forall (fun e => exists c, e = Scalar c) (prediction ydf')).
Proof.
  induction labels as [|label labels IH]; intros idx ydf ydf' Hrun.
  - simpl in Hrun. injection Hrun as <-. done.
  - cbn [proba_columns] in Hrun. split; [done|].
    destruct (column raw idx) as [value|]; [|discriminate Hrun].
    rewrite bind_Ok in Hrun.
    destruct (setitem ydf _ value) as [ydf1|] eqn:Hset; [|discriminate Hrun].
    rewrite bind_Ok in Hrun.
    destruct (setitem_prediction _ _ _ _ Hset) as [Hkeep Hsc].
    destruct (IH _ _ _ Hrun) as (_ & Hkeep' & Hsc'). split.
    + intros Hne. rewrite Hkeep', (Hkeep Hne); [done|]. by rewrite (Hkeep Hne).
    + intros Hall. by apply Hsc', Hsc.
Qed.

(** X9.  The [prediction] column of the table [__call__] returns: for a
    time-series target with a number of predictions other than 1 it has
    exactly one entry per sample, each the whole decoded sequence; otherwise
    every entry is a single value. *)
Theorem call_prediction_column_shape self ds predict_proba ydf :
  __call__ self ds predict_proba = Ok ydf ->
  let ts := timeseries_settings self in
  (is_timeseries ts = true -> nr_predictions ts <> 1 ->
     length (prediction ydf) = length (samples ds) /\
     Forall (fun e => exists cs, e = Sequence cs) (prediction ydf)) /\
  (is_timeseries ts = false \/ nr_predictions ts = 1 ->
     Forall (fun e => exists c, e = Scalar c) (prediction ydf)).
Proof.
  unfold __call__. intros Hrun.
  destruct (model self) as [m|]; [|discriminate Hrun].
  unfold attr in Hrun. rewrite bind_Ok in Hrun.
  destruct (call_loop _ _ _ _ _ _ _ _ _) as [[[col all_probs] rev_map]|] eqn:Hloop;
    [|discriminate Hrun].
  rewrite bind_Ok in Hrun.
  apply call_loop_column in Hloop as (Hrev & new & Hcol & Hnew).
  cbn [app] in Hcol. subst col.
  assert (exists ydf0,
            prediction ydf0 = new /\
            (ydf = ydf0 \/
             exists raw labels,
               (samples ds = [] -> labels = []) /\
               proba_columns raw 0 labels ydf0 = Ok ydf)) as (ydf0 & Hp0 & Hydf).
  { exists {| prediction := new; probabilities := [] |}. split; [done|].
    destruct (predict_proba && supports_proba self).
    - destruct (np_array all_probs) as [raw|]; [|discriminate Hrun].
      rewrite bind_Ok in Hrun. right. exists (squeeze raw), rev_map. done.
    - left. by injection Hrun as <-. }
  clear Hrun. cbv zeta. split.
  - intros Hts Hnr. rewrite Hts in Hnew.
    apply Z.eqb_neq in Hnr. rewrite Hnr in Hnew. cbn in Hnew.
    destruct Hnew as [Hlen Hall].
    assert (prediction ydf = new) as ->; [|done].
    destruct Hydf as [->|(raw & labels & Hlab & Hcols)]; [done|].
    destruct (proba_columns_prediction _ _ _ _ _ Hcols) as (Hnil & Hkeep & _).
    destruct (samples ds) as [|row rows] eqn:Hs.
    + rewrite (Hnil (Hlab eq_refl)). done.
    + rewrite Hkeep; [done|]. rewrite Hp0. intros E. by rewrite E in Hlen.
  - intros Hcase.
    assert (negb (is_timeseries (timeseries_settings self))
            || (nr_predictions (timeseries_settings self) =? 1) = true) as E.
    { destruct Hcase as [-> | ->]; [done|]. by rewrite orb_true_r. }
    rewrite E in Hnew.
    destruct Hydf as [->|(raw & labels & _ & Hcols)]; [by rewrite Hp0|].
    destruct (proba_columns_prediction _ _ _ _ _ Hcols) as (_ & _ & Hsc).
    apply Hsc. by rewrite Hp0.
Qed.

(** X10.  An encoder without dependencies keeps [__call__] away from the
    dataframe: the keyword arguments carry no dependency data, [return_raw]
    is set exactly when probabilities are asked for and supported, and the
    result is the same over any dataframe.  When no probabilities are asked
    for, or none are supported, the call returns the table of the one
    [prediction] column once the network is there. *)
Theorem call_without_dependencies self ds predict_proba :
  dependencies (target_encoder self) = [] ->
  (forall idx,
     decode_kwargs self ds predict_proba idx
     = Ok {| dependency_data := None;
             return_raw := if predict_proba && supports_proba self
                           then Some true else None |}) /\
  (forall m, model self = Some m ->
     predict_proba && supports_proba self = false ->
     exists col,
       __call__ self ds predict_proba
       = Ok {| prediction := col; probabilities := [] |}) /\
  (forall ds', samples ds' = samples ds ->
     __call__ self ds' predict_proba = __call__ self ds predict_proba).
Proof.
  intros Hdeps.
  assert (forall ds0 idx,
     decode_kwargs self ds0 predict_proba idx
     = Ok {| dependency_data := None;
             return_raw := if predict_proba && supports_proba self
                           then Some true else None |}) as Hkw.
  { intros ds0 idx. unfold decode_kwargs. rewrite Hdeps. simpl.
    by destruct (_ && _). }
  assert (forall m rows ds1 ds2 idx acc all_probs rev_map,
            call_loop self m ds1 predict_proba idx rows acc all_probs rev_map
            = call_loop self m ds2 predict_proba idx rows acc all_probs rev_map /\
            exists r,
              call_loop self m ds1 predict_proba idx rows acc all_probs rev_map
              = Ok r)
    as Hloop.
  { intros m rows ds1 ds2.
    induction rows as [|[X Y] rows IH]; intros idx acc all_probs rev_map.
    - split; [done|]. by eexists.
    - cbn [call_loop]. rewrite !Hkw, !bind_Ok.
      destruct (predict_proba && supports_proba self); apply IH. }
  split; [apply Hkw|]. split.
  - intros m Hm Hpp. unfold __call__. rewrite Hm. unfold attr. rewrite bind_Ok.
    destruct (proj2 (Hloop (set_eval m) (samples ds) ds ds 0%nat [] [] []))
      as [[[col all_probs] rev_map] ->].
    rewrite bind_Ok, Hpp. by exists col.
  - intros ds' Hs. unfold __call__. destruct (model self) as [m|]; [|done].
    unfold attr. rewrite !bind_Ok, Hs.
    by rewrite (proj1 (Hloop (set_eval m) (samples ds) ds' ds 0%nat [] [] [])).
Qed.

(** X18.  Probabilities for a dataset of one sample: when the decoder
    gives one row of probabilities for the sample and at least one label,
    [__call__] raises [IndexError].  The array of the collected
    probabilities has the shape (1, 1, classes); [squeeze] leaves at most
    one axis; and the first [raw_predictions[:, idx]] asks for two. *)
Theorem call_probabilities_of_one_sample_raise self m ds X Y kwargs :
  model self = Some m ->
  supports_proba self = true ->
  samples ds = [(X, Y)] ->
  decode_kwargs self ds true 0 = Ok kwargs ->
  let Yh := unsqueeze_if_flat (forward (set_eval m) (T1 X)) in
  length (decode_probs (target_encoder self) Yh kwargs) = 1%nat ->
  decode_rev_map (target_encoder self) Yh kwargs <> [] ->
  __call__ self ds true = Raise IndexError.
Proof.
  intros Hm Hsp Hs Hkw Yh Hrow Hlab.
  unfold __call__. rewrite Hm. unfold attr. rewrite bind_Ok, Hs.
  cbn [call_loop]. rewrite Hkw, bind_Ok, Hsp. cbn [andb]. fold Yh.
  rewrite bind_Ok. cbn [app].
  destruct (decode_probs (target_encoder self) Yh kwargs) as [|row [|? ?]];
    try discriminate Hrow.
  destruct (decode_rev_map (target_encoder self) Yh kwargs) as [|label labels];
    [done|].
  assert (np_array [[row]]
          = Ok {| nd_shape := [1; 1; length row]%nat;
                  nd_data := concat (concat [[row]]) |}) as ->.
  { destruct row as [|x row]; cbn [np_array forallb length andb].
    - reflexivity.
    - by rewrite !Nat.eqb_refl. }
  rewrite bind_Ok. cbn [proba_columns].
  assert (column (squeeze {| nd_shape := [1; 1; length row]%nat;
                             nd_data := concat (concat [[row]]) |}) 0
          = Raise IndexError) as ->; [|reflexivity].
  unfold column, squeeze. cbn [nd_shape].
  rewrite !filter_cons. cbn.
  destruct (decide (length row <> 1%nat)); reflexivity.
Qed.

End CallErrors.

Lemma call_raises_on_missing_dependency_data_witness :
  let self := Toy.mixer "integer" in
  let row := ([F64.of_Z 1], [F64.zero]) in
  __call__ self {| samples := [row]; data_frame := []; encoder_spans := ∅ |} false
  = Raise IndexError /\
  __call__ self {| samples := [row];
                   data_frame := [ {[ "a" := CNum (F64.of_Z 1) ]} ];
                   encoder_spans := ∅ |} false
  = Raise KeyError.
Proof.
  intros self row. split.
  - apply (proj1 (call_raises_on_missing_dependency_data self 0%nat _ false eq_refl)
             "a" ["b"] [F64.of_Z 1] [F64.zero] []); reflexivity.
  - apply (proj2 (call_raises_on_missing_dependency_data self 0%nat _ false eq_refl)).
    + simpl. lia.
    + exists 0%nat, {[ "a" := CNum (F64.of_Z 1) ]}, "b".
      split; [simpl; lia|]. split; [reflexivity|].
      split; [by right; left|reflexivity].
Defined.

Lemma call_prediction_column_shape_witness :
  let self := Toy.mixer "integer" in
  let series :=
    {| stop_after := 4; dtype_dict := {[ "y" := "integer" ]}; target := "y";
       timeseries_settings := {| is_timeseries := true; nr_predictions := 2 |};
       target_encoder := Toy.encoder; epochs_to_best := 0; fit_on_dev := true;
       net_class := DefaultNet; supports_proba := false;
       search_hyperparameters := false; stable := true;
       model := Some 0%nat; batch_size := None; lr := None; num_hidden := None |} in
  let ds := Toy.dataset [[F64.of_Z 1]; [F64.of_Z 2]] in
  Forall (fun e => exists c, e = Scalar c)
    [Scalar (CNum F64.lit_0_75); Scalar (CNum F64.lit_0_75)] /\
  (length [Sequence [CNum F64.lit_0_75]; Sequence [CNum F64.lit_0_75]]
   = length (samples ds) /\
   Forall (fun e => exists cs, e = Sequence cs)
     [Sequence [CNum F64.lit_0_75]; Sequence [CNum F64.lit_0_75]]).
Proof.
  intros self series ds.
  assert (__call__ self ds false
          = Ok {| prediction := [Scalar (CNum F64.lit_0_75); Scalar (CNum F64.lit_0_75)];
                  probabilities := [] |}) as H1
    by (vm_compute; reflexivity).
  assert (__call__ series ds false
          = Ok {| prediction := [Sequence [CNum F64.lit_0_75];
                                 Sequence [CNum F64.lit_0_75]];
                  probabilities := [] |}) as H2
    by (vm_compute; reflexivity).
  split.
  - apply (proj2 (call_prediction_column_shape self ds false _ H1)).
    left. reflexivity.
  - apply (proj1 (call_prediction_column_shape series ds false _ H2)).
    + reflexivity.
    + simpl. lia.
Defined.

Lemma call_without_dependencies_witness :
  let self :=
    set_target_encoder
      {| decode_log := false; index_weights := []; dependencies := [] |}
      (Toy.mixer "integer") in
  let ds := Toy.dataset [[F64.of_Z 1]] in
  decode_kwargs self ds true 0 = Ok {| dependency_data := None; return_raw := None |} /\
  (exists col,
     __call__ self ds false = Ok {| prediction := col; probabilities := [] |}) /\
  __call__ self {| samples := samples ds; data_frame := []; encoder_spans := ∅ |} false
  = __call__ self ds false.
Proof.
  intros self ds.
  destruct (call_without_dependencies self ds true eq_refl) as (Hkw & _ & _).
  destruct (call_without_dependencies self ds false eq_refl) as (_ & Hok & Hdf).
  split; [apply Hkw|]. split.
  - apply (Hok 0%nat); reflexivity.
  - apply Hdf. reflexivity.
Defined.

Lemma call_probabilities_of_one_sample_raise_witness :
  let self :=
    {| stop_after := 4; dtype_dict := {[ "y" := "categorical" ]}; target := "y";
       timeseries_settings := {| is_timeseries := false; nr_predictions := 1 |};
       target_encoder :=
         {| decode_log := false; index_weights := []; dependencies := [] |};
       epochs_to_best := 0; fit_on_dev := true;
       net_class := DefaultNet; supports_proba := true;
       search_hyperparameters := false; stable := true;
       model := Some 0%nat; batch_size := None; lr := None; num_hidden := None |} in
  __call__ self (Toy.dataset [[F64.of_Z 1]]) true = Raise IndexError /\
  exists ydf,
    __call__ self (Toy.dataset [[F64.of_Z 1]; [F64.of_Z 2]]) true = Ok ydf /\
    probabilities ydf
    = [("__mdb_proba_no", [F64.of_Z 1; F64.of_Z 2]);
       ("__mdb_proba_yes", [F64.of_Z 1; F64.of_Z 2])].
Proof.
  intros self. split.
  - apply (call_probabilities_of_one_sample_raise self 0%nat
             (Toy.dataset [[F64.of_Z 1]]) [F64.of_Z 1] [F64.zero]
             {| dependency_data := None; return_raw := Some true |}).
    + reflexivity.
    + reflexivity.
    + reflexivity.
    + reflexivity.
    + reflexivity.
    + discriminate.
  - eexists. split; vm_compute; reflexivity.
Defined.

(** ** Inference: the probability columns *)

Section ProbabilityColumns.

Context {Model Optim Scaler : Type} `{!Torch Model Optim Scaler}.
Implicit Types self : @Neural Model.

(** The array of one-row matrices of [C] probabilities each. *)
Lemma np_array_rows (all_probs : list (list (list float))) C :
  all_probs <> [] ->
  Forall (fun p => exists row, p = [row] /\ length row = C) all_probs ->
  np_array all_probs
  = Ok {| nd_shape := [length all_probs; 1%nat; C];
          nd_data := concat (concat all_probs) |}.
Proof.
  intros Hne Hall.
  assert (forallb (fun q : list (list float) =>
                     (length q =? 1)%nat
                     && forallb (fun row' : list float => (length row' =? C)%nat) q)
            all_probs = true) as Hcheck.
  { apply forallb_forall. intros q Hq. apply list_elem_of_In in Hq.
    rewrite Forall_forall in Hall. destruct (Hall q Hq) as (row & -> & Hlen).
    cbn. by rewrite Hlen, Nat.eqb_refl. }
  destruct all_probs as [|p rest]; [done|].
  pose proof (Forall_inv Hall) as (row & -> & Hlen).
  unfold np_array. cbn [length]. cbn [length] in Hcheck.
  rewrite Hlen, Hcheck. reflexivity.
Qed.

(** The rows of one-row matrices. *)
Lemma concat_one_row_matrices (all_probs : list (list (list float))) C :
  Forall (fun p => exists row, p = [row] /\ length row = C) all_probs ->
  length (concat all_probs) = length all_probs /\
  Forall (fun row => length row = C) (concat all_probs).
Proof.
  induction 1 as [|p rest (row & -> & Hlen) Hrest [IH1 IH2]]; [done|].
  cbn. split; [by rewrite IH1|]. by constructor.
Qed.

(** Column [j] of a matrix given by the concatenation of its rows. *)
Lemma column_of_rows (rows : list (list float)) C j :
  Forall (fun row => length row = C) rows -> (j < C)%nat ->
  concat ((fun i => take 1 (drop ((i * C + j) * 1) (concat rows)))
            <$> seq 0 (length rows))
  = (fun row => nth j row F64.nan) <$> rows.
Proof.
  intros Hall Hj.
  induction Hall as [|row rows Hrow Hrows IH]; [done|].
  cbn [length seq fmap list_fmap concat].
  rewrite <- fmap_S_seq, <- list_fmap_compose.
  assert (take 1 (drop ((0 * C + j) * 1) (row ++ concat rows))
          = [nth j row F64.nan]) as ->.
  { cbn [Nat.mul Nat.add]. rewrite Nat.mul_1_r, drop_app_le by lia.
    destruct (lookup_lt_is_Some_2 row j ltac:(lia)) as [x Hx].
    rewrite (nth_lookup_Some _ _ _ _ Hx), (drop_S _ _ _ Hx). reflexivity. }
  cbn [app]. f_equal.
  rewrite <- IH. f_equal. apply list_fmap_ext. intros _ i _. cbn [compose].
  f_equal. rewrite !Nat.mul_1_r.
  replace (S i * C + j)%nat with (length row + (i * C + j))%nat by lia.
  by rewrite drop_app_add.
Qed.

Lemma column_value (rows : list (list float)) C j :
  Forall (fun row => length row = C) rows -> (j < C)%nat ->
  column {| nd_shape := [length rows; C]; nd_data := concat rows |} j
  = Ok {| nd_shape := [length rows];
          nd_data := (fun row => nth j row F64.nan) <$> rows |}.
Proof.
  intros Hall Hj. unfold column. cbn [nd_shape nd_data foldr].
  apply Nat.ltb_lt in Hj as Hj'. rewrite Hj'.
  by rewrite (column_of_rows rows C j Hall Hj).
Qed.

Lemma proba_name_inj (l1 l2 : string) :
  "__mdb_proba_" +:+ l1 = "__mdb_proba_" +:+ l2 -> l1 = l2.
Proof. intros E. cbn in E. by simplify_eq. Qed.

(** The loop over the labels, on a table with rows: each label adds the
    column of its position. *)
Lemma proba_columns_rows (rows : list (list float)) C col :
  Forall (fun row => length row = C) rows ->
  length col = length rows -> col <> [] ->
  forall labels idx columns,
    (idx + length labels <= C)%nat -> NoDup labels ->
    (forall label, label ∈ labels -> "__mdb_proba_" +:+ label ∉ columns.*1) ->
    proba_columns {| nd_shape := [length rows; C]; nd_data := concat rows |}
      idx labels {| prediction := col; probabilities := columns |}
    = Ok {| prediction := col;
            probabilities :=
              columns
              ++ imap (fun j label =>
                         ("__mdb_proba_" +:+ label,
                          (fun row => nth (idx + j) row F64.nan) <$> rows))
                   labels |}.
Proof.
  intros Hall Hlen Hne.
  induction labels as [|label labels IH]; intros idx columns Hidx Hnd Hfresh.
  - cbn. by rewrite app_nil_r.
  - cbn [proba_columns length] in *.
    rewrite (column_value rows C idx Hall) by lia. rewrite bind_Ok.
    unfold setitem. cbn [nd_shape nd_data prediction probabilities].
    assert ((length col =? 0)%nat = false) as ->.
    { apply Nat.eqb_neq. by destruct col. }
    cbn [andb]. rewrite Hlen, Nat.eqb_refl, bind_Ok.
    unfold set_column. rewrite bool_decide_eq_false_2 by (apply Hfresh; by left).
    apply NoDup_cons in Hnd as [Hnotin Hnd].
    rewrite IH; [| lia | done |].
    + rewrite imap_cons, <- app_assoc. cbn [app].
      rewrite Nat.add_0_r. do 4 f_equal.
      apply imap_ext. intros j l _. cbn [compose].
      by replace (S idx + j)%nat with (idx + S j)%nat by lia.
    + intros l Hl. rewrite fmap_app, elem_of_app. intros [Hin|Hin].
      * apply (Hfresh l); [by right|done].
      * cbn [fmap list_fmap fst] in Hin. apply list_elem_of_singleton in Hin.
        apply proba_name_inj in Hin as ->. done.
Qed.

(** X19.  The probability columns in the regular case: two samples or
    more, for each of them one row of [C >= 2] probabilities and one
    decoded value, and at most [C] labels, all different.  Then [__call__]
    returns the table with the [prediction] column and, for the label at
    position [j], the column [__mdb_proba_<label>] that holds for each
    sample its probability number [j]. *)
Theorem call_probability_columns self m ds col all_probs labels C :
  model self = Some m -> supports_proba self = true ->
  call_loop self (set_eval m) ds true 0 (samples ds) [] [] []
  = Ok (col, all_probs, labels) ->
  (2 <= length all_probs)%nat -> (2 <= C)%nat ->
  Forall (fun p => exists row, p = [row] /\ length row = C) all_probs ->
  length col = length all_probs ->
  (length labels <= C)%nat -> NoDup labels ->
  __call__ self ds true
  = Ok {| prediction := col;
          probabilities :=
            imap (fun j label =>
                    ("__mdb_proba_" +:+ label,
                     (fun row => nth j row F64.nan) <$> concat all_probs))
              labels |}.
Proof.
  intros Hm Hsp Hloop HN HC Hall Hcol Hlab Hnd.
  unfold __call__. rewrite Hm. unfold attr. rewrite bind_Ok, Hloop, bind_Ok, Hsp.
  cbn [andb].
  assert (all_probs <> []) as Hne.
  { intros E. rewrite E in HN. simpl in HN. lia. }
  rewrite (np_array_rows all_probs C Hne Hall).
  rewrite bind_Ok.
  destruct (concat_one_row_matrices all_probs C Hall) as [Hrows Hrow].
  assert (squeeze {| nd_shape := [length all_probs; 1%nat; C];
                     nd_data := concat (concat all_probs) |}
          = {| nd_shape := [length (concat all_probs); C];
               nd_data := concat (concat all_probs) |}) as ->.
  { unfold squeeze. cbn [nd_shape nd_data]. f_equal.
    rewrite filter_cons_True by lia. rewrite filter_cons_False by (intros ?; done).
    rewrite filter_cons_True by lia. by rewrite Hrows. }
  rewrite (proba_columns_rows (concat all_probs) C col Hrow).
  - reflexivity.
  - by rewrite Hrows.
  - intros E. rewrite E in Hcol. simpl in Hcol. lia.
  - simpl. lia.
  - done.
  - intros label _ Hin. by apply elem_of_nil in Hin.
Qed.

End ProbabilityColumns.

Lemma call_probability_columns_witness :
  let self :=
    {| stop_after := 4; dtype_dict := {[ "y" := "categorical" ]}; target := "y";
       timeseries_settings := {| is_timeseries := false; nr_predictions := 1 |};
       target_encoder :=
         {| decode_log := false; index_weights := []; dependencies := [] |};
       epochs_to_best := 0; fit_on_dev := true;
       net_class := DefaultNet; supports_proba := true;
       search_hyperparameters := false; stable := true;
       model := Some 0%nat; batch_size := None; lr := None; num_hidden := None |} in
  exists col,
    __call__ self (Toy.dataset [[F64.of_Z 1]; [F64.of_Z 2]]) true
    = Ok {| prediction := col;
            probabilities :=
              [("__mdb_proba_no", [F64.of_Z 1; F64.of_Z 2]);
               ("__mdb_proba_yes", [F64.of_Z 1; F64.of_Z 2])] |}.
Proof.
  intros self.
  exists [Scalar (CNum F64.lit_0_75); Scalar (CNum F64.lit_0_75)].
  rewrite (call_probability_columns self 0%nat
             (Toy.dataset [[F64.of_Z 1]; [F64.of_Z 2]])
             [Scalar (CNum F64.lit_0_75); Scalar (CNum F64.lit_0_75)]
             [[[F64.of_Z 1; F64.of_Z 1]]; [[F64.of_Z 2; F64.of_Z 2]]]
             ["no"; "yes"] 2).
  - reflexivity.
  - reflexivity.
  - reflexivity.
  - reflexivity.
  - simpl. lia.
  - lia.
  - repeat constructor; by eexists.
  - reflexivity.
  - simpl. lia.
  - apply NoDup_cons. split; [|apply NoDup_singleton].
    intros Hin. apply list_elem_of_singleton in Hin. discriminate Hin.
Defined.

(** ** [fit]: what a successful call has done *)

Section FitReturns.

Context {Model Optim Scaler : Type} `{!Torch Model Optim Scaler}.
Implicit Types self : @Neural Model.

Lemma derive_batch_size_bounds l bs :
  derive_batch_size l = Ok bs -> 40 <= bs <= 200.
Proof.
  unfold derive_batch_size. destruct (py_int _) as [tenth|]; [|discriminate].
  rewrite bind_Ok. intros [= <-]. lia.
Qed.

Lemma init_net_Ok_inv self ds_arr self' :
  _init_net self ds_arr = Ok self' ->
  exists m p0 rest row rows,
    ds_arr = p0 :: rest /\ samples p0 = row :: rows /\ self' = set_model m self.
Proof.
  unfold _init_net. intros H.
  destruct ds_arr as [|p0 rest]; [discriminate H|].
  change (py_index (p0 :: rest) 0%nat) with (Ok p0) in H. rewrite bind_Ok in H.
  destruct (samples p0) as [|row rows] eqn:Hp0; [discriminate H|].
  change (py_index (row :: rows) 0%nat) with (Ok row) in H. rewrite bind_Ok in H.
  destruct (num_hidden self) as [h|]; [|discriminate H].
  change (attr (Some h)) with (Ok h) in H. rewrite bind_Ok in H.
  injection H as <-. by repeat eexists.
Qed.

(** [_find_lr] returns only if some pass of the loader yields a batch. *)
Lemma find_lr_needs_a_batch self dl x m :
  (forall pass, dl pass = []) -> _find_lr self dl <> Ok (x, m).
Proof.
  intros Hdl Hret.
  destruct (find_lr_Ok_inv _ _ _ _ Hret) as (st & idx & Hsw & Hidx & _).
  destruct (sweep_Ok_inv _ _ _ Hsw) as (o & c & m0 & Hst).
  rewrite sweep_epochs_empty in Hst by done.
  rewrite Hst in Hidx. discriminate Hidx.
Qed.

(** The training stages of [fit], when they return. *)
Lemma fit_training_Ok_inv clock self ds_arr k self' :
  fit_training clock self ds_arr k = Ok self' ->
  exists bs m0 x m1 m2 e,
    40 <= bs <= 200 /\ 0 <= e <= 20000 /\
    ConcatedEncodedDs (train_side k ds_arr) <> [] /\
    is_Some (dtype_dict self !! target self) /\
    self' = set_epochs_to_best (epochs_to_best self + e)
              (set_model m2 (set_model m1 (set_self_lr x
                 (set_model m0 (set_num_hidden 1 (set_self_lr F64.lit_1e_4
                    (set_batch_size bs self))))))).
Proof.
  unfold fit_training. intros H.
  destruct (derive_batch_size _) as [bs|] eqn:Hbs; [|discriminate H].
  rewrite bind_Ok in H. apply derive_batch_size_bounds in Hbs.
  destruct (_init_net _ ds_arr) as [self1|] eqn:Hnet; [|discriminate H].
  rewrite bind_Ok in H.
  destruct (init_net_Ok_inv _ _ _ Hnet) as (m0 & p0 & rest & row & rows & _ & _ & ->).
  clear Hnet.
  destruct (_find_lr _ _) as [[x m1]|] eqn:Hlr; [|discriminate H].
  rewrite bind_Ok in H.
  assert (ConcatedEncodedDs (train_side k ds_arr) <> []) as Hne.
  { intros E. revert Hlr. rewrite E. apply find_lr_needs_a_batch.
    intros pass. apply DataLoader_empty. }
  clear Hlr.
  destruct (_select_optimizer _) as [o|]; [|discriminate H]. rewrite bind_Ok in H.
  destruct (_select_criterion _) as [c|] eqn:Hc; [|discriminate H].
  rewrite bind_Ok in H.
  assert (is_Some (dtype_dict self !! target self)) as Ht.
  { destruct (dtype_dict self !! target self) as [t|] eqn:Ht; [by eexists|].
    rewrite select_criterion_no_dtype in Hc; [discriminate Hc|exact Ht]. }
  clear Hc.
  match type of H with
  | context [attr (model ?s)] => change (attr (model s)) with (@Ok Model m1) in H
  end.
  rewrite bind_Ok in H.
  destruct (_max_fit _ _ _ _ _ _ _ _ _) as [[m2 e] err] eqn:Hfit.
  assert (0 <= e <= 20000) as He.
  { revert Hfit. unfold _max_fit.
    destruct (max_fit_loop _ _ _ _ _ _ _ _ _) as [st brk] eqn:Hrun.
    destruct (max_fit_loop_bounds _ _ _ _ _ _ _ _ _ _ _ Hrun)
      as (n & (_ & _ & _ & He2b) & Hrange & _).
    cbn [fst]. unfold max_fit_result. intros [= _ <- _]. lia. }
  clear Hfit. injection H as <-.
  exists bs, m0, x, m1, m2, e. split_and!; try done; lia.
Qed.

Lemma final_tuning_Ok_inv self data_arr self' :
  _final_tuning self data_arr = Ok self' ->
  exists t, dtype_dict self !! target self = Some t /\
    (((t ∉ [dtype.integer; dtype.float]) /\ self' = self) \/
     ((t ∈ [dtype.integer; dtype.float]) /\
      exists m b, model self = Some m /\
        self' = set_target_encoder (set_decode_log b (target_encoder self))
                  (set_model (set_eval m) self))).
Proof.
  intros H.
  destruct (dtype_dict self !! target self) as [t|] eqn:Ht.
  - exists t. split; [done|].
    destruct (decide (t ∈ [dtype.integer; dtype.float])) as [Hin|Hout].
    + right. split; [done|].
      destruct (model self) as [m|] eqn:Hm.
      * rewrite (final_tuning_numeric _ _ _ _ Ht Hin Hm) in H.
        destruct (tuning_score _ _ _ true) as [acc_true|]; [|discriminate H].
        rewrite bind_Ok in H.
        destruct (tuning_score _ _ _ false) as [acc_false|]; [|discriminate H].
        rewrite bind_Ok in H. injection H as <-. by repeat eexists.
      * revert H. unfold _final_tuning. rewrite (target_dtype_Some _ _ Ht), bind_Ok.
        apply in_tuple_true in Hin. rewrite Hin, Hm. discriminate.
    + left. split; [done|].
      rewrite (final_tuning_other _ _ _ Ht Hout) in H. by injection H as <-.
  - revert H. unfold _final_tuning, target_dtype. rewrite Ht. discriminate.
Qed.

Lemma fit_Ok_inv clock clock' self ds_arr self' :
  fit clock clock' self ds_arr = Ok self' ->
  exists k self1 self2,
    split_point ds_arr = Ok k /\
    fit_training clock self ds_arr k = Ok self1 /\
    (self2 = self1 \/ exists m, self2 = set_model m self1) /\
    (self' = self2 \/ _final_tuning self2 (dev_side k ds_arr) = Ok self').
Proof.
  unfold fit. intros H.
  destruct (split_point ds_arr) as [k|]; [|discriminate H].
  rewrite bind_Ok in H.
  destruct (fit_training clock self ds_arr k) as [self1|] eqn:Htr; [|discriminate H].
  rewrite bind_Ok in H. exists k, self1.
  destruct (0 <? _).
  - destruct (fit_on_dev self1).
    + destruct (partial_fit _ _ _ _) as [self2|] eqn:Hpf; [|discriminate H].
      rewrite bind_Ok in H.
      destruct (partial_fit_Ok_inv _ _ _ _ _ Hpf) as (m & bs' & _ & ->).
      exists (set_model m self1).
      split; [reflexivity|]. split; [exact Htr|]. split; [right; by exists m|].
      right. exact H.
    + rewrite bind_Ok in H. exists self1.
      split; [reflexivity|]. split; [exact Htr|]. split; [by left|].
      right. exact H.
  - injection H as <-. exists self1.
    split; [reflexivity|]. split; [exact Htr|]. split; by left.
Qed.

(** X11.  What a successful [fit] has done to the mixer: the configuration
    is as it was; a network, a learning rate, one hidden layer and a batch
    size between 40 and 200 are assigned; epochs-to-best has grown by at
    most 20000; the training side of the split has a row; and the target
    encoder is untouched unless the target is an integer or a float, where
    only its [decode_log] flag may differ. *)
Theorem fit_returns_a_fitted_mixer clock clock' self ds_arr self' :
  fit clock clock' self ds_arr = Ok self' ->
  keeps_configuration self self' /\
  fitted self' /\
  epochs_to_best self <= epochs_to_best self' <= epochs_to_best self + 20000 /\
  (exists k, split_point ds_arr = Ok k /\
     ConcatedEncodedDs (train_side k ds_arr) <> []) /\
  exists t, dtype_dict self !! target self = Some t /\
    ((t ∉ [dtype.integer; dtype.float]) -> target_encoder self' = target_encoder self).
Proof.
  intros H.
  destruct (fit_Ok_inv _ _ _ _ _ H) as (k & self1 & self2 & Hk & Htr & H2 & H').
  clear H.
  destruct (fit_training_Ok_inv _ _ _ _ _ Htr)
    as (bs & m0 & x & m1 & m2 & e & Hbs & He & Hne & [t Ht] & ->).
  clear Htr.
  assert (exists m3,
            self2 = set_model m3
              (set_epochs_to_best (epochs_to_best self + e)
                 (set_self_lr x (set_num_hidden 1 (set_batch_size bs self)))))
    as [m3 ->].
  { destruct H2 as [->|[m ->]]; eexists; reflexivity. }
  clear H2.
  assert (exists m4 b,
            self' = set_target_encoder (set_decode_log b (target_encoder self))
                      (set_model m4
                         (set_epochs_to_best (epochs_to_best self + e)
                            (set_self_lr x (set_num_hidden 1 (set_batch_size bs self)))))
            /\ ((t ∉ [dtype.integer; dtype.float]) ->
                  b = decode_log (target_encoder self)))
    as (m4 & b & -> & Hb).
  { assert (forall m : Model,
              set_model m
                (set_epochs_to_best (epochs_to_best self + e)
                   (set_self_lr x (set_num_hidden 1 (set_batch_size bs self))))
              = set_target_encoder
                  (set_decode_log (decode_log (target_encoder self))
                     (target_encoder self))
                  (set_model m
                     (set_epochs_to_best (epochs_to_best self + e)
                        (set_self_lr x (set_num_hidden 1 (set_batch_size bs self))))))
      as Hsame.
    { intros m. destruct self as [? ? ? ? [? ? ?] ? ? ? ? ? ? ? ? ? ?]. reflexivity. }
    destruct H' as [->|Hft].
    - exists m3, (decode_log (target_encoder self)). split; [apply Hsame|done].
    - destruct (final_tuning_Ok_inv _ _ _ Hft)
        as (t' & Ht' & [[Hout ->]|[Hin (m & b & Hm & ->)]]).
      + exists m3, (decode_log (target_encoder self)). split; [apply Hsame|done].
      + exists (set_eval m), b. split; [reflexivity|].
        cbn in Ht'. rewrite Ht in Ht'. injection Ht' as <-. done. }
  clear H'.
  split; [|split; [|split; [|split]]].
  - unfold keeps_configuration. cbn. split_and!; reflexivity.
  - unfold fitted. cbn. split_and!; by eexists.
  - cbn. lia.
  - by exists k.
  - exists t. split; [done|]. intros Hout. rewrite (Hb Hout).
    destruct self as [? ? ? ? [? ? ?] ? ? ? ? ? ? ? ? ? ?]. reflexivity.
Qed.

End FitReturns.

Lemma fit_returns_a_fitted_mixer_witness :
  let self := Toy.mixer "integer" in
  let ds_arr := [Toy.dataset [[F64.of_Z 1]]; Toy.dataset [[F64.of_Z 1]]] in
  exists self',
    fit Toy.clock Toy.clock self ds_arr = Ok self' /\
    keeps_configuration self self' /\ fitted self' /\
    epochs_to_best self <= epochs_to_best self' <= epochs_to_best self + 20000.
Proof.
  intros self ds_arr.
  destruct (fit Toy.clock Toy.clock self ds_arr) as [self'|e] eqn:Hfit.
  - exists self'. split; [reflexivity|].
    destruct (fit_returns_a_fitted_mixer _ _ _ _ _ Hfit) as (K & F & E & _).
    split; [exact K|]. split; [exact F|exact E].
  - vm_compute in Hfit. discriminate Hfit.
Defined.

(** ** [fit]: the two sides of the split *)

Section FitSplit.

Context {Model Optim Scaler : Type} `{!Torch Model Optim Scaler}.
Implicit Types self : @Neural Model.

Lemma fit_Ok_training clock clock' self ds_arr self' :
  fit clock clock' self ds_arr = Ok self' ->
  exists k self1,
    split_point ds_arr = Ok k /\ fit_training clock self ds_arr k = Ok self1.
Proof.
  unfold fit. intros H.
  destruct (split_point ds_arr) as [k|]; [|discriminate H].
  rewrite bind_Ok in H.
  destruct (fit_training clock self ds_arr k) as [self1|] eqn:Htr; [|discriminate H].
  exists k, self1. split; [reflexivity|exact Htr].
Qed.

(** X12.  The split of [fit] over fewer than 10000 partitions: the first
    [9n/10] (rounded down) partitions form the training side and the rest,
    in order, the validation side, which is empty only for an empty list;
    the training side is empty exactly for [n <= 1], so a successful [fit]
    has been given two partitions or more. *)
Theorem fit_split_sides clock clock' self ds_arr :
  Z.of_nat (length ds_arr) < 10000 ->
  let n := Z.of_nat (length ds_arr) in
  exists k,
    split_point ds_arr = Ok k /\ k = 9 * n / 10 /\
    train_side k ds_arr ++ dev_side k ds_arr = ds_arr /\
    Z.of_nat (length (train_side k ds_arr)) = k /\
    (ds_arr <> [] -> dev_side k ds_arr <> []) /\
    (train_side k ds_arr = [] <-> n <= 1) /\
    (forall self', fit clock clock' self ds_arr = Ok self' -> 2 <= n).
Proof.
  intros Hlt n. exists (9 * n / 10).
  pose proof (split_point_floor ds_arr Hlt) as Hk. fold n in Hk.
  assert (0 <= 9 * n / 10 <= n) as Hrange.
  { split; [apply Z.div_pos; lia|]. apply Z.div_le_upper_bound; lia. }
  assert (Z.of_nat (length (train_side (9 * n / 10) ds_arr)) = 9 * n / 10) as Hlen.
  { unfold train_side. rewrite length_take. lia. }
  assert (train_side (9 * n / 10) ds_arr = [] <-> n <= 1) as Hempty.
  { split.
    - intros E. rewrite E in Hlen. simpl in Hlen.
      destruct (decide (n <= 1)) as [|Hn]; [done|].
      assert (1 <= 9 * n / 10) by (apply Z.div_le_lower_bound; lia). lia.
    - intros Hn. apply length_zero_iff_nil.
      assert (9 * n / 10 = 0) as E by (apply Z.div_small; lia). lia. }
  split_and!; try done.
  - unfold train_side, dev_side. apply take_drop.
  - intros Hne E. apply (f_equal length) in E. unfold dev_side in E.
    rewrite length_drop in E. simpl in E.
    assert (0 < n) by (destruct ds_arr; [done|unfold n; simpl; lia]).
    assert (9 * n / 10 < n) by (apply Z.div_lt_upper_bound; lia). lia.
  - intros self' Hfit.
    destruct (fit_Ok_training _ _ _ _ _ Hfit) as (k & self1 & Hk' & Htr).
    rewrite Hk in Hk'. injection Hk' as <-.
    destruct (fit_training_Ok_inv _ _ _ _ _ Htr)
      as (bs & m0 & x & m1 & m2 & e & _ & _ & Hne & _).
    destruct (decide (n <= 1)) as [Hn|]; [|lia].
    apply Hempty in Hn. rewrite Hn in Hne. done.
Qed.

End FitSplit.

Lemma fit_split_sides_witness :
  let ds_arr := replicate 10 (Toy.dataset [[F64.of_Z 1]]) in
  exists k,
    split_point ds_arr = Ok k /\ k = 9 /\
    length (train_side k ds_arr) = 9%nat /\ length (dev_side k ds_arr) = 1%nat.
Proof.
  intros ds_arr.
  destruct (fit_split_sides Toy.clock Toy.clock (Toy.mixer "integer") ds_arr)
    as (k & Hk & Hval & _).
  - simpl. lia.
  - exists k. split; [exact Hk|]. rewrite Hval. split_and!; reflexivity.
Defined.

(** * Properties of the transformer helpers *)

(** ** 2-D tensors as lists of rows *)

Section Matrices.

Import transformer_helpers.

Lemma bind_Done {A B} (a : A) (k : A -> outcome B) : Done a ≫= k = k a.
Proof. reflexivity. Qed.

Lemma range_from_length n : forall lo, length (range_from lo n) = n.
Proof. induction n as [|n IH]; intros lo; simpl; [done|]. by rewrite IH. Qed.

Lemma range_from_lookup n : forall lo i,
  (i < n)%nat -> range_from lo n !! i = Some (lo + Z.of_nat i).
Proof.
  induction n as [|n IH]; intros lo i Hi; [lia|].
  destruct i as [|i]; simpl.
  - f_equal. lia.
  - rewrite IH by lia. f_equal. lia.
Qed.

Lemma entry_map2d {A B} (f : A -> B) m i j :
  entry (map2d f m) i j = f <$> entry m i j.
Proof.
  unfold entry, map2d. rewrite list_lookup_fmap.
  destruct (m !! i) as [row|]; simpl; [|done]. by rewrite list_lookup_fmap.
Qed.

Lemma rect_map2d {A B} (f : A -> B) n k m : rect n k m -> rect n k (map2d f m).
Proof.
  intros [Hn Hk]. unfold map2d. split; [by rewrite length_fmap|].
  apply Forall_fmap. eapply Forall_impl; [exact Hk|].
  intros row Hrow. simpl. by rewrite length_fmap.
Qed.

Lemma omap_column {A} (j k : nat) (m : list (list A)) :
  Forall (fun row => length row = k) m -> (j < k)%nat ->
  length (omap (fun row : list A => row !! j) m) = length m /\
  forall i, omap (fun row : list A => row !! j) m !! i = (row ← m !! i; row !! j).
Proof.
  induction 1 as [|row m Hrow Hm IH]; intros Hj.
  - split; [done|]. intros i. done.
  - destruct (lookup_lt_is_Some_2 row j ltac:(lia)) as [x Hx].
    destruct (IH Hj) as [Hlen Hlook].
    cbn. rewrite Hx. cbn. split; [by rewrite Hlen|].
    intros [|i]; cbn; [done|apply Hlook].
Qed.

Lemma entry_transpose {A} n k (m : list (list A)) i j :
  rect n k m -> (j < k)%nat -> entry (transpose k m) j i = entry m i j.
Proof.
  intros [Hn Hk] Hj. unfold entry at 1, transpose.
  rewrite list_lookup_fmap, lookup_seq_lt by done. cbn.
  apply (omap_column j k m Hk Hj).
Qed.

Lemma rect_transpose {A} n k (m : list (list A)) :
  rect n k m -> rect k n (transpose k m).
Proof.
  intros [Hn Hk]. unfold transpose. split; [by rewrite length_fmap, length_seq|].
  apply Forall_fmap, Forall_forall. intros j Hj. apply elem_of_seq in Hj.
  cbn. rewrite <- Hn. apply (omap_column j k m Hk). lia.
Qed.

Lemma entry_replicate {A} (x : A) n k i j :
  (i < n)%nat -> (j < k)%nat -> entry (replicate n (replicate k x)) i j = Some x.
Proof.
  intros Hi Hj. unfold entry. rewrite lookup_replicate_2 by done. cbn.
  by rewrite lookup_replicate_2.
Qed.

Lemma rect_replicate {A} (x : A) n k : rect n k (replicate n (replicate k x)).
Proof.
  split; [apply length_replicate|]. apply Forall_replicate, length_replicate.
Qed.

Lemma entry_triu m i j :
  entry (triu m) i j = (fun x => if (Nat.leb i j) then x else zero) <$> entry m i j.
Proof.
  unfold entry, triu. rewrite list_lookup_imap.
  destruct (m !! i) as [row|]; cbn; [|done]. by rewrite list_lookup_imap.
Qed.

Lemma rect_triu n k m : rect n k m -> rect n k (triu m).
Proof.
  intros [Hn Hk]. unfold triu. split; [by rewrite length_imap|].
  apply Forall_lookup. intros i row. rewrite list_lookup_imap.
  destruct (m !! i) as [r|] eqn:Hr; cbn; [|done]. intros [= <-].
  rewrite length_imap. apply (Forall_lookup_1 _ _ _ _ Hk Hr).
Qed.

Lemma entry_masked_fill t mask v i j :
  entry (masked_fill t mask v) i j
  = (x ← entry t i j; c ← entry mask i j; Some (if c : bool then v else x)).
Proof.
  unfold entry, masked_fill. rewrite lookup_zip_with.
  destruct (t !! i) as [r|]; cbn; [|done].
  destruct (mask !! i) as [r'|]; cbn.
  - by rewrite lookup_zip_with.
  - by destruct (r !! j).
Qed.

Lemma rect_masked_fill n k t mask v :
  rect n k t -> rect n k mask -> rect n k (masked_fill t mask v).
Proof.
  intros [Hn Hk] [Hn' Hk']. unfold masked_fill. split.
  - rewrite length_zip_with. lia.
  - apply Forall_lookup. intros i row. rewrite lookup_zip_with.
    destruct (t !! i) as [r|] eqn:Hr; cbn; [|done].
    destruct (mask !! i) as [r'|] eqn:Hr'; cbn; [|done]. intros [= <-].
    rewrite length_zip_with.
    rewrite (Forall_lookup_1 _ _ _ _ Hk Hr), (Forall_lookup_1 _ _ _ _ Hk' Hr'). lia.
Qed.

End Matrices.

(** ** The causal mask *)

Section SquareMask.

Import transformer_helpers.

Lemma generate_mask_spec sz :
  0 <= sz ->
  exists mask,
    _generate_square_subsequent_mask sz = Done mask /\
    rect (Z.to_nat sz) (Z.to_nat sz) mask /\
    forall i j, (i < Z.to_nat sz)%nat -> (j < Z.to_nat sz)%nat ->
      entry mask i j = Some (if (Nat.leb j i) then zero else neg_inf).
Proof.
  intros Hsz. unfold _generate_square_subsequent_mask, ones.
  assert ((sz <? 0) = false) as -> by lia. cbn [orb]. rewrite bind_Done.
  set (n := Z.to_nat sz).
  set (B := transpose n (map2d (fun x => SFeqb x one)
                           (triu (replicate n (replicate n one))))).
  assert (rect n n B) as HB.
  { apply rect_transpose, rect_map2d, rect_triu, rect_replicate. }
  assert (forall i j, (i < n)%nat -> (j < n)%nat ->
            entry B i j = Some (Nat.leb j i)) as HeB.
  { intros i j Hi Hj. unfold B.
    rewrite (entry_transpose n n)
      by (done || apply rect_map2d, rect_triu, rect_replicate).
    rewrite entry_map2d, entry_triu, entry_replicate by done. cbn.
    by destruct (Nat.leb j i). }
  eexists. split; [reflexivity|]. split.
  - repeat apply rect_masked_fill; unfold eq_int, to_float; by apply rect_map2d.
  - intros i j Hi Hj.
    rewrite !entry_masked_fill. unfold eq_int, to_float.
    rewrite !entry_map2d, (HeB i j Hi Hj). cbn.
    by destruct (Nat.leb j i).
Qed.

Lemma generate_mask_Done sz mask :
  _generate_square_subsequent_mask sz = Done mask ->
  0 <= sz /\ length mask = Z.to_nat sz.
Proof.
  intros H. destruct (Z.ltb_spec sz 0) as [Hneg|Hpos].
  - revert H. unfold _generate_square_subsequent_mask, ones.
    assert ((sz <? 0) = true) as -> by lia. discriminate.
  - destruct (generate_mask_spec sz Hpos) as (m & Hm & [Hlen _] & _).
    rewrite Hm in H. injection H as <-. done.
Qed.

(** X13.  The causal mask of side [sz]: a square of [sz] rows and columns
    whose entry at row [i], column [j] is 0 for [j <= i] and minus infinity
    for [j > i], so that position [i] attends to itself and to what comes
    before; a negative side raises. *)
Theorem square_subsequent_mask_entries sz :
  (sz < 0 -> _generate_square_subsequent_mask sz = Fails RuntimeError) /\
  (0 <= sz ->
   exists mask,
     _generate_square_subsequent_mask sz = Done mask /\
     rect (Z.to_nat sz) (Z.to_nat sz) mask /\
     forall i j, (i < Z.to_nat sz)%nat -> (j < Z.to_nat sz)%nat ->
       entry mask i j = Some (if (Nat.leb j i) then zero else neg_inf)).
Proof.
  split.
  - intros Hneg. unfold _generate_square_subsequent_mask, ones.
    by assert ((sz <? 0) = true) as -> by lia.
  - apply generate_mask_spec.
Qed.

End SquareMask.

Lemma square_subsequent_mask_entries_witness :
  transformer_helpers._generate_square_subsequent_mask (-1)
  = transformer_helpers.Fails transformer_helpers.RuntimeError /\
  exists mask,
    transformer_helpers._generate_square_subsequent_mask 3
    = transformer_helpers.Done mask /\
    transformer_helpers.entry mask 2 1 = Some transformer_helpers.zero /\
    transformer_helpers.entry mask 1 2 = Some transformer_helpers.neg_inf.
Proof.
  split.
  - apply (proj1 (square_subsequent_mask_entries (-1))). lia.
  - destruct (proj2 (square_subsequent_mask_entries 3) ltac:(lia))
      as (mask & Hm & _ & He).
    exists mask. split; [exact Hm|]. split.
    + apply (He 2%nat 1%nat); simpl; lia.
    + apply (He 1%nat 2%nat); simpl; lia.
Defined.

(** ** The padding mask *)

Section PaddingMask.

Import transformer_helpers.

Lemma foldl_max_spec l : forall x,
  (foldl Z.max x l = x \/ foldl Z.max x l ∈ l) /\
  x <= foldl Z.max x l /\
  Forall (fun y => y <= foldl Z.max x l) l.
Proof.
  induction l as [|y l IH]; intros x; simpl.
  - split; [by left|]. split; [lia|done].
  - destruct (IH (Z.max x y)) as (Hor & Hle & Hall). split_and!.
    + destruct Hor as [E|Hin]; [|right; by right].
      destruct (Z.max_spec x y) as [[_ E']|[_ E']].
      * right. apply elem_of_cons. left. congruence.
      * left. congruence.
    + lia.
    + constructor; [lia|done].
Qed.

Lemma tensor_max_Done lengths n :
  tensor_max lengths = Done n ->
  n ∈ lengths /\ Forall (fun len => len <= n) lengths.
Proof.
  destruct lengths as [|x l]; [discriminate|]. simpl. intros [= <-].
  destruct (foldl_max_spec l x) as ([E|Hin] & Hle & Hall).
  - split; [rewrite E; by left|]. constructor; done.
  - split; [by right|]. constructor; done.
Qed.

(** X14.  [len_to_mask] returns the mask with one row per time step
    below [lengths.max()] and one column per sequence: the entry at step [t]
    of sequence [l] tells whether [t < lengths[l]], negated when [zeros] is
    set.  It raises on an empty tensor of lengths and when no length is
    positive or zero. *)
Theorem len_to_mask_entries lengths zeros :
  (lengths = [] -> len_to_mask lengths zeros = Fails RuntimeError) /\
  (forall n, tensor_max lengths = Done n ->
     n ∈ lengths /\ Forall (fun len => len <= n) lengths /\
     (n < 0 -> len_to_mask lengths zeros = Fails RuntimeError) /\
     (0 <= n ->
      exists mask,
        len_to_mask lengths zeros = Done mask /\
        rect (Z.to_nat n) (length lengths) mask /\
        forall t l len, (t < Z.to_nat n)%nat -> lengths !! l = Some len ->
          entry mask t l = Some (xorb zeros (Z.of_nat t <? len)))).
Proof.
  split; [by intros ->|].
  intros n Hmax. destruct (tensor_max_Done _ _ Hmax) as [Hin Hall].
  split; [done|]. split; [done|].
  unfold len_to_mask. rewrite Hmax, bind_Done. unfold arange. split.
  - intros Hneg. by assert ((n <? 0) = true) as -> by lia.
  - intros Hpos. assert ((n <? 0) = false) as -> by lia. rewrite bind_Done.
    rewrite range_from_length.
    set (steps := range_from 0 (Z.to_nat n)).
    set (M := (fun len => (fun t => t <? len) <$> steps) <$> lengths).
    assert (rect (length lengths) (Z.to_nat n) M) as HM.
    { unfold M. split; [by rewrite length_fmap|].
      apply Forall_fmap, Forall_true. intros len. cbn.
      unfold steps. by rewrite length_fmap, range_from_length. }
    assert (forall t l len, (t < Z.to_nat n)%nat -> lengths !! l = Some len ->
              entry M l t = Some (Z.of_nat t <? len)) as HeM.
    { intros t l len Ht Hl. unfold entry, M.
      rewrite list_lookup_fmap, Hl. cbn. rewrite list_lookup_fmap.
      unfold steps. rewrite range_from_lookup by done. done. }
    eexists. split; [reflexivity|]. split.
    + apply rect_transpose. destruct zeros; [by apply rect_map2d|done].
    + intros t l len Ht Hl. destruct zeros.
      * rewrite (entry_transpose (length lengths) (Z.to_nat n))
          by (done || by apply rect_map2d).
        by rewrite entry_map2d, (HeM t l len Ht Hl).
      * rewrite (entry_transpose (length lengths) (Z.to_nat n)) by done.
        by rewrite (HeM t l len Ht Hl).
Qed.

End PaddingMask.

Lemma len_to_mask_entries_witness :
  transformer_helpers.len_to_mask [] true
  = transformer_helpers.Fails transformer_helpers.RuntimeError /\
  transformer_helpers.len_to_mask [-1; -2] false
  = transformer_helpers.Fails transformer_helpers.RuntimeError /\
  exists mask,
    transformer_helpers.len_to_mask [2; 1] true = transformer_helpers.Done mask /\
    transformer_helpers.rect 2 2 mask /\
    transformer_helpers.entry mask 1 0 = Some false /\
    transformer_helpers.entry mask 1 1 = Some true.
Proof.
  split; [|split].
  - apply (proj1 (len_to_mask_entries [] true)). reflexivity.
  - apply (proj2 (len_to_mask_entries [-1; -2] false) (-1)); [reflexivity|lia].
  - destruct (proj2 (len_to_mask_entries [2; 1] true) 2 eq_refl)
      as (_ & _ & _ & H).
    destruct (H ltac:(lia)) as (mask & Hm & Hrect & He).
    exists mask. split; [exact Hm|]. split; [exact Hrect|]. split.
    + apply (He 1%nat 0%nat 2); [simpl; lia|reflexivity].
    + apply (He 1%nat 1%nat 1); [simpl; lia|reflexivity].
Defined.

(** ** Chunks *)

Section Chunks.

Import transformer_helpers.

Lemma slice_to_all_but_last {A} (l : list A) :
  slice_to (Z.of_nat (length l) - 1) l = take (length l - 1) l.
Proof.
  unfold slice_to. destruct (Z.ltb_spec (Z.of_nat (length l) - 1) 0).
  - f_equal. lia.
  - f_equal. lia.
Qed.

Lemma slice_to_len_all_but_last (n : nat) :
  slice_to_len (Z.of_nat n - 1) n = (n - 1)%nat.
Proof.
  unfold slice_to_len. destruct (Z.ltb_spec (Z.of_nat n - 1) 0); lia.
Qed.

Lemma wrap64_id z : - 2 ^ 63 <= z < 2 ^ 63 -> wrap64 z = z.
Proof. intros Hz. unfold wrap64. rewrite Z.mod_small; lia. Qed.

(** X15.  [get_chunk] on a well-shaped [(b, n, d)] tensor: the data are
    the sequences without their last step and the targets the sequences
    without their first, both of shape [(b, n - 1, d)], so that the target
    at step [t] is the source at step [t + 1]; neither depends on [start]
    or [step].  The chunk lengths are [lengths - 1 - start] brought into
    [0 .. step]. *)
Theorem get_chunk_data_targets_lengths
    source source_lengths start step b n d data target lengths :
  well_shaped source -> shape source = (b, n, d) ->
  get_chunk source source_lengths start step = (data, target, lengths) ->
  shape data = (b, (n - 1)%nat, d) /\ well_shaped data /\
  shape target = (b, (n - 1)%nat, d) /\ well_shaped target /\
  (forall i t, (t < n - 1)%nat ->
     entry (items data) i t = entry (items source) i t) /\
  (forall i t, entry (items target) i t = entry (items source) i (S t)) /\
  (forall start' step',
     (get_chunk source source_lengths start' step').1 = (data, target)) /\
  length lengths = length source_lengths /\
  (0 <= step -> Forall (fun len => 0 <= len <= step) lengths) /\
  (forall l len, source_lengths !! l = Some len ->
     0 <= start -> 1 <= len < 2 ^ 63 -> start < 2 ^ 63 -> 0 <= step ->
     lengths !! l = Some (Z.min (Z.max (len - 1 - start) 0) step)).
Proof.
  destruct source as [sh its]. intros Hws Hsh Hget. cbn [shape] in Hsh. subst sh.
  unfold well_shaped in Hws. cbn [shape items] in Hws. destruct Hws as [Hb Hrows].
  unfold get_chunk in Hget. cbn [shape items] in Hget. injection Hget as <- <- <-.
  cbn [shape items].
  assert (slice_to (Z.of_nat n - 1) <$> its = take (n - 1) <$> its) as Hdata.
  { apply list_eq. intros i. rewrite !list_lookup_fmap.
    destruct (its !! i) as [seq|] eqn:Hi; [|done]. cbn. f_equal.
    destruct (Forall_lookup_1 _ _ _ _ Hrows Hi) as [Hn _].
    rewrite <- Hn. apply slice_to_all_but_last. }
  rewrite Hdata, slice_to_len_all_but_last. split_and!.
  - done.
  - unfold well_shaped. cbn [shape items].
    split; [by rewrite length_fmap|]. apply Forall_fmap.
    eapply Forall_impl; [exact Hrows|]. intros seq [Hn Hd]. cbn. split.
    + rewrite length_take. lia.
    + by apply Forall_take.
  - done.
  - unfold well_shaped. cbn [shape items].
    split; [by rewrite length_fmap|]. apply Forall_fmap.
    eapply Forall_impl; [exact Hrows|]. intros seq [Hn Hd]. cbn. split.
    + rewrite length_drop. lia.
    + by apply Forall_drop.
  - intros i t Ht. unfold entry. rewrite list_lookup_fmap.
    destruct (its !! i) as [seq|]; [|done]. cbn. by rewrite lookup_take_lt.
  - intros i t. unfold entry. rewrite list_lookup_fmap.
    destruct (its !! i) as [seq|]; [|done]. cbn. by rewrite lookup_drop.
  - intros start' step'. unfold get_chunk. cbn [shape items fst].
    by rewrite Hdata, slice_to_len_all_but_last.
  - by rewrite length_fmap.
  - intros Hstep. apply Forall_fmap, Forall_true. intros len. cbn.
    unfold clamp. lia.
  - intros l len Hl Hstart Hlen Hstart' Hstep.
    rewrite list_lookup_fmap, Hl. cbn. unfold clamp.
    rewrite (wrap64_id (len - 1)) by lia. rewrite wrap64_id by lia. done.
Qed.

End Chunks.

Lemma get_chunk_data_targets_lengths_witness :
  let source :=
    {| transformer_helpers.shape := (1, 3, 1)%nat;
       transformer_helpers.items := [[[F64.of_Z 1]; [F64.of_Z 2]; [F64.of_Z 3]]] |} in
  exists data target,
    transformer_helpers.get_chunk source [3] 0 3 = (data, target, [2]) /\
    transformer_helpers.shape data = (1, 2, 1)%nat /\
    transformer_helpers.entry (transformer_helpers.items target) 0 1
    = Some [F64.of_Z 3].
Proof.
  intros source.
  destruct (transformer_helpers.get_chunk source [3] 0 3) as [[data target] lengths]
    eqn:Hget.
  assert (lengths = [2]) as -> by (injection Hget as _ _ <-; reflexivity).
  exists data, target. split; [reflexivity|].
  assert (transformer_helpers.well_shaped source) as Hws.
  { split; [reflexivity|]. repeat constructor. }
  destruct (get_chunk_data_targets_lengths source [3] 0 3 1 3 1 data target [2]
              Hws eq_refl Hget) as (Hsd & _ & _ & _ & _ & Ht & _).
  split; [exact Hsd|]. rewrite Ht. reflexivity.
Defined.

(** ** The mask cache of [forward] and the chunks of [bptt] *)

Section EncoderFacts.

Import transformer_helpers.

Context {Modules Loss Device : Type}.
Variable pos_encoder : Modules -> Tensor3 -> Modules * outcome Tensor3.
Variable transformer_encoder :
  Modules -> Tensor3 -> Placed Device (list (list float)) ->
  Placed Device (list (list bool)) -> Modules * outcome Tensor3.
Variable criterion : Tensor3 -> Tensor3 -> list Z -> outcome Loss.
Variable add_int : Z -> Loss -> Loss.
Variable add : Loss -> Loss -> Loss.

Implicit Types self : @TransformerEncoder Modules Device.
Implicit Types device : Device.

Local Abbreviation encode := (encode pos_encoder transformer_encoder).
Local Abbreviation forward := (forward pos_encoder transformer_encoder).
Local Abbreviation bptt := (bptt pos_encoder transformer_encoder criterion add_int add).

Lemma init_mask_generated (mods : Modules) :
  mask_generated (__init__ (Device := Device) mods).
Proof. intros mask H. discriminate H. Qed.

(** Under the invariant the first statement of [forward] leaves a mask
    with the entries generated for the size of its input; the mask is on
    the device of this call unless the cached one was kept. *)
Lemma checked_mask_generated self src device :
  mask_generated self ->
  exists values,
    _generate_square_subsequent_mask (size0 src) = Done values /\
    match reuses self src with
    | Some cached =>
        tensor cached = values /\ checked_mask self src device = Done (self, cached)
    | None =>
        checked_mask self src device
        = Done (set_src_mask (to device values) self, to device values)
    end.
Proof.
  intros Hgen.
  destruct (generate_mask_spec (size0 src)) as (g & Hg & _); [unfold size0; lia|].
  exists g. split; [done|]. unfold reuses, checked_mask.
  destruct (src_mask self) as [cached|] eqn:Hc.
  - destruct (Z.eqb_spec (Z.of_nat (length (tensor cached))) (size0 src))
      as [E|NE]; cbn [negb].
    + split; [|reflexivity].
      destruct (Hgen cached Hc) as (sz & Hsz & Hm).
      destruct (generate_mask_Done _ _ Hm) as [_ Hlen].
      assert (sz = size0 src) as -> by lia.
      rewrite Hg in Hm. by injection Hm as <-.
    + rewrite Hg. reflexivity.
  - rewrite Hg. reflexivity.
Qed.

Lemma encode_src_mask self mask src lengths device :
  src_mask (encode self mask src lengths device).1 = src_mask self.
Proof.
  unfold transformer_helpers.encode.
  destruct (pos_encoder _ _) as [mods [src'|e]]; [|reflexivity].
  destruct (len_to_mask lengths true) as [lm|e]; [|reflexivity].
  destruct (transformer_encoder _ _ _ _) as [mods' r]. reflexivity.
Qed.

Lemma forward_src_mask self src lengths device :
  mask_generated self ->
  exists values,
    _generate_square_subsequent_mask (size0 src) = Done values /\
    src_mask (forward self src lengths device).1
    = Some (to (match reuses self src with
                | Some cached => placed_on cached
                | None => device
                end) values).
Proof.
  intros Hgen. unfold transformer_helpers.forward.
  destruct (checked_mask_generated self src device Hgen) as (g & Hg & Hck).
  exists g. split; [done|].
  destruct (reuses self src) as [cached|] eqn:Hre.
  - destruct Hck as [<- ->]. rewrite encode_src_mask.
    unfold reuses in Hre. destruct (src_mask self) as [c|]; [|done].
    destruct (_ =? _); [|done]. injection Hre as ->. by destruct cached.
  - rewrite Hck, encode_src_mask. reflexivity.
Qed.

(** X16.  The mask cache of [forward] is tested by size alone.  From
    [__init__] on, the entries of the cached mask are always generated
    ones, and after a call they are those generated for the size of its
    input, never those of another size.  The device is another matter: a
    cached mask of the right size is handed to the encoder layers as it is,
    on the device of the call that generated it, whatever [device] is now.
    A call behaves as a call on an encoder without a cached mask does
    (same result or exception, same encoder afterwards) provided no mask of
    the right size on another device is cached. *)
Theorem forward_mask_cache_tests_size_only self src lengths device :
  (forall mods : Modules, mask_generated (__init__ (Device := Device) mods)) /\
  (mask_generated self ->
     mask_generated (forward self src lengths device).1 /\
     (exists values,
        _generate_square_subsequent_mask (size0 src) = Done values /\
        src_mask (forward self src lengths device).1
        = Some (to (match reuses self src with
                    | Some cached => placed_on cached
                    | None => device
                    end) values)) /\
     (forall cached, reuses self src = Some cached ->
        forward self src lengths device = encode self cached src lengths device) /\
     ((forall cached, reuses self src = Some cached -> placed_on cached = device) ->
        forward self src lengths device
        = forward (__init__ (modules self)) src lengths device)).
Proof.
  split; [apply init_mask_generated|]. intros Hgen.
  destruct (forward_src_mask self src lengths device Hgen) as (g & Hg & Hs).
  split; [|split; [|split]].
  - intros mask Hmask. rewrite Hs in Hmask. injection Hmask as <-.
    exists (size0 src). split; [unfold size0; lia|done].
  - by exists g.
  - intros cached Hre. unfold transformer_helpers.forward.
    destruct (checked_mask_generated self src device Hgen) as (g' & _ & Hck).
    rewrite Hre in Hck. destruct Hck as [_ ->]. reflexivity.
  - intros Hdev. unfold transformer_helpers.forward.
    destruct (checked_mask_generated self src device Hgen) as (g1 & Hg1 & Hck).
    destruct (checked_mask_generated (__init__ (modules self)) src device
                (init_mask_generated _)) as (g2 & Hg2 & Hck2).
    unfold reuses in Hck2. cbn [__init__ src_mask] in Hck2.
    rewrite Hck2. clear Hck2.
    rewrite Hg1 in Hg2. injection Hg2 as <-.
    destruct (reuses self src) as [cached|] eqn:Hre.
    + destruct Hck as [Hval ->]. specialize (Hdev cached eq_refl).
      unfold reuses in Hre. destruct (src_mask self) as [c|] eqn:Hc; [|done].
      destruct (_ =? _); [|done]. injection Hre as ->.
      assert (cached = to device g1) as Hcached.
      { destruct cached as [v d]. cbn in Hval, Hdev. by subst. }
      assert (self = set_src_mask (to device g1) (__init__ (modules self))) as Hself.
      { destruct self as [sm mods]. cbn in Hc. subst sm. by rewrite Hcached. }
      rewrite Hcached. rewrite Hself at 1. reflexivity.
    + rewrite Hck. reflexivity.
Qed.

Lemma py_range3_single n : 0 < n -> py_range3 0 n n = Done [0].
Proof.
  intros Hn. unfold py_range3.
  assert ((n =? 0) = false) as -> by lia.
  assert ((0 <? n) = true) as -> by lia.
  replace ((n - 0 + n - 1) / n) with 1; [reflexivity|].
  apply (Z.div_unique _ _ 1 (n - 1)); lia.
Qed.

(** X17.  [bptt] cuts the batch into chunks of [timesteps] steps, that is
    into one chunk: without time steps it raises [ValueError] and leaves
    the encoder as it is; otherwise it is one call of [forward] on the chunk
    that starts at 0, and the loss is 0 plus the one criterion value.  The
    mask that call leaves cached has the batch size as its side; it is on
    [device] unless a cached mask of that size was kept. *)
Theorem bptt_runs_one_chunk self train_batch len_batch device b n d :
  shape train_batch = (b, n, d) ->
  (n = 0%nat ->
     bptt self (train_batch, len_batch) device
     = (self, Fails (Builtin ValueError))) /\
  ((0 < n)%nat ->
     forall data targets lengths,
       get_chunk train_batch len_batch 0 (Z.of_nat n) = (data, targets, lengths) ->
       bptt self (train_batch, len_batch) device
       = ((forward self data lengths device).1,
          output ← (forward self data lengths device).2;
          x ← criterion output targets lengths;
          Done (output, Tensor0 (add_int 0 x))) /\
       size0 data = Z.of_nat b /\
       (mask_generated self ->
          exists mask,
            _generate_square_subsequent_mask (Z.of_nat b) = Done mask /\
            src_mask (bptt self (train_batch, len_batch) device).1
            = Some (to (match reuses self data with
                        | Some cached => placed_on cached
                        | None => device
                        end) mask))).
Proof.
  intros Hshape.
  assert (forall data targets lengths,
            (0 < n)%nat ->
            get_chunk train_batch len_batch 0 (Z.of_nat n) = (data, targets, lengths) ->
            bptt self (train_batch, len_batch) device
            = ((forward self data lengths device).1,
               output ← (forward self data lengths device).2;
               x ← criterion output targets lengths;
               Done (output, Tensor0 (add_int 0 x)))) as Hrun.
  { intros data targets lengths Hn Hget. unfold transformer_helpers.bptt.
    rewrite Hshape. rewrite py_range3_single by lia. cbn [bptt_loop].
    rewrite Hget.
    destruct (forward self data lengths device) as [self' [output|e]]; [|reflexivity].
    cbn [fst snd]. rewrite bind_Done.
    destruct (criterion output targets lengths) as [x|e]; reflexivity. }
  split.
  - intros ->. unfold transformer_helpers.bptt. rewrite Hshape. reflexivity.
  - intros Hn data targets lengths Hget.
    assert (size0 data = Z.of_nat b) as Hsize.
    { revert Hget. unfold get_chunk. rewrite Hshape. intros [= <- _ _]. reflexivity. }
    split; [by apply Hrun|]. split; [exact Hsize|].
    intros Hgen. rewrite (Hrun _ _ _ Hn Hget). cbn [fst].
    rewrite <- Hsize.
    destruct (forward_src_mask self data lengths device Hgen) as (g & Hg & ->).
    by exists g.
Qed.

End EncoderFacts.

Lemma forward_mask_cache_tests_size_only_witness :
  let cached := transformer_helpers.to "cuda" [[transformer_helpers.zero]] in
  let self :=
    {| transformer_helpers.src_mask := Some cached;
       transformer_helpers.modules := 0%nat |} in
  (ToyEncoder.forward self ToyEncoder.sequence [3] "cpu").2
  = transformer_helpers.Fails transformer_helpers.RuntimeError /\
  (ToyEncoder.forward (transformer_helpers.__init__ 0%nat) ToyEncoder.sequence [3]
     "cpu").2
  = transformer_helpers.Done ToyEncoder.sequence /\
  transformer_helpers.src_mask
    (ToyEncoder.forward self ToyEncoder.sequence [3] "cpu").1
  = Some cached /\
  ToyEncoder.forward self ToyEncoder.sequence [3] "cuda"
  = ToyEncoder.forward (transformer_helpers.__init__ 0%nat) ToyEncoder.sequence [3]
      "cuda".
Proof.
  intros cached self.
  assert (transformer_helpers.mask_generated self) as Hgen.
  { intros mask [= <-]. exists 1. split; [lia|reflexivity]. }
  destruct (proj2 (forward_mask_cache_tests_size_only
                     ToyEncoder.pos_encoder ToyEncoder.transformer_encoder
                     self ToyEncoder.sequence [3] "cpu") Hgen)
    as (_ & (values & Hvalues & Hmask) & Hstale & _).
  destruct (proj2 (forward_mask_cache_tests_size_only
                     ToyEncoder.pos_encoder ToyEncoder.transformer_encoder
                     self ToyEncoder.sequence [3] "cuda") Hgen)
    as (_ & _ & _ & Hsame).
  split; [|split; [|split]].
  - unfold ToyEncoder.forward. rewrite (Hstale cached eq_refl). reflexivity.
  - reflexivity.
  - unfold ToyEncoder.forward. rewrite Hmask.
    vm_compute in Hvalues. injection Hvalues as <-. reflexivity.
  - unfold ToyEncoder.forward. apply Hsame.
    intros c [= <-]. reflexivity.
Defined.

Lemma bptt_runs_one_chunk_witness :
  let self := transformer_helpers.__init__ (Device := string) 0%nat in
  let empty := {| transformer_helpers.shape := (1, 0, 1)%nat;
                  transformer_helpers.items := [[]] |} in
  ToyEncoder.bptt self (empty, [0]) "cpu"
  = (self, transformer_helpers.Fails
             (transformer_helpers.Builtin ValueError)) /\
  exists data self',
    ToyEncoder.bptt self (ToyEncoder.sequence, [3]) "cpu"
    = (self', transformer_helpers.Done (data, transformer_helpers.Tensor0 2)) /\
    transformer_helpers.shape data = (1, 2, 1)%nat /\
    transformer_helpers.src_mask self'
    = Some (transformer_helpers.to "cpu" [[transformer_helpers.zero]]).
Proof.
  intros self empty. split.
  - apply (proj1 (bptt_runs_one_chunk ToyEncoder.pos_encoder
                    ToyEncoder.transformer_encoder ToyEncoder.criterion Z.add Z.add
                    self empty [0] "cpu" 1%nat 0%nat 1%nat eq_refl)).
    reflexivity.
  - destruct (transformer_helpers.get_chunk ToyEncoder.sequence [3] 0 3)
      as [[data targets] lengths] eqn:Hget.
    destruct (proj2 (bptt_runs_one_chunk ToyEncoder.pos_encoder
                       ToyEncoder.transformer_encoder ToyEncoder.criterion Z.add Z.add
                       self ToyEncoder.sequence [3] "cpu" 1%nat 3%nat 1%nat eq_refl)
                ltac:(lia) data targets lengths Hget) as (Hrun & _ & _).
    injection Hget as <- <- <-.
    eexists _, _. split; [exact Hrun|]. split; reflexivity.
Defined.
